(** * Anti-Fraud Transaction Monitoring System: rules, alerts and cases

    A shallow embedding of the backend routes that create, update, test and
    delete detection rules, create and update alerts, and create cases and link
    alerts to them, together with the PostgreSQL tables they act on
    ([backend/config/database.js]).

    Modelling conventions.
    - A table is the list of its rows in insertion order.  SERIAL keys come
      from a sequence kept in the database; [nextval] is consumed by an
      INSERT whether or not it succeeds and is not undone by ROLLBACK.
    - A statement that violates a constraint raises the PostgreSQL error the
      handlers and the error middleware look at ([err.code]).
    - Handlers are written in a state-and-exception monad over the server
      state; [respond] is the early [return res.status(..).json(..)].
    - Request bodies are taken after JSON parsing, each field carrying a
      value of its JavaScript type: numbers are rationals, numbers that Joi
      constrains with [integer()] and ids are integers.  Timestamps are
      integers (milliseconds); enumerated columns are strings, as in the
      code.  Integer parameters are assumed to fit PostgreSQL's INTEGER
      ([fits_integer]); a statement whose reply depends on it says so.
      Amounts are stored as the rationals given: the rounding of a
      DECIMAL(15,2) column is not modelled and no statement reads a stored
      amount back.
    - [Date.now()], [new Date().getFullYear()] and [Math.random()] are read
      from an environment passed with the request. *)

From Stdlib Require Import ZArith QArith List String Ascii Bool Lia.
From Stdlib Require Import Sorted Permutation DecimalString.
Import ListNotations.
Local Open Scope string_scope.
Local Open Scope Z_scope.

(** ** Small utilities *)

(** [String(n)] for an integer. *)
Definition dec (z : Z) : string := NilZero.string_of_int (Z.to_int z).

(** [s.slice(-n)]: the last [n] characters. *)
Definition slice_last (n : nat) (s : string) : string :=
  substring (String.length s - n) n s.

(** [xs.includes(x)] and SQL's [x = ANY(xs)] on strings. *)
Definition includes (xs : list string) (x : string) : bool :=
  existsb (String.eqb x) xs.

Definition opt_eqb (a : option Z) (b : Z) : bool :=
  match a with Some x => x =? b | None => false end.

(** A JavaScript number is truthy unless it is zero. *)
Definition truthyZ (z : Z) : bool := negb (z =? 0).
Definition truthyQ (q : Q) : bool := negb (Qeq_bool q 0).
Definition truthyS (s : string) : bool := negb (String.eqb s "").

(** Values stored in the free-form [details] column. *)
Inductive jval := JStr (s : string) | JNum (z : Z).

(** [{...obj, key: v}]: an existing key keeps its place, a new one goes last. *)
Fixpoint obj_set (obj : list (string * jval)) (k : string) (v : jval)
  : list (string * jval) :=
  match obj with
  | [] => [(k, v)]
  | (k', v') :: rest =>
      if String.eqb k' k then (k', v) :: rest else (k', v') :: obj_set rest k v
  end.

Definition obj_spread (base extra : list (string * jval)) : list (string * jval) :=
  fold_left (fun acc kv => obj_set acc (fst kv) (snd kv)) extra base.

(** ** Rows of the tables *)

Record user := {
  u_id : Z;
  u_username : string;
  u_role : string
}.

Record account := {
  acc_id : Z;
  acc_customer_id : option Z
}.

(** A row of [transactions].  The rule tester only ever returns rows that
    pass a comparison on [processed_at], so rows with a NULL there are left
    out of the model. *)
Record transaction := {
  t_id : Z;
  t_transaction_id : string;
  from_account_id : option Z;
  to_account_id : option Z;
  amount : Q;
  currency : option string;
  transaction_type : string;
  channel : string;
  location_country : option string;
  processed_at : Z
}.

(** The [conditions] JSONB object of a rule, one optional field per key of
    [ruleSchema]. *)
Record rule_conditions := {
  minAmount : option Q;
  maxAmount : option Q;
  cond_currency : option string;
  transactionCount : option Z;
  timeWindow : option string;
  transactionTypes : option (list string);
  channels : option (list string);
  roundAmounts : option bool;
  blockedCountries : option (list string);
  timeZoneMismatch : option bool;
  velocityThreshold : option Q;
  velocityWindow : option string
}.

Record rule := {
  r_id : Z;
  r_name : string;
  r_description : option string;
  rule_type : string;
  conditions : rule_conditions;
  r_severity : string;
  is_active : bool;
  r_created_by : option Z;
  r_created_at : Z;
  r_updated_at : Z
}.

Record alert := {
  a_id : Z;
  alert_id : string;
  a_transaction_id : option Z;
  a_rule_id : option Z;
  a_customer_id : option Z;
  alert_type : string;
  a_severity : string;
  a_status : string;
  a_details : list (string * jval);
  assigned_to : option Z;
  a_created_at : Z;
  a_updated_at : Z
}.

Record case := {
  c_id : Z;
  case_number : string;
  c_title : string;
  c_description : string;
  case_type : string;
  c_priority : string;
  c_status : string;
  c_assigned_to : option Z;
  c_created_by : option Z;
  estimated_loss : option Q;
  c_created_at : Z
}.

Record case_alert := {
  ca_id : Z;
  ca_case_id : Z;
  ca_alert_id : Z;
  added_at : Z
}.

Record database := {
  users : list user;
  customers : list Z;
  accounts : list account;
  transactions : list transaction;
  detection_rules : list rule;
  alerts : list alert;
  cases : list case;
  case_alerts : list case_alert;
  detection_rules_id_seq : Z;
  alerts_id_seq : Z;
  cases_id_seq : Z;
  case_alerts_id_seq : Z
}.

(** ** Responses, log entries and the server state *)

(** A Joi validation error: the key it is reported on and Joi's error type. *)
Record joi_error := { joi_path : string; joi_type : string }.

Inductive pg_error :=
| unique_violation          (* 23505 *)
| foreign_key_violation     (* 23503 *)
| check_violation           (* 23514 *)
| undefined_column          (* 42703 *)
| invalid_row_count.        (* 2201W, a negative LIMIT *)

(** A transaction row returned by the rule tester, with its
    [trigger_reason] column. *)
Record match_row := {
  m_txn : transaction;
  trigger_reason : string
}.

Inductive payload :=
| JError (error : string)
| JInvalid (error : string) (details : joi_error)
| JDenied (error : string) (required : list string) (current : string)
| JAlertCount (error : string) (alertCount : Z)
| JFailed (error : string) (details : pg_error)
| JUnhandled (error : string) (status : Z)
| JMessage (message : string)
| JRule (message : string) (r : rule)
| JAlert (message : string) (a : alert)
| JCase (message : string) (c : case)
| JTest (message : string) (id : Z) (name ruleType : string)
        (startDate endDate : option Z)
        (matches : list match_row) (matchCount : Z).

Record response := { status : Z; body : payload }.

(** [logger.audit(action, userId, resourceType, resourceId, ..)]. *)
Record audit_entry := {
  action : string;
  audit_user : Z;
  resource_type : string;
  resource_id : Z
}.

(** [io.emit(event, {id, ..})]. *)
Record socket_event := { event : string; event_id : Z }.

Record world := {
  db : database;
  audit_log : list audit_entry;
  emitted : list socket_event
}.

Record env := {
  now : Z;
  year : Z;
  rnd : string;
  socketio : bool
}.

(** ** The handler monad *)

Inductive outcome (A : Type) :=
| Value (a : A)
| Reply (r : response)
| Throw (e : pg_error).
Arguments Value {A} a.
Arguments Reply {A} r.
Arguments Throw {A} e.

Definition M (A : Type) : Type := world -> world * outcome A.

Definition ret {A} (a : A) : M A := fun w => (w, Value a).

Definition bind {A B} (m : M A) (k : A -> M B) : M B :=
  fun w =>
    match m w with
    | (w1, Value a) => k a w1
    | (w1, Reply r) => (w1, Reply r)
    | (w1, Throw e) => (w1, Throw e)
    end.

Notation "x <- m ;; k" := (bind m (fun x => k))
  (at level 61, m at next level, right associativity).
Notation "m ;;; k" := (bind m (fun _ => k))
  (at level 61, right associativity).

Definition respond {A} (st : Z) (b : payload) : M A :=
  fun w => (w, Reply {| status := st; body := b |}).

Definition throw {A} (e : pg_error) : M A := fun w => (w, Throw e).

(** [if (c) return res.status(st).json(b);] *)
Definition reject_if (c : bool) (st : Z) (b : payload) : M unit :=
  if c then respond st b else ret tt.

(** [try { body } catch (error) { handler(error) }] *)
Definition try_catch {A} (body : M A) (handler : pg_error -> M A) : M A :=
  fun w =>
    match body w with
    | (w1, Throw e) => handler e w1
    | other => other
    end.

Definition get_db : M database := fun w => (w, Value (db w)).

Definition put_db (d : database) : M unit :=
  fun w => ({| db := d; audit_log := audit_log w; emitted := emitted w |}, Value tt).

Definition audit (act : string) (uid : Z) (rtype : string) (rid : Z) : M unit :=
  fun w =>
    ({| db := db w;
        audit_log := (audit_log w ++ [{| action := act; audit_user := uid;
                                         resource_type := rtype;
                                         resource_id := rid |}])%list;
        emitted := emitted w |}, Value tt).

(** [const io = req.app.get('socketio'); if (io) io.emit(ev, {id, ..})] *)
Definition emit (e : env) (ev : string) (id : Z) : M unit :=
  fun w =>
    if socketio e then
      ({| db := db w; audit_log := audit_log w;
          emitted := (emitted w ++ [{| event := ev; event_id := id |}])%list |},
       Value tt)
    else (w, Value tt).

(** The error middleware ([errorHandler]) for what a handler throws. *)
Definition errorHandler (e : pg_error) : response :=
  match e with
  | unique_violation =>
      {| status := 409; body := JUnhandled "Resource already exists" 409 |}
  | foreign_key_violation =>
      {| status := 400; body := JUnhandled "Referenced resource does not exist" 400 |}
  | check_violation =>
      {| status := 400; body := JUnhandled "Data violates constraints" 400 |}
  | _ =>
      {| status := 500; body := JUnhandled "Internal Server Error" 500 |}
  end.

(** [asyncHandler(fn)]: run the handler, pass what it throws to
    [errorHandler].  A handler that ends without replying leaves the request
    unanswered ([None]). *)
Definition run (h : M unit) (w : world) : world * option response :=
  match h w with
  | (w1, Value _) => (w1, None)
  | (w1, Reply r) => (w1, Some r)
  | (w1, Throw e) => (w1, Some (errorHandler e))
  end.

(** [authorize(allowedRoles)] *)
Definition authorize (allowedRoles : list string) (u : option user) : M user :=
  match u with
  | None => respond 401 (JError "Authentication required.")
  | Some usr =>
      if includes allowedRoles (u_role usr) then ret usr
      else respond 403 (JDenied "Access denied. Insufficient permissions."
                                allowedRoles (u_role usr))
  end.

(** ** Joi validation *)

Definition check (path type : string) (ok : bool) : option joi_error :=
  if ok then None else Some {| joi_path := path; joi_type := type |}.

(** Joi stops at the first error ([abortEarly]). *)
Fixpoint first_error (cs : list (option joi_error)) : option joi_error :=
  match cs with
  | [] => None
  | Some e :: _ => Some e
  | None :: rest => first_error rest
  end.

(** [.optional()]: an absent key passes. *)
Definition optional {A} (o : option A) (f : A -> option joi_error) : option joi_error :=
  match o with
  | None => None
  | Some a => f a
  end.

(** [.required()] *)
Definition required {A} (path : string) (o : option A) (f : A -> option joi_error)
  : option joi_error :=
  match o with
  | None => Some {| joi_path := path; joi_type := "any.required" |}
  | Some a => f a
  end.

Definition MAX_SAFE_INTEGER : Z := 9007199254740991.

(** [Joi.string()], with [.min(lo)] and [.max(hi)] when given. *)
Definition joi_string (path : string) (lo hi : option nat) (s : string)
  : option joi_error :=
  first_error
    [ check path "string.empty" (negb (String.eqb s ""));
      check path "string.min"
        (match lo with Some n => Nat.leb n (String.length s) | None => true end);
      check path "string.max"
        (match hi with Some n => Nat.leb (String.length s) n | None => true end) ].

(** [Joi.string().length(n)] *)
Definition joi_string_length (path : string) (n : nat) (s : string)
  : option joi_error :=
  first_error
    [ check path "string.empty" (negb (String.eqb s ""));
      check path "string.length" (Nat.eqb (String.length s) n) ].

(** [Joi.string().valid(..)] *)
Definition joi_valid (path : string) (allowed : list string) (s : string)
  : option joi_error :=
  check path "any.only" (includes allowed s).

(** [Joi.number().min(lo)] *)
Definition joi_number_min (path : string) (lo : Q) (q : Q) : option joi_error :=
  first_error
    [ check path "number.unsafe"
        (Qle_bool (inject_Z (- MAX_SAFE_INTEGER)) q
         && Qle_bool q (inject_Z MAX_SAFE_INTEGER));
      check path "number.min" (Qle_bool lo q) ].

(** [Joi.number().integer()], with [.min(lo)] and [.max(hi)] when given. *)
Definition joi_integer (path : string) (lo hi : option Z) (z : Z) : option joi_error :=
  first_error
    [ check path "number.unsafe"
        ((- MAX_SAFE_INTEGER <=? z) && (z <=? MAX_SAFE_INTEGER));
      check path "number.min"
        (match lo with Some n => n <=? z | None => true end);
      check path "number.max"
        (match hi with Some n => z <=? n | None => true end) ].

(** [Joi.array().items(item)] *)
Definition joi_array {A} (item : A -> option joi_error) (l : list A) : option joi_error :=
  first_error (map item l).

Definition severities : list string := ["low"; "medium"; "high"; "critical"].
Definition rule_types : list string :=
  ["amount"; "frequency"; "pattern"; "location"; "velocity"].
Definition alert_statuses : list string :=
  ["new"; "investigating"; "escalated"; "closed"; "false_positive"].
Definition alert_types : list string := ["rule_based"; "ml_anomaly"; "manual"].
Definition case_types : list string := ["fraud"; "aml"; "sanctions"; "other"].
Definition case_priorities : list string := ["low"; "medium"; "high"; "urgent"].
Definition case_statuses : list string :=
  ["open"; "investigating"; "pending_closure"; "closed"].

(** ** Rules: schema *)

(** The [conditions] part of [ruleSchema]: one object schema, every key
    optional, whatever the rule type. *)
Definition conditions_schema (c : rule_conditions) : option joi_error :=
  first_error
    [ optional (minAmount c) (joi_number_min "minAmount" 0);
      optional (maxAmount c) (joi_number_min "maxAmount" 0);
      optional (cond_currency c) (joi_string_length "currency" 3);
      optional (transactionCount c) (joi_integer "transactionCount" (Some 1) None);
      optional (timeWindow c) (joi_valid "timeWindow" ["1h"; "24h"; "7d"; "30d"]);
      optional (transactionTypes c)
        (joi_array (joi_string "transactionTypes" None None));
      optional (channels c) (joi_array (joi_string "channels" None None));
      optional (blockedCountries c)
        (joi_array (joi_string_length "blockedCountries" 2));
      optional (velocityThreshold c) (joi_number_min "velocityThreshold" 0);
      optional (velocityWindow c) (joi_valid "velocityWindow" ["1h"; "24h"; "7d"]) ].

Record rule_body := {
  b_name : option string;
  b_description : option string;
  b_ruleType : option string;
  b_conditions : option rule_conditions;
  b_severity : option string;
  b_isActive : option bool
}.

(** The validated [value]: defaults filled in. *)
Record rule_value := {
  v_name : string;
  v_description : option string;
  v_ruleType : string;
  v_conditions : rule_conditions;
  v_severity : string;
  v_isActive : bool
}.

Definition ruleSchema_errors (b : rule_body) : option joi_error :=
  first_error
    [ required "name" (b_name b) (joi_string "name" (Some 3%nat) (Some 100%nat));
      optional (b_description b) (joi_string "description" None (Some 500%nat));
      required "ruleType" (b_ruleType b) (joi_valid "ruleType" rule_types);
      required "conditions" (b_conditions b) conditions_schema;
      optional (b_severity b) (joi_valid "severity" severities) ].

(** [ruleSchema.validate(req.body)] *)
Definition ruleSchema_validate (b : rule_body) : joi_error + rule_value :=
  match ruleSchema_errors b with
  | Some e => inl e
  | None =>
      match b_name b, b_ruleType b, b_conditions b with
      | Some n, Some t, Some c =>
          inr {| v_name := n;
                 v_description := b_description b;
                 v_ruleType := t;
                 v_conditions := c;
                 v_severity := match b_severity b with Some s => s | None => "medium" end;
                 v_isActive := match b_isActive b with Some a => a | None => true end |}
      | _, _, _ => inl {| joi_path := "value"; joi_type := "any.required" |}
      end
  end.

(** ** Rules: queries *)

Definition with_rules (d : database) (rs : list rule) (next : Z) : database :=
  {| users := users d; customers := customers d; accounts := accounts d;
     transactions := transactions d;
     detection_rules := rs;
     alerts := alerts d; cases := cases d; case_alerts := case_alerts d;
     detection_rules_id_seq := next;
     alerts_id_seq := alerts_id_seq d;
     cases_id_seq := cases_id_seq d;
     case_alerts_id_seq := case_alerts_id_seq d |}.

Definition user_exists (d : database) (id : Z) : bool :=
  existsb (fun x => u_id x =? id) (users d).

(** [SELECT id FROM detection_rules WHERE name = $1] *)
Definition select_rules_by_name (n : string) : M (list rule) :=
  d <- get_db ;;
  ret (filter (fun r => String.eqb (r_name r) n) (detection_rules d)).

(** [SELECT * FROM detection_rules WHERE id = $1] *)
Definition select_rule (id : Z) : M (option rule) :=
  d <- get_db ;;
  ret (find (fun r => r_id r =? id) (detection_rules d)).

(** [SELECT COUNT( * ) as count FROM alerts WHERE rule_id = $1] *)
Definition rule_alert_count (d : database) (id : Z) : Z :=
  Z.of_nat (List.length (filter (fun a => opt_eqb (a_rule_id a) id) (alerts d))).

Definition count_alerts_of_rule (id : Z) : M Z :=
  d <- get_db ;;
  ret (rule_alert_count d id).

(** [INSERT INTO detection_rules (..) VALUES (..) RETURNING *] *)
Definition insert_detection_rule (e : env) (v : rule_value) (created_by : Z) : M rule :=
  d <- get_db ;;
  let id := detection_rules_id_seq d in
  let row := {| r_id := id; r_name := v_name v; r_description := v_description v;
                rule_type := v_ruleType v; conditions := v_conditions v;
                r_severity := v_severity v; is_active := v_isActive v;
                r_created_by := Some created_by;
                r_created_at := now e; r_updated_at := now e |} in
  if negb (includes rule_types (v_ruleType v) && includes severities (v_severity v)) then
    put_db (with_rules d (detection_rules d) (id + 1)) ;;; throw check_violation
  else if existsb (fun r => r_id r =? id) (detection_rules d) then
    put_db (with_rules d (detection_rules d) (id + 1)) ;;; throw unique_violation
  else if negb (user_exists d created_by) then
    put_db (with_rules d (detection_rules d) (id + 1)) ;;; throw foreign_key_violation
  else
    put_db (with_rules d (detection_rules d ++ [row])%list (id + 1)) ;;; ret row.

(** [DELETE FROM detection_rules WHERE id = $1]; [alerts.rule_id] references
    the table without ON DELETE, so a referenced rule cannot be removed. *)
Definition delete_detection_rule (id : Z) : M unit :=
  d <- get_db ;;
  if existsb (fun r => r_id r =? id) (detection_rules d)
     && existsb (fun a => opt_eqb (a_rule_id a) id) (alerts d)
  then throw foreign_key_violation
  else put_db (with_rules d (filter (fun r => negb (r_id r =? id)) (detection_rules d))
                          (detection_rules_id_seq d)).

(** ** Rules: POST /api/rules and DELETE /api/rules/:id *)

Definition create_rule (e : env) (u : option user) (b : rule_body) : M unit :=
  usr <- authorize ["supervisor"; "admin"] u ;;
  match ruleSchema_validate b with
  | inl err => respond 400 (JInvalid "Invalid rule data" err)
  | inr value =>
      existingRule <- select_rules_by_name (v_name value) ;;
      reject_if (Nat.ltb 0 (List.length existingRule)) 409
                (JError "Rule with this name already exists") ;;;
      newRule <- insert_detection_rule e value (u_id usr) ;;
      audit "RULE_CREATED" (u_id usr) "rule" (r_id newRule) ;;;
      respond 201 (JRule "Detection rule created successfully" newRule)
  end.

(** [id] is [parseInt(req.params.id)], [None] standing for [NaN]. *)
Definition delete_rule (u : option user) (id : option Z) : M unit :=
  usr <- authorize ["admin"] u ;;
  match id with
  | None => respond 400 (JError "Invalid rule ID")
  | Some ruleId =>
      ruleQuery <- select_rule ruleId ;;
      match ruleQuery with
      | None => respond 404 (JError "Rule not found")
      | Some _ =>
          alertCount <- count_alerts_of_rule ruleId ;;
          reject_if (0 <? alertCount) 400
                    (JAlertCount "Cannot delete rule with associated alerts" alertCount) ;;;
          delete_detection_rule ruleId ;;;
          audit "RULE_DELETED" (u_id usr) "rule" ruleId ;;;
          respond 200 (JMessage "Detection rule deleted successfully")
      end
  end.

(** ** Rules: POST /api/rules/:id/test *)

(** The conjuncts the tester appends to its WHERE clause, each with the
    parameter it binds. *)
Inductive sql_cond :=
| ProcessedGe (p : option Z)      (* processed_at >= $n *)
| ProcessedLe (p : option Z)      (* processed_at <= $n *)
| AmountGe (q : Q)                (* amount >= $n *)
| AmountLe (q : Q)                (* amount <= $n *)
| CurrencyEq (s : string)         (* currency = $n *)
| TypeAny (l : list string)       (* transaction_type = ANY($n) *)
| ChannelAny (l : list string)    (* channel = ANY($n) *)
| AmountMod1000                   (* amount % 1000 = 0 *)
| CountryAny (l : list string).   (* location_country = ANY($n) *)

Inductive test_query :=
| SelectWhere (reason : string) (conds : list sql_cond)
| SelectFrequent (reason : string) (p1 p2 : option Z) (p3 : Z).

(** Whether a row satisfies a conjunct.  A comparison with NULL is unknown,
    and a row is selected only when the whole conjunction is true. *)
Definition holds (t : transaction) (c : sql_cond) : bool :=
  match c with
  | ProcessedGe p =>
      match p with Some v => v <=? processed_at t | None => false end
  | ProcessedLe p =>
      match p with Some v => processed_at t <=? v | None => false end
  | AmountGe q => Qle_bool q (amount t)
  | AmountLe q => Qle_bool (amount t) q
  | CurrencyEq s =>
      match currency t with Some c => String.eqb c s | None => false end
  | TypeAny l => includes l (transaction_type t)
  | ChannelAny l => includes l (channel t)
  | AmountMod1000 =>
      Qnum (amount t) mod (1000 * Z.pos (Qden (amount t))) =? 0
  | CountryAny l =>
      match location_country t with Some c => includes l c | None => false end
  end.

(** [if (c) { testQuery += ` AND ..`; params.push(..) }] *)
Definition and_if (c : bool) (x : sql_cond) (conds : list sql_cond) : list sql_cond :=
  if c then (conds ++ [x])%list else conds.

Definition nonempty (o : option (list string)) : bool :=
  match o with
  | Some l => Nat.ltb 0 (List.length l)
  | None => false
  end.

Definition list_or_nil (o : option (list string)) : list string :=
  match o with Some l => l | None => [] end.

(** [conditions.transactionCount || 10] *)
Definition frequency_threshold (c : rule_conditions) : Z :=
  match transactionCount c with
  | Some n => if truthyZ n then n else 10
  | None => 10
  end.

(** The [switch (rule.rule_type)]; [None] is its [default] branch. *)
Definition build_test_query (r : rule) (startDate endDate : option Z)
  : option test_query :=
  let c := conditions r in
  let base := [ProcessedGe startDate; ProcessedLe endDate] in
  if String.eqb (rule_type r) "amount" then
    let q := base in
    let q := match minAmount c with
             | Some m => and_if (truthyQ m) (AmountGe m) q
             | None => q
             end in
    let q := match maxAmount c with
             | Some m => and_if (truthyQ m) (AmountLe m) q
             | None => q
             end in
    let q := match cond_currency c with
             | Some s => and_if (truthyS s) (CurrencyEq s) q
             | None => q
             end in
    Some (SelectWhere "Amount threshold exceeded" q)
  else if String.eqb (rule_type r) "frequency" then
    Some (SelectFrequent "High frequency transactions" startDate endDate
                         (frequency_threshold c))
  else if String.eqb (rule_type r) "pattern" then
    let q := base in
    let q := and_if (nonempty (transactionTypes c))
                    (TypeAny (list_or_nil (transactionTypes c))) q in
    let q := and_if (nonempty (channels c))
                    (ChannelAny (list_or_nil (channels c))) q in
    let q := and_if (match roundAmounts c with Some b => b | None => false end)
                    AmountMod1000 q in
    Some (SelectWhere "Pattern match detected" q)
  else if String.eqb (rule_type r) "location" then
    let q := base in
    let q := and_if (nonempty (blockedCountries c))
                    (CountryAny (list_or_nil (blockedCountries c))) q in
    Some (SelectWhere "Suspicious location detected" q)
  else None.

Definition in_period (p1 p2 : option Z) (t : transaction) : bool :=
  holds t (ProcessedGe p1) && holds t (ProcessedLe p2).

(** GROUP BY puts the rows with a NULL key in one group. *)
Definition same_group (a b : option Z) : bool :=
  match a, b with
  | Some x, Some y => x =? y
  | None, None => true
  | _, _ => false
  end.

Fixpoint group_keys (keys : list (option Z)) : list (option Z) :=
  match keys with
  | [] => []
  | k :: rest =>
      k :: filter (fun k' => negb (same_group k k')) (group_keys rest)
  end.

(** The rows [WHERE processed_at >= $1 AND processed_at <= $2] keeps. *)
Definition period_rows (p1 p2 : option Z) (d : database) : list transaction :=
  filter (in_period p1 p2) (transactions d).

(** [COUNT( * )] of the group with key [k]. *)
Definition txn_count (p1 p2 : option Z) (d : database) (k : option Z) : Z :=
  Z.of_nat (List.length
    (filter (fun t => same_group (from_account_id t) k) (period_rows p1 p2 d))).

(** The CTE [frequent_accounts]: one row [(from_account_id, txn_count)] per
    source account of the period with at least [$3] transactions in it. *)
Definition frequent_accounts (p1 p2 : option Z) (p3 : Z) (d : database)
  : list (option Z * Z) :=
  let groups :=
    map (fun k => (k, txn_count p1 p2 d k))
        (group_keys (map from_account_id (period_rows p1 p2 d))) in
  filter (fun g => p3 <=? snd g) groups.

(** The join condition [t.from_account_id = fa.from_account_id], which a
    NULL never satisfies. *)
Definition join_on (t : transaction) (fa : option Z * Z) : bool :=
  match from_account_id t, fst fa with
  | Some x, Some y => x =? y
  | _, _ => false
  end.

(** The rows of the query before ORDER BY and LIMIT, in scan order. *)
Definition select_rows (q : test_query) (d : database) : list match_row :=
  match q with
  | SelectWhere reason conds =>
      map (fun t => {| m_txn := t; trigger_reason := reason |})
          (filter (fun t => forallb (holds t) conds) (transactions d))
  | SelectFrequent reason p1 p2 p3 =>
      let fas := frequent_accounts p1 p2 p3 d in
      filter (fun m => in_period p1 p2 (m_txn m))
        (flat_map
           (fun t => map (fun _ => {| m_txn := t; trigger_reason := reason |})
                         (filter (join_on t) fas))
           (transactions d))
  end.

(** [ORDER BY processed_at DESC]; rows with equal timestamps keep their scan
    order (SQL leaves their order open). *)
Fixpoint insert_desc (m : match_row) (l : list match_row) : list match_row :=
  match l with
  | [] => [m]
  | x :: rest =>
      if processed_at (m_txn x) <=? processed_at (m_txn m)
      then m :: l
      else x :: insert_desc m rest
  end.

Definition order_by_processed_at_desc (l : list match_row) : list match_row :=
  fold_right insert_desc [] l.

(** [database.query(testQuery, params)]: the query with
    [ORDER BY processed_at DESC LIMIT $n] appended. *)
Definition run_test_query (q : test_query) (limit : Z) : M (list match_row) :=
  d <- get_db ;;
  if limit <? 0 then throw invalid_row_count
  else ret (firstn (Z.to_nat limit) (order_by_processed_at_desc (select_rows q d))).

Record test_body := {
  tb_startDate : option Z;
  tb_endDate : option Z;
  tb_limit : option Z
}.

Definition test_rule (u : option user) (id : option Z) (b : test_body) : M unit :=
  usr <- authorize ["supervisor"; "admin"] u ;;
  let startDate := tb_startDate b in
  let endDate := tb_endDate b in
  let limit := match tb_limit b with Some l => l | None => 100 end in
  match id with
  | None => respond 400 (JError "Invalid rule ID")
  | Some ruleId =>
      ruleQuery <- select_rule ruleId ;;
      match ruleQuery with
      | None => respond 404 (JError "Rule not found")
      | Some rule =>
          match build_test_query rule startDate endDate with
          | None => respond 400 (JError "Rule type not supported for testing")
          | Some testQuery =>
              try_catch
                (rows <- run_test_query testQuery limit ;;
                 audit "RULE_TESTED" (u_id usr) "rule" ruleId ;;;
                 respond 200
                   (JTest "Rule test completed" (r_id rule) (r_name rule)
                          (rule_type rule) startDate endDate
                          rows (Z.of_nat (List.length rows))))
                (fun error => respond 500 (JFailed "Rule test failed" error))
          end
      end
  end.

(** ** Alerts: schemas and queries *)

Record alert_body := {
  ab_transactionId : option Z;
  ab_alertType : option string;
  ab_severity : option string;
  ab_description : option string;
  ab_details : option (list (string * jval));
  ab_ruleId : option Z
}.

Definition createAlertSchema_errors (b : alert_body) : option joi_error :=
  first_error
    [ required "transactionId" (ab_transactionId b)
               (joi_integer "transactionId" None None);
      required "alertType" (ab_alertType b) (joi_valid "alertType" alert_types);
      required "severity" (ab_severity b) (joi_valid "severity" severities);
      required "description" (ab_description b)
               (joi_string "description" None (Some 500%nat));
      optional (ab_ruleId b) (joi_integer "ruleId" None None) ].

(** The body of PUT /api/alerts/:id; [assignedTo] may be absent, [null] or
    an integer. *)
Record alert_update := {
  au_status : option string;
  au_assignedTo : option (option Z);
  au_notes : option string;
  au_resolution : option string
}.

Definition updateAlertSchema_errors (b : alert_update) : option joi_error :=
  first_error
    [ optional (au_status b) (joi_valid "status" alert_statuses);
      optional (au_assignedTo b)
               (fun v => optional v (joi_integer "assignedTo" None None));
      optional (au_notes b) (joi_string "notes" None (Some 1000%nat));
      optional (au_resolution b) (joi_string "resolution" None (Some 500%nat)) ].

Definition with_alerts (d : database) (al : list alert) (next : Z) : database :=
  {| users := users d; customers := customers d; accounts := accounts d;
     transactions := transactions d;
     detection_rules := detection_rules d;
     alerts := al;
     cases := cases d; case_alerts := case_alerts d;
     detection_rules_id_seq := detection_rules_id_seq d;
     alerts_id_seq := next;
     cases_id_seq := cases_id_seq d;
     case_alerts_id_seq := case_alerts_id_seq d |}.

(** A nullable foreign key is checked only when it is not NULL. *)
Definition fk_ok (ref : option Z) (present : Z -> bool) : bool :=
  match ref with
  | Some k => present k
  | None => true
  end.

(** [SELECT from_account_id FROM transactions WHERE id = $1] *)
Definition select_transaction (id : Z) : M (list transaction) :=
  d <- get_db ;;
  ret (filter (fun t => t_id t =? id) (transactions d)).

(** [SELECT customer_id FROM accounts WHERE id = $1] *)
Definition select_account (id : option Z) : M (list account) :=
  d <- get_db ;;
  ret (match id with
       | Some k => filter (fun a => acc_id a =? k) (accounts d)
       | None => []
       end).

(** [SELECT .. FROM alerts WHERE id = $1] *)
Definition select_alert (id : Z) : M (option alert) :=
  d <- get_db ;;
  ret (find (fun a => a_id a =? id) (alerts d)).

(** [INSERT INTO alerts (alert_id, transaction_id, customer_id, rule_id,
    alert_type, severity, details, assigned_to) VALUES (..) RETURNING *];
    [status] takes its default ['new']. *)
Definition insert_alert (e : env) (alertId : string) (transactionId : Z)
    (customerId ruleId : option Z) (alertType severity : string)
    (details : list (string * jval)) (assignee : Z) : M alert :=
  d <- get_db ;;
  let id := alerts_id_seq d in
  let row := {| a_id := id; alert_id := alertId;
                a_transaction_id := Some transactionId;
                a_rule_id := ruleId; a_customer_id := customerId;
                alert_type := alertType; a_severity := severity;
                a_status := "new"; a_details := details;
                assigned_to := Some assignee;
                a_created_at := now e; a_updated_at := now e |} in
  if negb (includes alert_types alertType && includes severities severity) then
    put_db (with_alerts d (alerts d) (id + 1)) ;;; throw check_violation
  else if existsb (fun a => (a_id a =? id) || String.eqb (alert_id a) alertId)
                  (alerts d) then
    put_db (with_alerts d (alerts d) (id + 1)) ;;; throw unique_violation
  else if negb (existsb (fun t => t_id t =? transactionId) (transactions d)
                && fk_ok ruleId (fun k => existsb (fun r => r_id r =? k) (detection_rules d))
                && fk_ok customerId (fun k => existsb (Z.eqb k) (customers d))
                && user_exists d assignee) then
    put_db (with_alerts d (alerts d) (id + 1)) ;;; throw foreign_key_violation
  else
    put_db (with_alerts d (alerts d ++ [row])%list (id + 1)) ;;; ret row.

(** What [SET ..] of PUT /api/alerts/:id does to a row: one assignment per
    key of the validated body, then [updated_at]. *)
Definition apply_update (e : env) (b : alert_update) (a : alert) : alert :=
  {| a_id := a_id a; alert_id := alert_id a;
     a_transaction_id := a_transaction_id a;
     a_rule_id := a_rule_id a; a_customer_id := a_customer_id a;
     alert_type := alert_type a; a_severity := a_severity a;
     a_status := match au_status b with Some s => s | None => a_status a end;
     a_details := a_details a;
     assigned_to := match au_assignedTo b with
                    | Some v => v
                    | None => assigned_to a
                    end;
     a_created_at := a_created_at a;
     a_updated_at := now e |}.

(** [UPDATE alerts SET .. WHERE id = $n RETURNING *], for the row [current]
    just read under that id.  The table has no [notes] or [resolution]
    column. *)
Definition update_alert_row (e : env) (b : alert_update) (current : alert) : M alert :=
  d <- get_db ;;
  let updated := apply_update e b current in
  if match au_notes b, au_resolution b with
     | None, None => false
     | _, _ => true
     end then
    throw undefined_column
  else if negb (includes alert_statuses (a_status updated)) then
    throw check_violation
  else if negb (fk_ok (assigned_to updated) (user_exists d)) then
    throw foreign_key_violation
  else
    put_db (with_alerts d
              (map (fun a => if a_id a =? a_id current then apply_update e b a else a)
                   (alerts d))
              (alerts_id_seq d)) ;;;
    ret updated.

(** [UPDATE alerts SET status = $1, updated_at = CURRENT_TIMESTAMP
    WHERE id = $2] *)
Definition set_status (e : env) (s : string) (a : alert) : alert :=
  apply_update e {| au_status := Some s; au_assignedTo := None;
                    au_notes := None; au_resolution := None |} a.

Definition update_alert_status (e : env) (s : string) (alertId : Z) : M unit :=
  d <- get_db ;;
  if negb (includes alert_statuses s) then throw check_violation
  else
    put_db (with_alerts d
              (map (fun a => if a_id a =? alertId then set_status e s a else a)
                   (alerts d))
              (alerts_id_seq d)).

(** ** Alerts: POST /api/alerts and PUT /api/alerts/:id *)

Definition all_roles : list string := ["analyst"; "supervisor"; "admin"].

Definition create_alert (e : env) (u : option user) (b : alert_body) : M unit :=
  usr <- authorize all_roles u ;;
  match createAlertSchema_errors b,
        ab_transactionId b, ab_alertType b, ab_severity b, ab_description b with
  | None, Some transactionId, Some alertType, Some severity, Some description =>
      transactionQuery <- select_transaction transactionId ;;
      match transactionQuery with
      | [] => respond 404 (JError "Transaction not found")
      | txn :: _ =>
          customerQuery <- select_account (from_account_id txn) ;;
          let customerId := match customerQuery with
                            | acc :: _ => acc_customer_id acc
                            | [] => None
                            end in
          let alertId := "AL" ++ dec (now e) ++ rnd e in
          let alertDetails :=
            obj_set
              (obj_set
                 (obj_spread [("description", JStr description)]
                    (match ab_details b with Some o => o | None => [] end))
                 "createdBy" (JStr (u_username usr)))
              "createdAt" (JNum (now e)) in
          newAlert <- insert_alert e alertId transactionId customerId (ab_ruleId b)
                                   alertType severity alertDetails (u_id usr) ;;
          audit "ALERT_CREATED" (u_id usr) "alert" (a_id newAlert) ;;;
          emit e "new_alert" (a_id newAlert) ;;;
          respond 201 (JAlert "Alert created successfully" newAlert)
      end
  | Some err, _, _, _, _ => respond 400 (JInvalid "Invalid alert data" err)
  | None, _, _, _, _ =>
      respond 400 (JInvalid "Invalid alert data"
                            {| joi_path := "value"; joi_type := "any.required" |})
  end.

Definition update_alert (e : env) (u : option user) (id : option Z) (b : alert_update)
  : M unit :=
  usr <- authorize all_roles u ;;
  match id with
  | None => respond 400 (JError "Invalid alert ID")
  | Some alertId =>
      match updateAlertSchema_errors b with
      | Some err => respond 400 (JInvalid "Invalid update data" err)
      | None =>
          alertQuery <- select_alert alertId ;;
          match alertQuery with
          | None => respond 404 (JError "Alert not found")
          | Some currentAlert =>
              reject_if
                (String.eqb (u_role usr) "analyst"
                 && match assigned_to currentAlert with
                    | Some who => truthyZ who && negb (who =? u_id usr)
                    | None => false
                    end)
                403 (JError "Access denied to this alert") ;;;
              reject_if
                (match au_status b, au_assignedTo b, au_notes b, au_resolution b with
                 | None, None, None, None => true
                 | _, _, _, _ => false
                 end)
                400 (JError "No valid fields to update") ;;;
              updatedAlert <- update_alert_row e b currentAlert ;;
              audit "ALERT_UPDATED" (u_id usr) "alert" alertId ;;;
              emit e "alert_updated" alertId ;;;
              respond 200 (JAlert "Alert updated successfully" updatedAlert)
          end
      end
  end.

(** ** Cases: schema and queries *)

Record case_body := {
  cb_title : option string;
  cb_description : option string;
  cb_caseType : option string;
  cb_priority : option string;
  cb_assignedTo : option Z;
  cb_estimatedLoss : option Q;
  cb_alertIds : option (list Z)
}.

Definition createCaseSchema_errors (b : case_body) : option joi_error :=
  first_error
    [ required "title" (cb_title b) (joi_string "title" (Some 5%nat) (Some 200%nat));
      required "description" (cb_description b)
               (joi_string "description" None (Some 2000%nat));
      required "caseType" (cb_caseType b) (joi_valid "caseType" case_types);
      optional (cb_priority b) (joi_valid "priority" case_priorities);
      optional (cb_assignedTo b) (joi_integer "assignedTo" None None);
      optional (cb_estimatedLoss b) (joi_number_min "estimatedLoss" 0);
      optional (cb_alertIds b) (joi_array (joi_integer "alertIds" None None)) ].

Definition with_cases (d : database) (cs : list case) (next : Z) : database :=
  {| users := users d; customers := customers d; accounts := accounts d;
     transactions := transactions d;
     detection_rules := detection_rules d;
     alerts := alerts d;
     cases := cs; case_alerts := case_alerts d;
     detection_rules_id_seq := detection_rules_id_seq d;
     alerts_id_seq := alerts_id_seq d;
     cases_id_seq := next;
     case_alerts_id_seq := case_alerts_id_seq d |}.

Definition with_case_alerts (d : database) (l : list case_alert) (next : Z) : database :=
  {| users := users d; customers := customers d; accounts := accounts d;
     transactions := transactions d;
     detection_rules := detection_rules d;
     alerts := alerts d;
     cases := cases d; case_alerts := l;
     detection_rules_id_seq := detection_rules_id_seq d;
     alerts_id_seq := alerts_id_seq d;
     cases_id_seq := cases_id_seq d;
     case_alerts_id_seq := next |}.

(** ROLLBACK: the tables go back to what they were at BEGIN; the sequences
    keep the values they reached. *)
Definition rollback_to (snapshot current : database) : database :=
  {| users := users snapshot; customers := customers snapshot;
     accounts := accounts snapshot;
     transactions := transactions snapshot;
     detection_rules := detection_rules snapshot;
     alerts := alerts snapshot;
     cases := cases snapshot; case_alerts := case_alerts snapshot;
     detection_rules_id_seq := detection_rules_id_seq current;
     alerts_id_seq := alerts_id_seq current;
     cases_id_seq := cases_id_seq current;
     case_alerts_id_seq := case_alerts_id_seq current |}.

(** [SELECT assigned_to, created_by FROM cases WHERE id = $1] *)
Definition select_case (id : Z) : M (option case) :=
  d <- get_db ;;
  ret (find (fun c => c_id c =? id) (cases d)).

(** [INSERT INTO cases (case_number, title, description, case_type,
    priority, assigned_to, created_by, estimated_loss) VALUES (..)
    RETURNING *]; [status] takes its default ['open']. *)
Definition insert_case (e : env) (caseNumber title description caseType priority : string)
    (assignedTo : option Z) (createdBy : Z) (estimatedLoss : option Q) : M case :=
  d <- get_db ;;
  let id := cases_id_seq d in
  let row := {| c_id := id; case_number := caseNumber; c_title := title;
                c_description := description; case_type := caseType;
                c_priority := priority; c_status := "open";
                c_assigned_to := assignedTo; c_created_by := Some createdBy;
                estimated_loss := estimatedLoss; c_created_at := now e |} in
  if negb (includes case_types caseType && includes case_priorities priority) then
    put_db (with_cases d (cases d) (id + 1)) ;;; throw check_violation
  else if existsb (fun c => (c_id c =? id) || String.eqb (case_number c) caseNumber)
                  (cases d) then
    put_db (with_cases d (cases d) (id + 1)) ;;; throw unique_violation
  else if negb (fk_ok assignedTo (user_exists d) && user_exists d createdBy) then
    put_db (with_cases d (cases d) (id + 1)) ;;; throw foreign_key_violation
  else
    put_db (with_cases d (cases d ++ [row])%list (id + 1)) ;;; ret row.

(** [INSERT INTO case_alerts (case_id, alert_id) VALUES ($1, $2)], under
    UNIQUE(case_id, alert_id) and the two foreign keys. *)
Definition insert_case_alert (e : env) (caseId alertId : Z) : M unit :=
  d <- get_db ;;
  let id := case_alerts_id_seq d in
  let row := {| ca_id := id; ca_case_id := caseId; ca_alert_id := alertId;
                added_at := now e |} in
  if existsb (fun x => (ca_id x =? id)
                       || ((ca_case_id x =? caseId) && (ca_alert_id x =? alertId)))
             (case_alerts d) then
    put_db (with_case_alerts d (case_alerts d) (id + 1)) ;;; throw unique_violation
  else if negb (existsb (fun c => c_id c =? caseId) (cases d)
                && existsb (fun a => a_id a =? alertId) (alerts d)) then
    put_db (with_case_alerts d (case_alerts d) (id + 1)) ;;; throw foreign_key_violation
  else
    put_db (with_case_alerts d (case_alerts d ++ [row])%list (id + 1)).

(** ** Cases: POST /api/cases and POST /api/cases/:id/alerts *)

(** [for (const alertId of alertIds) { INSERT ..; UPDATE .. }] *)
Fixpoint link_alerts (e : env) (caseId : Z) (alertIds : list Z) : M unit :=
  match alertIds with
  | [] => ret tt
  | alertId :: rest =>
      insert_case_alert e caseId alertId ;;;
      update_alert_status e "investigating" alertId ;;;
      link_alerts e caseId rest
  end.

Definition create_case (e : env) (u : option user) (b : case_body) : M unit :=
  usr <- authorize all_roles u ;;
  match createCaseSchema_errors b, cb_title b, cb_description b, cb_caseType b with
  | None, Some title, Some description, Some caseType =>
      let priority := match cb_priority b with Some p => p | None => "medium" end in
      snapshot <- get_db ;;
      try_catch
        (let caseNumber := "CASE" ++ dec (year e) ++ slice_last 6 (dec (now e)) in
         newCase <- insert_case e caseNumber title description caseType priority
                                (cb_assignedTo b) (u_id usr) (cb_estimatedLoss b) ;;
         link_alerts e (c_id newCase)
                     (match cb_alertIds b with Some l => l | None => [] end) ;;;
         audit "CASE_CREATED" (u_id usr) "case" (c_id newCase) ;;;
         emit e "new_case" (c_id newCase) ;;;
         respond 201 (JCase "Case created successfully" newCase))
        (fun error =>
           d <- get_db ;;
           put_db (rollback_to snapshot d) ;;;
           throw error)
  | Some err, _, _, _ => respond 400 (JInvalid "Invalid case data" err)
  | None, _, _, _ =>
      respond 400 (JInvalid "Invalid case data"
                            {| joi_path := "value"; joi_type := "any.required" |})
  end.

(** [id] is [parseInt(req.params.id)] and [alertId] is [req.body.alertId]. *)
Definition link_alert (e : env) (u : option user) (id : option Z) (alertId : option Z)
  : M unit :=
  usr <- authorize all_roles u ;;
  match id, alertId with
  | Some caseId, Some alertId =>
      reject_if (negb (truthyZ alertId)) 400 (JError "Invalid case ID or alert ID") ;;;
      caseQuery <- select_case caseId ;;
      match caseQuery with
      | None => respond 404 (JError "Case not found")
      | Some caseData =>
          reject_if
            (String.eqb (u_role usr) "analyst"
             && negb (opt_eqb (c_assigned_to caseData) (u_id usr))
             && negb (opt_eqb (c_created_by caseData) (u_id usr)))
            403 (JError "Access denied to this case") ;;;
          alertQuery <- select_alert alertId ;;
          match alertQuery with
          | None => respond 404 (JError "Alert not found")
          | Some _ =>
              try_catch
                (insert_case_alert e caseId alertId ;;;
                 update_alert_status e "investigating" alertId ;;;
                 audit "ALERT_ADDED_TO_CASE" (u_id usr) "case" caseId ;;;
                 respond 200 (JMessage "Alert added to case successfully"))
                (fun error =>
                   match error with
                   | unique_violation =>
                       respond 409 (JError "Alert is already associated with this case")
                   | _ => throw error
                   end)
          end
      end
  | _, _ => respond 400 (JError "Invalid case ID or alert ID")
  end.

(** ** What the specification says, for comparison with the code *)

Definition window_ms (w : string) : option Z :=
  if String.eqb w "1h" then Some 3600000
  else if String.eqb w "24h" then Some 86400000
  else if String.eqb w "7d" then Some 604800000
  else if String.eqb w "30d" then Some 2592000000
  else None.

(** The Amount predicate of the specification: amount within [min, max],
    currency equal when set, transaction type in [transactionTypes] when
    set. *)
Definition spec_amount_matches (c : rule_conditions) (t : transaction) : bool :=
  match minAmount c with Some m => Qle_bool m (amount t) | None => true end
  && match maxAmount c with Some m => Qle_bool (amount t) m | None => true end
  && match cond_currency c with
     | Some s => match currency t with Some x => String.eqb x s | None => false end
     | None => true
     end
  && match transactionTypes c with
     | Some l => includes l (transaction_type t)
     | None => true
     end.

(** The Frequency predicate of the specification, evaluated at time [at_]:
    the transactions of the same source account within the rule's own
    window [at_ - window, at_], restricted to [channels] when set, number at
    least [transactionCount]. *)
Definition spec_frequency_count (c : rule_conditions) (history : list transaction)
    (at_ : Z) (t : transaction) : Z :=
  match timeWindow c with
  | Some name =>
      match window_ms name with
      | Some len =>
          Z.of_nat (List.length (filter
            (fun h =>
               match from_account_id h, from_account_id t with
               | Some x, Some y => x =? y
               | _, _ => false
               end
               && (at_ - len <=? processed_at h) && (processed_at h <=? at_)
               && match channels c with
                  | Some l => includes l (channel h)
                  | None => true
                  end)
            history))
      | None => 0
      end
  | None => 0
  end.

Definition spec_frequency_matches (c : rule_conditions) (history : list transaction)
    (at_ : Z) (t : transaction) : bool :=
  match transactionCount c with
  | Some n => n <=? spec_frequency_count c history at_ t
  | None => false
  end.

(** The per-type condition schema of the specification: the fields its
    table lists without a question mark are required. *)
Definition spec_conditions_fit (ruleType : string) (c : rule_conditions) : bool :=
  if String.eqb ruleType "frequency" then
    match transactionCount c, timeWindow c with
    | Some _, Some _ => true
    | _, _ => false
    end
  else if String.eqb ruleType "location" then nonempty (blockedCountries c)
  else if String.eqb ruleType "velocity" then
    match velocityThreshold c, velocityWindow c with
    | Some _, Some _ => true
    | _, _ => false
    end
  else true.

(** ** Notions used in the statements *)

(** The row the tester returns for transaction [t] under query [q]. *)
Definition reason_of (q : test_query) : string :=
  match q with
  | SelectWhere reason _ => reason
  | SelectFrequent reason _ _ _ => reason
  end.

Definition selects (q : test_query) (d : database) (t : transaction) : Prop :=
  In {| m_txn := t; trigger_reason := reason_of q |} (select_rows q d).

(** Most recent first. *)
Definition most_recent_first (l : list match_row) : Prop :=
  StronglySorted (fun a b => processed_at (m_txn b) <= processed_at (m_txn a)) l.

(** The alerts recorded for a (rule, transaction) pair. *)
Definition alerts_of_pair (d : database) (ruleId : option Z) (transactionId : Z)
  : list alert :=
  filter (fun a => same_group (a_rule_id a) ruleId
                   && opt_eqb (a_transaction_id a) transactionId)
         (alerts d).

Definition alert_status (d : database) (alertId : Z) : option string :=
  option_map a_status (find (fun a => a_id a =? alertId) (alerts d)).

(** Every alert that names a rule names one of the catalog. *)
Definition rule_refs_resolve (d : database) : Prop :=
  forall a k, In a (alerts d) -> a_rule_id a = Some k ->
              exists r, In r (detection_rules d) /\ r_id r = k.

Definition limit_of (b : test_body) : Z :=
  match tb_limit b with Some l => l | None => 100 end.

Definition with_ruleType (b : rule_body) (t : string) : rule_body :=
  {| b_name := b_name b; b_description := b_description b;
     b_ruleType := Some t; b_conditions := b_conditions b;
     b_severity := b_severity b; b_isActive := b_isActive b |}.

Definition logged (w : world) (act : string) (uid : Z) (rtype : string) (rid : Z)
  : world :=
  {| db := db w;
     audit_log := (audit_log w ++ [{| action := act; audit_user := uid;
                                      resource_type := rtype;
                                      resource_id := rid |}])%list;
     emitted := emitted w |}.

(** ** Sample data *)

Definition hour : Z := 3600000.

Definition root : user := {| u_id := 1; u_username := "root"; u_role := "admin" |}.
Definition sam : user := {| u_id := 2; u_username := "sam"; u_role := "supervisor" |}.
Definition ana : user := {| u_id := 3; u_username := "ana"; u_role := "analyst" |}.

Definition sample_txn (id : Z) (acct : Z) (amt : Q) (cur ty ch : string) (at_ : Z)
  : transaction :=
  {| t_id := id; t_transaction_id := "TX" ++ dec id;
     from_account_id := Some acct; to_account_id := None;
     amount := amt; currency := Some cur;
     transaction_type := ty; channel := ch;
     location_country := Some "NZ"; processed_at := at_ |}.

Definition no_conditions : rule_conditions :=
  {| minAmount := None; maxAmount := None; cond_currency := None;
     transactionCount := None; timeWindow := None;
     transactionTypes := None; channels := None; roundAmounts := None;
     blockedCountries := None; timeZoneMismatch := None;
     velocityThreshold := None; velocityWindow := None |}.

(** The conditions of the template 'Large Cash Transaction'. *)
Definition large_cash : rule_conditions :=
  {| minAmount := Some (10000 # 1); maxAmount := None; cond_currency := Some "NZD";
     transactionCount := None; timeWindow := None;
     transactionTypes := Some ["deposit"; "withdrawal"];
     channels := None; roundAmounts := None;
     blockedCountries := None; timeZoneMismatch := None;
     velocityThreshold := None; velocityWindow := None |}.

Definition twice_a_day : rule_conditions :=
  {| minAmount := None; maxAmount := None; cond_currency := None;
     transactionCount := Some 2; timeWindow := Some "24h";
     transactionTypes := None; channels := None; roundAmounts := None;
     blockedCountries := None; timeZoneMismatch := None;
     velocityThreshold := None; velocityWindow := None |}.

Definition sample_rule (id : Z) (name ty : string) (c : rule_conditions) : rule :=
  {| r_id := id; r_name := name; r_description := None; rule_type := ty;
     conditions := c; r_severity := "high"; is_active := true;
     r_created_by := Some 1; r_created_at := 0; r_updated_at := 0 |}.

Definition sample_alert (id : Z) (txn : Z) (ruleId : option Z) (st : string) : alert :=
  {| a_id := id; alert_id := "AL" ++ dec id;
     a_transaction_id := Some txn; a_rule_id := ruleId; a_customer_id := Some 7;
     alert_type := "rule_based"; a_severity := "high"; a_status := st;
     a_details := []; assigned_to := None;
     a_created_at := 0; a_updated_at := 0 |}.

Definition txn1 := sample_txn 1 3 (15000 # 1) "NZD" "transfer" "online" 0.
Definition txn2 := sample_txn 2 3 (999999 # 100) "NZD" "deposit" "atm" (25 * hour).
Definition txn3 := sample_txn 3 4 (10000 # 1) "NZD" "deposit" "atm" (26 * hour).
Definition txn4 := sample_txn 4 4 (20000 # 1) "USD" "deposit" "atm" (27 * hour).

Definition rule1 : rule := sample_rule 1 "Large Cash Transaction" "amount" large_cash.
Definition rule2 : rule := sample_rule 2 "Twice a day" "frequency" twice_a_day.
Definition rule3 : rule :=
  sample_rule 3 "Rapid Velocity Transaction" "velocity" no_conditions.

Definition sample_db : database :=
  {| users := [root; sam; ana];
     customers := [7];
     accounts := [{| acc_id := 3; acc_customer_id := Some 7 |};
                  {| acc_id := 4; acc_customer_id := Some 7 |}];
     transactions := [txn1; txn2; txn3; txn4];
     detection_rules :=
       [rule1; rule2; rule3];
     alerts := [sample_alert 1 1 (Some 1) "closed"; sample_alert 2 2 None "new"];
     cases :=
       [{| c_id := 1; case_number := "CASE2026000001"; c_title := "Cash deposits";
           c_description := "Repeated deposits"; case_type := "aml";
           c_priority := "medium"; c_status := "open";
           c_assigned_to := None; c_created_by := Some 3;
           estimated_loss := None; c_created_at := 0 |}];
     case_alerts := [];
     detection_rules_id_seq := 4;
     alerts_id_seq := 3;
     cases_id_seq := 2;
     case_alerts_id_seq := 1 |}.

Definition sample_world : world :=
  {| db := sample_db; audit_log := []; emitted := [] |}.

Definition whole_period : option Z := Some (30 * hour).

Definition at_noon : env :=
  {| now := 1730000000000; year := 2026; rnd := "K3J9Q"; socketio := true |}.
Definition a_bit_later : env :=
  {| now := 1730000000500; year := 2026; rnd := "ZZ0AB"; socketio := true |}.

(** ** Further notions and sample requests *)

(** The rule types the tester's [switch] has a branch for. *)
Definition supported_types : list string :=
  ["amount"; "frequency"; "pattern"; "location"].

(** The [matches] of a completed test. *)
Definition test_matches (q : test_query) (b : test_body) (d : database) : list match_row :=
  firstn (Z.to_nat (limit_of b)) (order_by_processed_at_desc (select_rows q d)).

(** A test period that ends before it starts. *)
Definition reversed_range : test_body :=
  {| tb_startDate := Some (30 * hour); tb_endDate := Some 0; tb_limit := Some 10 |}.

(** A reply that refuses the request as malformed. *)
Definition validation_error (r : option response) : Prop :=
  exists b, r = Some {| status := 400; body := b |}.

(** The Amount conditions the tester reads: the two bounds and the
    currency. *)
Definition amount_currency_match (c : rule_conditions) (t : transaction) : bool :=
  match minAmount c with Some m => Qle_bool m (amount t) | None => true end
  && match maxAmount c with Some m => Qle_bool (amount t) m | None => true end
  && match cond_currency c with
     | Some s => match currency t with Some x => String.eqb x s | None => false end
     | None => true
     end.

(** No bound is zero and the currency is not the empty string. *)
Definition amount_fields_truthy (c : rule_conditions) : bool :=
  match minAmount c with Some m => truthyQ m | None => true end
  && match maxAmount c with Some m => truthyQ m | None => true end
  && match cond_currency c with Some s => truthyS s | None => true end.

(** The database once [DELETE FROM detection_rules] has removed a rule. *)
Definition without_rule (d : database) (ruleId : Z) : database :=
  with_rules d (filter (fun r => negb (r_id r =? ruleId)) (detection_rules d))
             (detection_rules_id_seq d).

(** The row a rule creation stores. *)
Definition new_rule (e : env) (d : database) (v : rule_value) (usr : user) : rule :=
  {| r_id := detection_rules_id_seq d; r_name := v_name v;
     r_description := v_description v; rule_type := v_ruleType v;
     conditions := v_conditions v; r_severity := v_severity v;
     is_active := v_isActive v; r_created_by := Some (u_id usr);
     r_created_at := now e; r_updated_at := now e |}.

(** A Location rule that names no country. *)
Definition location_without_countries : rule_body :=
  {| b_name := Some "High Risk Country Transfer";
     b_description := None;
     b_ruleType := Some "location";
     b_conditions := Some no_conditions;
     b_severity := Some "high";
     b_isActive := None |}.

(** The alert rule 1 raises on transaction 3. *)
Definition amount_alert : alert_body :=
  {| ab_transactionId := Some 3; ab_alertType := Some "rule_based";
     ab_severity := Some "high";
     ab_description := Some "Amount threshold exceeded";
     ab_details := None; ab_ruleId := Some 1 |}.

Definition after_first_alert : world :=
  fst (run (create_alert at_noon (Some root) amount_alert) sample_world).

Definition after_second_alert : world :=
  fst (run (create_alert a_bit_later (Some root) amount_alert) after_first_alert).

(** An update that asks for status 'new'. *)
Definition reopen : alert_update :=
  {| au_status := Some "new"; au_assignedTo := None;
     au_notes := None; au_resolution := None |}.

Definition after_reopen : world :=
  fst (run (update_alert at_noon (Some root) (Some 1) reopen) sample_world).

(** What linking the alerts [ids] does to an alert. *)
Definition investigate (e : env) (ids : list Z) (a : alert) : alert :=
  if existsb (Z.eqb (a_id a)) ids then set_status e "investigating" a else a.

(** The two databases hold the same rows (their sequences may differ). *)
Definition same_tables (d d' : database) : Prop :=
  users d' = users d /\ customers d' = customers d /\ accounts d' = accounts d
  /\ transactions d' = transactions d /\ detection_rules d' = detection_rules d
  /\ alerts d' = alerts d /\ cases d' = cases d /\ case_alerts d' = case_alerts d.

(** The id names an alert. *)
Definition resolves (d : database) (alertId : Z) : bool :=
  existsb (fun a => a_id a =? alertId) (alerts d).

Definition alert_ids_of (b : case_body) : list Z :=
  match cb_alertIds b with Some l => l | None => [] end.

Definition after_link : world :=
  fst (run (link_alert at_noon (Some root) (Some 1) (Some 1)) sample_world).

Definition case_on (ids : list Z) : case_body :=
  {| cb_title := Some "Cash deposits under review";
     cb_description := Some "Deposits just under the threshold";
     cb_caseType := Some "aml"; cb_priority := None;
     cb_assignedTo := None; cb_estimatedLoss := None;
     cb_alertIds := Some ids |}.

Definition after_failed_case : world :=
  fst (run (create_case at_noon (Some ana) (case_on [2; 99])) sample_world).

(** The backtest scenario of the specification: two transactions of 12000
    and 500 NZD, and the rule minAmount 10000, currency NZD. *)
Definition scenario_world : world :=
  {| db := {| users := [sam]; customers := []; accounts := [];
              transactions := [sample_txn 1 3 (12000 # 1) "NZD" "deposit" "atm" hour;
                               sample_txn 2 3 (500 # 1) "NZD" "deposit" "atm" (2 * hour)];
              detection_rules := [rule1];
              alerts := []; cases := []; case_alerts := [];
              detection_rules_id_seq := 2; alerts_id_seq := 1;
              cases_id_seq := 1; case_alerts_id_seq := 1 |};
     audit_log := []; emitted := [] |}.

(** ** Rules: PUT /api/rules/:id *)

Record rule_update := {
  ru_name : option string;
  ru_description : option string;
  ru_conditions : option rule_conditions;
  ru_severity : option string;
  ru_isActive : option bool
}.

(** [updateRuleSchema]: [conditions] is [Joi.object()], any object. *)
Definition updateRuleSchema_errors (b : rule_update) : option joi_error :=
  first_error
    [ optional (ru_name b) (joi_string "name" (Some 3%nat) (Some 100%nat));
      optional (ru_description b) (joi_string "description" None (Some 500%nat));
      optional (ru_severity b) (joi_valid "severity" severities) ].

(** What [SET ..] of PUT /api/rules/:id does to a row: one assignment per
    key of the validated body, then [updated_at]. *)
Definition apply_rule_update (e : env) (b : rule_update) (r : rule) : rule :=
  {| r_id := r_id r;
     r_name := match ru_name b with Some n => n | None => r_name r end;
     r_description := match ru_description b with
                      | Some s => Some s
                      | None => r_description r
                      end;
     rule_type := rule_type r;
     conditions := match ru_conditions b with Some c => c | None => conditions r end;
     r_severity := match ru_severity b with Some s => s | None => r_severity r end;
     is_active := match ru_isActive b with Some a => a | None => is_active r end;
     r_created_by := r_created_by r;
     r_created_at := r_created_at r;
     r_updated_at := now e |}.

(** [UPDATE detection_rules SET .. WHERE id = $n RETURNING *], for the row
    [current] just read under that id. *)
Definition update_rule_row (e : env) (b : rule_update) (current : rule) : M rule :=
  d <- get_db ;;
  let updated := apply_rule_update e b current in
  if negb (includes rule_types (rule_type updated)
           && includes severities (r_severity updated)) then
    throw check_violation
  else
    put_db (with_rules d
              (map (fun r => if r_id r =? r_id current
                             then apply_rule_update e b r else r)
                   (detection_rules d))
              (detection_rules_id_seq d)) ;;;
    ret updated.

Definition update_rule (e : env) (u : option user) (id : option Z) (b : rule_update)
  : M unit :=
  usr <- authorize ["supervisor"; "admin"] u ;;
  match id with
  | None => respond 400 (JError "Invalid rule ID")
  | Some ruleId =>
      match updateRuleSchema_errors b with
      | Some err => respond 400 (JInvalid "Invalid update data" err)
      | None =>
          ruleQuery <- select_rule ruleId ;;
          match ruleQuery with
          | None => respond 404 (JError "Rule not found")
          | Some currentRule =>
              reject_if
                (match ru_name b, ru_description b, ru_conditions b,
                       ru_severity b, ru_isActive b with
                 | None, None, None, None, None => true
                 | _, _, _, _, _ => false
                 end)
                400 (JError "No valid fields to update") ;;;
              updatedRule <- update_rule_row e b currentRule ;;
              audit "RULE_UPDATED" (u_id usr) "rule" ruleId ;;;
              respond 200 (JRule "Detection rule updated successfully" updatedRule)
          end
      end
  end.

(** ** Further notions *)

(** The values of PostgreSQL's INTEGER, the type of every id column.  A
    parameter beyond them is refused with error 22003 before any row is
    looked at; the handlers are modelled for ids within them. *)
Definition fits_integer (z : Z) : Prop := -2147483648 <= z <= 2147483647.

(** [obj[k]] *)
Fixpoint obj_get (obj : list (string * jval)) (k : string) : option jval :=
  match obj with
  | [] => None
  | (k', v) :: rest => if String.eqb k' k then Some v else obj_get rest k
  end.

(** A rule with another condition set. *)
Definition with_conditions (r : rule) (c : rule_conditions) : rule :=
  {| r_id := r_id r; r_name := r_name r; r_description := r_description r;
     rule_type := rule_type r; conditions := c; r_severity := r_severity r;
     is_active := is_active r; r_created_by := r_created_by r;
     r_created_at := r_created_at r; r_updated_at := r_updated_at r |}.

(** A condition set with other amount bounds. *)
Definition with_bounds (c : rule_conditions) (lo hi : option Q) : rule_conditions :=
  {| minAmount := lo; maxAmount := hi; cond_currency := cond_currency c;
     transactionCount := transactionCount c; timeWindow := timeWindow c;
     transactionTypes := transactionTypes c; channels := channels c;
     roundAmounts := roundAmounts c; blockedCountries := blockedCountries c;
     timeZoneMismatch := timeZoneMismatch c;
     velocityThreshold := velocityThreshold c;
     velocityWindow := velocityWindow c |}.

(** The rule names of the catalog, the keys of the alerts and the pairs of
    the case links. *)
Definition rule_names (d : database) : list string := map r_name (detection_rules d).
Definition rule_ids (d : database) : list Z := map r_id (detection_rules d).
Definition alert_keys (d : database) : list Z := map a_id (alerts d).
Definition alert_codes (d : database) : list string := map alert_id (alerts d).
Definition links (d : database) : list (Z * Z) :=
  map (fun x => (ca_case_id x, ca_alert_id x)) (case_alerts d).

(** Every alert names a transaction of the table. *)
Definition transaction_refs_resolve (d : database) : Prop :=
  forall a k, In a (alerts d) -> a_transaction_id a = Some k ->
              exists t, In t (transactions d) /\ t_id t = k.

(** An analyst may touch the alert: it is unassigned (or assigned to user 0)
    or assigned to that analyst. *)
Definition analyst_may_touch (usr : user) (a : alert) : bool :=
  match assigned_to a with
  | Some who => negb (truthyZ who) || (who =? u_id usr)
  | None => true
  end.

(** ** Further sample data *)

(** The conditions of the templates 'Round Amount Structuring' and 'High
    Risk Country Transfer'. *)
Definition round_amounts : rule_conditions :=
  {| minAmount := None; maxAmount := None; cond_currency := None;
     transactionCount := Some 3; timeWindow := Some "24h";
     transactionTypes := None; channels := None; roundAmounts := Some true;
     blockedCountries := None; timeZoneMismatch := None;
     velocityThreshold := None; velocityWindow := None |}.

Definition high_risk_countries : rule_conditions :=
  {| minAmount := Some (1000 # 1); maxAmount := None; cond_currency := None;
     transactionCount := None; timeWindow := None;
     transactionTypes := None; channels := None; roundAmounts := None;
     blockedCountries := Some ["AF"; "IR"; "KP"; "SY"]; timeZoneMismatch := None;
     velocityThreshold := None; velocityWindow := None |}.

Definition rule4 : rule := sample_rule 4 "Round Amount Structuring" "pattern" round_amounts.
Definition rule5 : rule :=
  sample_rule 5 "High Risk Country Transfer" "location" high_risk_countries.

Definition ten_matches : test_body :=
  {| tb_startDate := Some 0; tb_endDate := whole_period; tb_limit := Some 10 |}.

Definition negative_limit : test_body :=
  {| tb_startDate := Some 0; tb_endDate := whole_period; tb_limit := Some (-1) |}.

(** An Amount rule whose upper bound is zero. *)
Definition up_to_zero : rule_conditions :=
  with_bounds no_conditions None (Some 0%Q).
Definition rule6 : rule := sample_rule 6 "Nothing above zero" "amount" up_to_zero.

(** Requests on the rule catalog. *)
Definition same_name_again : rule_body :=
  {| b_name := Some "Twice a day"; b_description := None;
     b_ruleType := Some "amount"; b_conditions := Some no_conditions;
     b_severity := None; b_isActive := None |}.

Definition rename_to_rule2 : rule_update :=
  {| ru_name := Some "Twice a day"; ru_description := None;
     ru_conditions := None; ru_severity := None; ru_isActive := None |}.

Definition empty_rule_update : rule_update :=
  {| ru_name := None; ru_description := None;
     ru_conditions := None; ru_severity := None; ru_isActive := None |}.

Definition after_new_rule : world :=
  fst (run (create_rule at_noon (Some sam) location_without_countries) sample_world).

(** The row POST /api/alerts stores. *)
Definition alert_details_of (e : env) (usr : user) (description : string)
    (details : option (list (string * jval))) : list (string * jval) :=
  obj_set
    (obj_set
       (obj_spread [("description", JStr description)]
          (match details with Some o => o | None => [] end))
       "createdBy" (JStr (u_username usr)))
    "createdAt" (JNum (now e)).

Definition customer_of (d : database) (txn : transaction) : option Z :=
  match from_account_id txn with
  | Some k =>
      match filter (fun a => acc_id a =? k) (accounts d) with
      | acc :: _ => acc_customer_id acc
      | [] => None
      end
  | None => None
  end.

Definition new_alert (e : env) (d : database) (usr : user) (b : alert_body)
    (tid : Z) (ty sev descr : string) (txn : transaction) : alert :=
  {| a_id := alerts_id_seq d; alert_id := "AL" ++ dec (now e) ++ rnd e;
     a_transaction_id := Some tid; a_rule_id := ab_ruleId b;
     a_customer_id := customer_of d txn;
     alert_type := ty; a_severity := sev; a_status := "new";
     a_details := alert_details_of e usr descr (ab_details b);
     assigned_to := Some (u_id usr);
     a_created_at := now e; a_updated_at := now e |}.

Definition with_rule_id (b : alert_body) (ruleId : option Z) : alert_body :=
  {| ab_transactionId := ab_transactionId b; ab_alertType := ab_alertType b;
     ab_severity := ab_severity b; ab_description := ab_description b;
     ab_details := ab_details b; ab_ruleId := ruleId |}.

Definition with_transaction_id (b : alert_body) (tid : Z) : alert_body :=
  {| ab_transactionId := Some tid; ab_alertType := ab_alertType b;
     ab_severity := ab_severity b; ab_description := ab_description b;
     ab_details := ab_details b; ab_ruleId := ab_ruleId b |}.

(** A request whose details try to set the creator and the description. *)
Definition forged_details : alert_body :=
  {| ab_transactionId := Some 3; ab_alertType := Some "manual";
     ab_severity := Some "low"; ab_description := Some "Unusual deposit";
     ab_details := Some [("createdBy", JStr "someone else");
                         ("description", JStr "Replaced")];
     ab_ruleId := None |}.

(** The keys of the alerts are distinct and every alert names a
    transaction and, when it names a rule, a rule of the catalog. *)
Definition alerts_consistent (d : database) : Prop :=
  NoDup (alert_keys d) /\ NoDup (alert_codes d)
  /\ transaction_refs_resolve d /\ rule_refs_resolve d.

Definition with_notes : alert_update :=
  {| au_status := Some "investigating"; au_assignedTo := None;
     au_notes := Some "Called the customer"; au_resolution := None |}.

Definition assign_to (who : Z) : alert_update :=
  {| au_status := None; au_assignedTo := Some (Some who);
     au_notes := None; au_resolution := None |}.


(** The guard of PUT /api/alerts/:id on analysts. *)
Definition denied_to (usr : user) (a : alert) : bool :=
  String.eqb (u_role usr) "analyst" && negb (analyst_may_touch usr a).

Definition after_refused_alert : world :=
  fst (run (create_alert at_noon (Some root) (with_rule_id amount_alert (Some 9)))
           sample_world).

(** The guard of POST /api/cases/:id/alerts on analysts: the case is
    neither assigned to nor created by the analyst. *)
Definition case_denied_to (usr : user) (c : case) : bool :=
  String.eqb (u_role usr) "analyst"
  && negb (opt_eqb (c_assigned_to c) (u_id usr))
  && negb (opt_eqb (c_created_by c) (u_id usr)).

(** The row POST /api/cases stores. *)
Definition new_case (e : env) (d : database) (usr : user) (b : case_body)
    (title descr ctype : string) : case :=
  {| c_id := cases_id_seq d;
     case_number := "CASE" ++ dec (year e) ++ slice_last 6 (dec (now e));
     c_title := title; c_description := descr; case_type := ctype;
     c_priority := match cb_priority b with Some p => p | None => "medium" end;
     c_status := "open";
     c_assigned_to := cb_assignedTo b; c_created_by := Some (u_id usr);
     estimated_loss := cb_estimatedLoss b; c_created_at := now e |}.

Definition the_clerk : user := {| u_id := 4; u_username := "vic"; u_role := "viewer" |}.

Definition after_case : world :=
  fst (run (create_case at_noon (Some ana) (case_on [2; 1])) sample_world).

(** [updates.length === 0], and the table after the UPDATE. *)
Definition rule_update_empty (b : rule_update) : bool :=
  match ru_name b, ru_description b, ru_conditions b, ru_severity b, ru_isActive b with
  | None, None, None, None, None => true
  | _, _, _, _, _ => false
  end.

Definition updated_rules (e : env) (b : rule_update) (ruleId : Z) (d : database)
  : database :=
  with_rules d
    (map (fun r => if r_id r =? ruleId then apply_rule_update e b r else r)
         (detection_rules d))
    (detection_rules_id_seq d).

(** An update may carry conditions the creation schema refuses. *)
Definition negative_minimum : rule_update :=
  {| ru_name := None; ru_description := None;
     ru_conditions := Some (with_bounds no_conditions (Some ((-5) # 1)) None);
     ru_severity := None; ru_isActive := None |}.


(** * Properties *)

(** ** Lists, ordering and the monad *)

Ltac unfold_monad :=
  unfold run, try_catch, reject_if, audit, emit, get_db, put_db,
         respond, throw, bind, ret in *.

Tactic Notation "reduce" := cbn [fst snd db audit_log emitted].
Tactic Notation "reduce" "in" hyp(H) := cbn [fst snd db audit_log emitted] in H.

Ltac break_match :=
  match goal with
  | |- context [match ?x with _ => _ end] => destruct x eqn:?
  | H : context [match ?x with _ => _ end] |- _ => destruct x eqn:?
  end.

Lemma insert_desc_Forall (P : match_row -> Prop) m l :
  P m -> Forall P l -> Forall P (insert_desc m l).
Proof.
  intros Hm Hl. induction Hl as [|x rest Hx Hrest IH]; simpl.
  - constructor; [assumption | constructor].
  - destruct (processed_at (m_txn x) <=? processed_at (m_txn m)).
    + constructor; [assumption | constructor; assumption].
    + constructor; assumption.
Qed.

Lemma insert_desc_sorted m l :
  most_recent_first l -> most_recent_first (insert_desc m l).
Proof.
  unfold most_recent_first.
  induction 1 as [|x rest Hsorted IH Hall]; simpl.
  - constructor; constructor.
  - destruct (processed_at (m_txn x) <=? processed_at (m_txn m)) eqn:Hcmp.
    + apply Z.leb_le in Hcmp.
      constructor.
      * constructor; assumption.
      * constructor; [assumption |].
        eapply Forall_impl; [| exact Hall]. simpl. intros; lia.
    + apply Z.leb_gt in Hcmp.
      constructor; [assumption |].
      apply insert_desc_Forall; [lia | assumption].
Qed.

Lemma order_by_sorted l : most_recent_first (order_by_processed_at_desc l).
Proof.
  induction l as [|m l IH]; simpl.
  - constructor.
  - apply insert_desc_sorted, IH.
Qed.

Lemma insert_desc_In m x l : In x (insert_desc m l) <-> x = m \/ In x l.
Proof.
  induction l as [|y l IH]; simpl.
  - intuition congruence.
  - destruct (processed_at (m_txn y) <=? processed_at (m_txn m)); simpl.
    + intuition congruence.
    + rewrite IH. intuition congruence.
Qed.

Lemma order_by_In x l : In x (order_by_processed_at_desc l) <-> In x l.
Proof.
  induction l as [|m l IH]; simpl.
  - tauto.
  - rewrite insert_desc_In, IH. intuition congruence.
Qed.

Lemma firstn_In {A} (x : A) n l : In x (firstn n l) -> In x l.
Proof.
  revert n. induction l as [|y l IH]; intros [|n]; simpl; try tauto.
  intros [H | H]; [left; exact H | right; eapply IH; exact H].
Qed.

Lemma firstn_sorted n l : most_recent_first l -> most_recent_first (firstn n l).
Proof.
  unfold most_recent_first. intros H. revert n.
  induction H as [|x rest Hsorted IH Hall]; intros [|n]; simpl; try constructor.
  - apply IH.
  - rewrite Forall_forall in *. intros y Hy. apply Hall.
    eapply firstn_In. exact Hy.
Qed.

(** ** The rule tester *)

Lemma build_test_query_supported r s e :
  In (rule_type r) supported_types -> exists q, build_test_query r s e = Some q.
Proof.
  unfold supported_types, build_test_query. simpl.
  intros [H | [H | [H | [H | []]]]]; rewrite <- H; simpl; eauto.
Qed.

Lemma build_test_query_shape r s e q :
  build_test_query r s e = Some q ->
  match q with
  | SelectWhere _ conds => exists rest, conds = ProcessedGe s :: ProcessedLe e :: rest
  | SelectFrequent _ p1 p2 _ => p1 = s /\ p2 = e
  end.
Proof.
  unfold build_test_query, and_if. intros H.
  repeat break_match; inversion H; subst; simpl; eauto.
Qed.

Lemma select_rows_in_period r s e q d m :
  build_test_query r s e = Some q ->
  In m (select_rows q d) ->
  in_period s e (m_txn m) = true /\ In (m_txn m) (transactions d).
Proof.
  intros Hq Hin. apply build_test_query_shape in Hq.
  destruct q as [reason conds | reason p1 p2 p3]; simpl in Hin.
  - destruct Hq as [rest ->].
    apply in_map_iff in Hin. destruct Hin as [t [<- Ht]].
    apply filter_In in Ht. destruct Ht as [Ht Hall]. simpl in *.
    unfold in_period. simpl.
    apply andb_true_iff in Hall. destruct Hall as [H1 Hall].
    apply andb_true_iff in Hall. destruct Hall as [H2 _].
    rewrite H1, H2. auto.
  - destruct Hq as [-> ->].
    apply filter_In in Hin. destruct Hin as [Hin Hper]. split; [exact Hper |].
    apply in_flat_map in Hin. destruct Hin as [t [Ht Hm]].
    apply in_map_iff in Hm. destruct Hm as [fa [<- _]]. exact Ht.
Qed.

Lemma test_rule_read_only w u id b :
  db (fst (run (test_rule u id b) w)) = db w.
Proof.
  unfold test_rule, authorize, select_rule, run_test_query.
  unfold_monad.
  destruct u as [usr|]; [| reflexivity].
  destruct (includes ["supervisor"; "admin"] (u_role usr)); [| reflexivity].
  destruct id as [ruleId|]; [| reflexivity].
  cbn [fst snd].
  destruct (find (fun r => r_id r =? ruleId) (detection_rules (db w))) as [rule|];
    [| reflexivity].
  destruct (build_test_query rule (tb_startDate b) (tb_endDate b)) as [q|];
    [| reflexivity].
  cbn [fst snd].
  destruct (match tb_limit b with Some l => l | None => 100 end <? 0); reflexivity.
Qed.

Lemma test_rule_completes w usr ruleId rule b q :
  includes ["supervisor"; "admin"] (u_role usr) = true ->
  find (fun r => r_id r =? ruleId) (detection_rules (db w)) = Some rule ->
  build_test_query rule (tb_startDate b) (tb_endDate b) = Some q ->
  0 <= limit_of b ->
  run (test_rule (Some usr) (Some ruleId) b) w =
    (logged w "RULE_TESTED" (u_id usr) "rule" ruleId,
     Some {| status := 200;
             body := JTest "Rule test completed" (r_id rule) (r_name rule)
                           (rule_type rule) (tb_startDate b) (tb_endDate b)
                           (test_matches q b (db w))
                           (Z.of_nat (List.length (test_matches q b (db w)))) |}).
Proof.
  intros Hrole Hfind Hq Hlimit.
  unfold test_rule, authorize, select_rule, run_test_query, test_matches, limit_of in *.
  unfold_monad. rewrite Hrole. simpl. rewrite Hfind, Hq. simpl.
  destruct (match tb_limit b with Some l => l | None => 100 end <? 0) eqn:Hneg.
  - apply Z.ltb_lt in Hneg. lia.
  - reflexivity.
Qed.

Lemma test_rule_success w u id b r :
  snd (run (test_rule u id b) w) = Some r -> status r = 200 ->
  exists rule q,
    build_test_query rule (tb_startDate b) (tb_endDate b) = Some q
    /\ 0 <= limit_of b
    /\ body r = JTest "Rule test completed" (r_id rule) (r_name rule)
                      (rule_type rule) (tb_startDate b) (tb_endDate b)
                      (test_matches q b (db w))
                      (Z.of_nat (List.length (test_matches q b (db w)))).
Proof.
  unfold test_rule, authorize, select_rule, run_test_query, test_matches, limit_of.
  unfold_monad.
  intros Hrun Hst.
  destruct u as [usr|]; [| inversion Hrun; subst; discriminate].
  destruct (includes ["supervisor"; "admin"] (u_role usr));
    [| inversion Hrun; subst; discriminate].
  destruct id as [ruleId|]; [| inversion Hrun; subst; discriminate].
  cbn [fst snd] in Hrun.
  destruct (find (fun r0 => r_id r0 =? ruleId) (detection_rules (db w))) as [rule|];
    [| inversion Hrun; subst; discriminate].
  destruct (build_test_query rule (tb_startDate b) (tb_endDate b)) as [q|] eqn:Hq;
    [| inversion Hrun; subst; discriminate].
  cbn [fst snd] in Hrun.
  destruct (match tb_limit b with Some l => l | None => 100 end <? 0) eqn:Hneg;
    inversion Hrun; subst; try discriminate.
  apply Z.ltb_ge in Hneg.
  exists rule, q. split; [exact Hq | split; [exact Hneg | reflexivity]].
Qed.

Lemma test_matches_bounded q b d :
  0 <= limit_of b -> Z.of_nat (List.length (test_matches q b d)) <= limit_of b.
Proof.
  intros H. unfold test_matches.
  pose proof (firstn_le_length (Z.to_nat (limit_of b))
                (order_by_processed_at_desc (select_rows q d))). lia.
Qed.

(** C8. A backtest never changes the database, so it creates no alert; when
    it answers 200 its matches number at most [limit], are ordered most
    recent first by [processed_at] and are rows of [transactions]; and it does
    answer 200 for a supervisor or admin on an existing rule of a supported
    type with a non-negative limit. *)
Theorem backtest_bounded_ordered_read_only (w : world) (u : option user)
    (id : option Z) (b : test_body) :
  db (fst (run (test_rule u id b) w)) = db w
  /\ (forall r, snd (run (test_rule u id b) w) = Some r -> status r = 200 ->
        exists rid name ty matches,
          body r = JTest "Rule test completed" rid name ty
                         (tb_startDate b) (tb_endDate b)
                         matches (Z.of_nat (List.length matches))
          /\ Z.of_nat (List.length matches) <= limit_of b
          /\ most_recent_first matches
          /\ (forall m, In m matches -> In (m_txn m) (transactions (db w))))
  /\ (forall usr ruleId rule,
        u = Some usr -> includes ["supervisor"; "admin"] (u_role usr) = true ->
        id = Some ruleId ->
        find (fun r => r_id r =? ruleId) (detection_rules (db w)) = Some rule ->
        In (rule_type rule) supported_types ->
        0 <= limit_of b ->
        exists r, snd (run (test_rule u id b) w) = Some r /\ status r = 200).
Proof.
  split; [apply test_rule_read_only | split].
  - intros r Hrun Hst.
    destruct (test_rule_success _ _ _ _ _ Hrun Hst) as [rule [q [Hq [Hlim Hbody]]]].
    exists (r_id rule), (r_name rule), (rule_type rule), (test_matches q b (db w)).
    split; [exact Hbody | split; [apply test_matches_bounded; exact Hlim | split]].
    + apply firstn_sorted, order_by_sorted.
    + intros m Hm. apply firstn_In in Hm. apply (proj1 (order_by_In _ _)) in Hm.
      exact (proj2 (select_rows_in_period _ _ _ _ _ _ Hq Hm)).
  - intros usr ruleId rule -> Hrole -> Hfind Hty Hlim.
    destruct (build_test_query_supported rule (tb_startDate b) (tb_endDate b) Hty)
      as [q Hq].
    rewrite (test_rule_completes _ _ _ _ _ _ Hrole Hfind Hq Hlim).
    eexists; split; reflexivity.
Qed.

Lemma backtest_bounded_ordered_read_only_witness :
  exists r,
    snd (run (test_rule (Some sam) (Some 1)
                {| tb_startDate := Some 0; tb_endDate := Some (30 * hour);
                   tb_limit := Some 10 |}) sample_world) = Some r
    /\ status r = 200.
Proof.
  apply (proj2 (proj2 (backtest_bounded_ordered_read_only sample_world (Some sam) (Some 1)
           {| tb_startDate := Some 0; tb_endDate := Some (30 * hour);
              tb_limit := Some 10 |})) sam 1
           (sample_rule 1 "Large Cash Transaction" "amount" large_cash)).
  - reflexivity.
  - reflexivity.
  - reflexivity.
  - reflexivity.
  - simpl. auto.
  - unfold limit_of. simpl. lia.
Defined.

(** The backtest scenario: one match, the 12000 NZD transaction, and no
    alert. *)
Example backtest_scenario :
  exists w' matches,
    run (test_rule (Some sam) (Some 1)
           {| tb_startDate := Some 0; tb_endDate := Some (3 * hour);
              tb_limit := Some 10 |}) scenario_world
    = (w', Some {| status := 200;
                   body := JTest "Rule test completed" 1 "Large Cash Transaction"
                                 "amount" (Some 0) (Some (3 * hour)) matches 1 |})
    /\ map (fun m => (t_id (m_txn m), trigger_reason m)) matches
       = [(1, "Amount threshold exceeded")]
    /\ alerts (db w') = [].
Proof.
  eexists; eexists. split; [vm_compute; reflexivity |]. split; reflexivity.
Qed.

Lemma in_period_reversed s e t : e < s -> in_period (Some s) (Some e) t = false.
Proof.
  intros H. unfold in_period, holds.
  destruct (s <=? processed_at t) eqn:H1; [| reflexivity].
  destruct (processed_at t <=? e) eqn:H2; [| reflexivity].
  apply Z.leb_le in H1. apply Z.leb_le in H2. lia.
Qed.

Lemma select_rows_reversed r s e q d :
  build_test_query r (Some s) (Some e) = Some q -> e < s -> select_rows q d = [].
Proof.
  intros Hq Hlt.
  destruct (select_rows q d) as [|m rest] eqn:Hrows; [reflexivity |].
  assert (Hin : In m (select_rows q d)) by (rewrite Hrows; left; reflexivity).
  destruct (select_rows_in_period _ _ _ _ _ _ Hq Hin) as [Hper _].
  rewrite in_period_reversed in Hper by exact Hlt. discriminate.
Qed.

(** C9, as the code has it.  The tester does not compare the two dates: on an
    existing rule of a supported type, with a non-negative limit, a request
    whose endDate lies before its startDate is evaluated like any other and
    answered 200 with no match. *)
Theorem backtest_reversed_range_answers_empty (w : world) (usr : user)
    (ruleId : Z) (rule : rule) (b : test_body) (s e : Z) :
  includes ["supervisor"; "admin"] (u_role usr) = true ->
  find (fun r => r_id r =? ruleId) (detection_rules (db w)) = Some rule ->
  In (rule_type rule) supported_types ->
  0 <= limit_of b ->
  tb_startDate b = Some s -> tb_endDate b = Some e -> e < s ->
  run (test_rule (Some usr) (Some ruleId) b) w =
    (logged w "RULE_TESTED" (u_id usr) "rule" ruleId,
     Some {| status := 200;
             body := JTest "Rule test completed" (r_id rule) (r_name rule)
                           (rule_type rule) (Some s) (Some e) [] 0 |}).
Proof.
  intros Hrole Hfind Hty Hlim Hs He Hlt.
  destruct (build_test_query_supported rule (tb_startDate b) (tb_endDate b) Hty)
    as [q Hq].
  rewrite (test_rule_completes _ _ _ _ _ _ Hrole Hfind Hq Hlim).
  unfold test_matches. rewrite Hs, He in *.
  rewrite (select_rows_reversed _ _ _ _ _ Hq Hlt).
  simpl. rewrite firstn_nil. reflexivity.
Qed.

Lemma backtest_reversed_range_answers_empty_witness :
  run (test_rule (Some sam) (Some 1) reversed_range) sample_world =
    (logged sample_world "RULE_TESTED" 2 "rule" 1,
     Some {| status := 200;
             body := JTest "Rule test completed" 1 "Large Cash Transaction"
                           "amount" (Some (30 * hour)) (Some 0) [] 0 |}).
Proof.
  apply (backtest_reversed_range_answers_empty sample_world sam 1
           (sample_rule 1 "Large Cash Transaction" "amount" large_cash)
           reversed_range (30 * hour) 0).
  - reflexivity.
  - reflexivity.
  - simpl. auto.
  - unfold limit_of. simpl. lia.
  - reflexivity.
  - reflexivity.
  - unfold hour. lia.
Defined.

(** C9 as stated fails: a backtest of rule 1 over a range that ends before it
    starts is answered 200 with an empty list, not with a validation
    error. *)
Lemma backtest_reversed_range_not_rejected :
  snd (run (test_rule (Some sam) (Some 1) reversed_range) sample_world) =
    Some {| status := 200;
            body := JTest "Rule test completed" 1 "Large Cash Transaction"
                          "amount" (Some (30 * hour)) (Some 0) [] 0 |}
  /\ ~ validation_error
         (snd (run (test_rule (Some sam) (Some 1) reversed_range) sample_world)).
Proof.
  split; [reflexivity |].
  intros [b H]. vm_compute in H. discriminate.
Qed.

(** ** What the tester selects for Amount and Frequency rules *)

Lemma row_eq_inv t t' reason :
  {| m_txn := t'; trigger_reason := reason |} = {| m_txn := t; trigger_reason := reason |}
  <-> t' = t.
Proof.
  split; [intros H; inversion H; reflexivity | intros ->; reflexivity].
Qed.

Lemma selects_where reason conds d t :
  selects (SelectWhere reason conds) d t
  <-> In t (transactions d) /\ forallb (holds t) conds = true.
Proof.
  unfold selects. simpl. rewrite in_map_iff. split.
  - intros [t' [Heq Hin]]. apply row_eq_inv in Heq. subst t'.
    apply filter_In in Hin. exact Hin.
  - intros H. exists t. split; [reflexivity | apply filter_In; exact H].
Qed.

Lemma amount_query r s e :
  rule_type r = "amount" -> amount_fields_truthy (conditions r) = true ->
  exists conds,
    build_test_query r s e = Some (SelectWhere "Amount threshold exceeded" conds)
    /\ forall t, forallb (holds t) conds
                 = in_period s e t && amount_currency_match (conditions r) t.
Proof.
  intros Hty Htruthy.
  unfold build_test_query. rewrite Hty. simpl.
  unfold amount_fields_truthy, amount_currency_match, in_period in *.
  destruct (minAmount (conditions r)) as [lo|];
    destruct (maxAmount (conditions r)) as [hi|];
    destruct (cond_currency (conditions r)) as [cur|];
    repeat match type of Htruthy with
           | context [truthyQ ?m] => destruct (truthyQ m); simpl in Htruthy
           | context [truthyS ?m] => destruct (truthyS m); simpl in Htruthy
           end; try discriminate;
    unfold and_if; simpl;
    eexists; (split; [reflexivity |]); intros t; simpl;
    rewrite ?andb_true_r, ?andb_assoc; reflexivity.
Qed.

(** What the Amount branch of the tester computes.  For an Amount rule whose
    bounds, where set, are not zero (and whose currency, where set, is not
    the empty string), the tester selects a transaction exactly when it was
    processed within the tested period, its amount lies within
    [minAmount, maxAmount] (both inclusive, an absent bound unbounded) and
    its currency equals the rule's currency when one is set; the branch does
    not read [transactionTypes]. *)
Theorem amount_rule_selects (r : rule) (s e : option Z) (d : database) (t : transaction) :
  rule_type r = "amount" ->
  amount_fields_truthy (conditions r) = true ->
  exists q,
    build_test_query r s e = Some q
    /\ reason_of q = "Amount threshold exceeded"
    /\ (selects q d t <->
        In t (transactions d) /\ in_period s e t = true
        /\ amount_currency_match (conditions r) t = true).
Proof.
  intros Hty Htruthy.
  destruct (amount_query r s e Hty Htruthy) as [conds [Hq Hconds]].
  exists (SelectWhere "Amount threshold exceeded" conds).
  split; [exact Hq | split; [reflexivity |]].
  rewrite selects_where, Hconds, andb_true_iff. tauto.
Qed.

Lemma amount_rule_selects_witness :
  exists q,
    build_test_query rule1 (Some 0) whole_period = Some q
    /\ reason_of q = "Amount threshold exceeded"
    /\ (selects q sample_db txn3 <->
        In txn3 (transactions sample_db) /\ in_period (Some 0) whole_period txn3 = true
        /\ amount_currency_match (conditions rule1) txn3 = true).
Proof.
  apply (amount_rule_selects rule1 (Some 0) whole_period sample_db txn3).
  - reflexivity.
  - reflexivity.
Defined.

(** The instances of the specification: under minAmount 10000 and currency
    NZD, 10000 NZD is selected, 9999.99 NZD is not, 20000 USD is not. *)
Example large_cash_instances :
  forall q, build_test_query rule1 (Some 0) whole_period = Some q ->
            selects q sample_db txn3 /\ ~ selects q sample_db txn2
            /\ ~ selects q sample_db txn4.
Proof.
  intros q Hq. vm_compute in Hq. inversion Hq; subst q; clear Hq.
  rewrite !selects_where. repeat split.
  - vm_compute. auto.
  - intros [_ H]. vm_compute in H. discriminate.
  - intros [_ H]. vm_compute in H. discriminate.
Qed.

(** C6, where the tester departs from it.  The rule of the catalog's own
    template 'Large Cash Transaction' (cash transactions over NZD 10,000)
    lists the transaction types deposit and withdrawal, so by the claim it
    does not match [txn1], a transfer of 15,000 NZD.  The Amount branch of
    the tester never reads [transactionTypes] (the Pattern branch does): its
    query selects [txn1], and the test of rule 1 over the whole period is
    answered 200 with [txn1] among the matches, beside the deposit
    [txn3]. *)
Theorem amount_rule_ignores_transaction_types :
  spec_amount_matches (conditions rule1) txn1 = false
  /\ (exists q, build_test_query rule1 (Some 0) whole_period = Some q
                /\ selects q sample_db txn1)
  /\ exists w' matches,
       run (test_rule (Some sam) (Some 1) ten_matches) sample_world
       = (w', Some {| status := 200;
                      body := JTest "Rule test completed" 1 "Large Cash Transaction"
                                    "amount" (Some 0) whole_period matches 2 |})
       /\ map (fun m => (t_id (m_txn m), transaction_type (m_txn m))) matches
          = [(3, "deposit"); (1, "transfer")].
Proof.
  split; [reflexivity |]. split.
  - eexists. split; [reflexivity |].
    apply selects_where. split; [simpl; auto | reflexivity].
  - eexists; eexists. split; [vm_compute; reflexivity | reflexivity].
Qed.

Lemma same_group_eq a b : same_group a b = true <-> a = b.
Proof.
  destruct a as [x|], b as [y|]; simpl; split; intros H;
    try discriminate; try reflexivity.
  - apply Z.eqb_eq in H. congruence.
  - inversion H. apply Z.eqb_refl.
Qed.

Lemma group_keys_In k l : In k l -> In k (group_keys l).
Proof.
  induction l as [|a rest IH]; simpl; [tauto |].
  intros [-> | Hin]; [left; reflexivity |].
  destruct (same_group a k) eqn:Hsame.
  - left. apply same_group_eq. exact Hsame.
  - right. apply filter_In. split; [apply IH; exact Hin | rewrite Hsame; reflexivity].
Qed.

Lemma join_on_inv t k n :
  join_on t (k, n) = true <-> exists acct, from_account_id t = Some acct /\ k = Some acct.
Proof.
  unfold join_on. simpl. split.
  - destruct (from_account_id t) as [x|]; [| discriminate].
    destruct k as [y|]; [| discriminate].
    intros H. apply Z.eqb_eq in H. subst y. eauto.
  - intros [acct [-> ->]]. apply Z.eqb_refl.
Qed.

Lemma selects_frequent reason p1 p2 p3 d t :
  selects (SelectFrequent reason p1 p2 p3) d t
  <-> In t (transactions d) /\ in_period p1 p2 t = true
      /\ exists acct, from_account_id t = Some acct
                      /\ p3 <= txn_count p1 p2 d (Some acct).
Proof.
  unfold selects. simpl. rewrite filter_In, in_flat_map. simpl. split.
  - intros [[t' [Hin Hrow]] Hper].
    apply in_map_iff in Hrow. destruct Hrow as [[k n] [Heq Hfa]].
    apply row_eq_inv in Heq. subst t'.
    apply filter_In in Hfa. destruct Hfa as [Hfa Hjoin].
    apply join_on_inv in Hjoin. destruct Hjoin as [acct [Hacct ->]].
    unfold frequent_accounts in Hfa.
    apply filter_In in Hfa. destruct Hfa as [Hgroup Hcount].
    apply in_map_iff in Hgroup. destruct Hgroup as [k [Hk _]].
    inversion Hk; subst. simpl in Hcount. apply Z.leb_le in Hcount.
    split; [exact Hin | split; [exact Hper |]].
    exists acct. split; [exact Hacct | exact Hcount].
  - intros [Hin [Hper [acct [Hacct Hcount]]]].
    split; [| exact Hper].
    exists t. split; [exact Hin |].
    apply in_map_iff. exists (Some acct, txn_count p1 p2 d (Some acct)).
    split; [reflexivity |].
    apply filter_In. split.
    + unfold frequent_accounts. apply filter_In. split.
      * apply in_map_iff. exists (Some acct). split; [reflexivity |].
        apply group_keys_In. rewrite <- Hacct.
        apply in_map. unfold period_rows. apply filter_In. split; assumption.
      * simpl. apply Z.leb_le. exact Hcount.
    + apply join_on_inv. exists acct. split; [exact Hacct | reflexivity].
Qed.

(** What the Frequency branch of the tester computes.  For a Frequency rule
    the tester selects a transaction exactly when it was processed within
    the tested period [startDate, endDate] and the transactions of the same
    source account processed within that same period number at least
    [transactionCount] (10 when the rule sets none); the branch reads
    neither [timeWindow] nor [channels]. *)
Theorem frequency_rule_selects (r : rule) (s e : option Z) (d : database)
    (t : transaction) :
  rule_type r = "frequency" ->
  exists q,
    build_test_query r s e = Some q
    /\ reason_of q = "High frequency transactions"
    /\ (selects q d t <->
        In t (transactions d) /\ in_period s e t = true
        /\ exists acct, from_account_id t = Some acct
                        /\ frequency_threshold (conditions r)
                           <= txn_count s e d (Some acct)).
Proof.
  intros Hty.
  exists (SelectFrequent "High frequency transactions" s e
                         (frequency_threshold (conditions r))).
  split; [| split; [reflexivity | apply selects_frequent]].
  unfold build_test_query. rewrite Hty. reflexivity.
Qed.

Lemma frequency_rule_selects_witness :
  exists q,
    build_test_query rule2 (Some 0) whole_period = Some q
    /\ reason_of q = "High frequency transactions"
    /\ (selects q sample_db txn2 <->
        In txn2 (transactions sample_db) /\ in_period (Some 0) whole_period txn2 = true
        /\ exists acct, from_account_id txn2 = Some acct
                        /\ frequency_threshold (conditions rule2)
                           <= txn_count (Some 0) whole_period sample_db (Some acct)).
Proof.
  apply (frequency_rule_selects rule2 (Some 0) whole_period sample_db txn2).
  reflexivity.
Defined.

(** C7, where the tester departs from it.  Rule 2 asks for 2 transactions
    within '24h'.  [txn1] and [txn2] leave the same account 25 hours apart,
    so no 24-hour window holds both and by the claim the rule matches [txn2]
    at no time.  The Frequency branch of the tester never reads [timeWindow]
    (nor [channels]): it counts over the tested period, here 30 hours, so
    its query selects [txn2], and the test of rule 2 is answered 200 with
    [txn2] and [txn1] among the matches (beside [txn4] and [txn3], which
    leave another account one hour apart). *)
Theorem frequency_rule_counts_over_tested_period :
  (forall at_, spec_frequency_matches (conditions rule2) (transactions sample_db)
                                      at_ txn2 = false)
  /\ (exists q, build_test_query rule2 (Some 0) whole_period = Some q
                /\ selects q sample_db txn2)
  /\ exists w' matches,
       run (test_rule (Some sam) (Some 2) ten_matches) sample_world
       = (w', Some {| status := 200;
                      body := JTest "Rule test completed" 2 "Twice a day"
                                    "frequency" (Some 0) whole_period matches 4 |})
       /\ map (fun m => (t_id (m_txn m), processed_at (m_txn m))) matches
          = [(4, 27 * hour); (3, 26 * hour); (2, 25 * hour); (1, 0)].
Proof.
  split; [| split].
  - intros at_. unfold spec_frequency_matches, spec_frequency_count. simpl.
    unfold hour.
    destruct (Z.leb_spec (at_ - 86400000) 0), (Z.leb_spec 0 at_),
             (Z.leb_spec (at_ - 86400000) 90000000), (Z.leb_spec 90000000 at_);
      simpl; try reflexivity; lia.
  - eexists. split; [reflexivity |].
    apply selects_frequent. split; [simpl; auto | split; [reflexivity |]].
    exists 3. split; [reflexivity | vm_compute; discriminate].
  - eexists; eexists. split; [vm_compute; reflexivity | reflexivity].
Qed.

(** ** Deleting a rule *)

Lemma rule_alert_count_nonneg d ruleId : 0 <= rule_alert_count d ruleId.
Proof. unfold rule_alert_count. lia. Qed.

Lemma filter_length_zero {A} (f : A -> bool) l :
  List.length (filter f l) = 0%nat -> forall x, In x l -> f x = false.
Proof.
  induction l as [|y l IH]; simpl; [tauto |].
  destruct (f y) eqn:Hy; simpl; [discriminate |].
  intros Hlen x [<- | Hin]; [exact Hy | apply IH; assumption].
Qed.

Lemma delete_rule_rejected w usr ruleId rule :
  u_role usr = "admin" ->
  find (fun r => r_id r =? ruleId) (detection_rules (db w)) = Some rule ->
  0 < rule_alert_count (db w) ruleId ->
  run (delete_rule (Some usr) (Some ruleId)) w =
    (w, Some {| status := 400;
                body := JAlertCount "Cannot delete rule with associated alerts"
                                    (rule_alert_count (db w) ruleId) |}).
Proof.
  intros Hrole Hfind Hcount.
  unfold delete_rule, authorize, select_rule, count_alerts_of_rule.
  unfold_monad. rewrite Hrole. simpl. rewrite Hfind. simpl.
  apply Z.ltb_lt in Hcount. rewrite Hcount. reflexivity.
Qed.

Lemma delete_rule_cases w u id :
  (fst (run (delete_rule u id) w) = w
   /\ exists r, snd (run (delete_rule u id) w) = Some r /\ status r <> 200)
  \/ (exists usr ruleId,
        u = Some usr /\ id = Some ruleId
        /\ rule_alert_count (db w) ruleId = 0
        /\ run (delete_rule u id) w =
             (logged {| db := without_rule (db w) ruleId;
                        audit_log := audit_log w; emitted := emitted w |}
                     "RULE_DELETED" (u_id usr) "rule" ruleId,
              Some {| status := 200;
                      body := JMessage "Detection rule deleted successfully" |})).
Proof.
  unfold delete_rule, authorize, select_rule, count_alerts_of_rule,
         delete_detection_rule.
  unfold_monad.
  destruct u as [usr|]; [| left; split; [reflexivity | eexists; split; [reflexivity | discriminate]]].
  destruct (includes ["admin"] (u_role usr));
    [| left; split; [reflexivity | eexists; split; [reflexivity | discriminate]]].
  destruct id as [ruleId|];
    [| left; split; [reflexivity | eexists; split; [reflexivity | discriminate]]].
  cbn [fst snd].
  destruct (find (fun r => r_id r =? ruleId) (detection_rules (db w))) as [rule|];
    [| left; split; [reflexivity | eexists; split; [reflexivity | discriminate]]].
  cbn [fst snd].
  destruct (0 <? rule_alert_count (db w) ruleId) eqn:Hcount;
    [left; split; [reflexivity | eexists; split; [reflexivity | discriminate]] |].
  reduce.
  destruct (existsb (fun r => r_id r =? ruleId) (detection_rules (db w))
            && existsb (fun a => opt_eqb (a_rule_id a) ruleId) (alerts (db w)));
    [left; split; [reflexivity | eexists; split; [reflexivity | discriminate]] |].
  right. exists usr, ruleId.
  apply Z.ltb_ge in Hcount. pose proof (rule_alert_count_nonneg (db w) ruleId).
  repeat split; [lia].
Qed.

Lemma without_rule_keeps_refs d ruleId :
  rule_alert_count d ruleId = 0 -> rule_refs_resolve d ->
  rule_refs_resolve (without_rule d ruleId).
Proof.
  unfold rule_alert_count, rule_refs_resolve, without_rule. simpl.
  intros Hcount Hrefs a k Ha Hk.
  destruct (Hrefs a k Ha Hk) as [r [Hr Hrid]].
  exists r. split; [| exact Hrid].
  apply filter_In. split; [exact Hr |].
  assert (Hlen : List.length (filter (fun a => opt_eqb (a_rule_id a) ruleId) (alerts d)) = 0%nat)
    by lia.
  pose proof (filter_length_zero _ _ Hlen a Ha) as Hno.
  cbv beta in Hno. rewrite Hk in Hno. simpl in Hno. rewrite Hrid, Hno. reflexivity.
Qed.

(** C10. Deleting a rule that exists and has alerts referencing it is
    answered 400 with the number of those alerts and changes nothing; the
    rule catalog changes only when the rule has no alert; the alerts are
    never touched, and when every alert's rule was in the catalog before the
    request, it still is after it. *)
Theorem delete_rule_with_alerts_rejected (w : world) (u : option user) (id : option Z) :
  (forall usr ruleId rule,
      u = Some usr -> u_role usr = "admin" -> id = Some ruleId ->
      find (fun r => r_id r =? ruleId) (detection_rules (db w)) = Some rule ->
      0 < rule_alert_count (db w) ruleId ->
      run (delete_rule u id) w =
        (w, Some {| status := 400;
                    body := JAlertCount "Cannot delete rule with associated alerts"
                                        (rule_alert_count (db w) ruleId) |}))
  /\ (detection_rules (db (fst (run (delete_rule u id) w))) <> detection_rules (db w) ->
      exists ruleId, id = Some ruleId /\ rule_alert_count (db w) ruleId = 0)
  /\ alerts (db (fst (run (delete_rule u id) w))) = alerts (db w)
  /\ (rule_refs_resolve (db w) ->
      rule_refs_resolve (db (fst (run (delete_rule u id) w)))).
Proof.
  split.
  { intros usr ruleId rule -> Hrole -> Hfind Hcount.
    apply (delete_rule_rejected _ _ _ _ Hrole Hfind Hcount). }
  destruct (delete_rule_cases w u id)
    as [[Hsame _] | [usr [ruleId [-> [-> [Hzero Hrun]]]]]].
  - rewrite Hsame. split; [intros H; contradiction H; reflexivity |].
    split; [reflexivity | tauto].
  - rewrite Hrun. cbn [fst db logged]. split; [| split].
    + intros _. exists ruleId. split; [reflexivity | exact Hzero].
    + reflexivity.
    + apply without_rule_keeps_refs. exact Hzero.
Qed.

Lemma delete_rule_with_alerts_rejected_witness :
  run (delete_rule (Some root) (Some 1)) sample_world =
    (sample_world,
     Some {| status := 400;
             body := JAlertCount "Cannot delete rule with associated alerts" 1 |}).
Proof.
  apply (proj1 (delete_rule_with_alerts_rejected sample_world (Some root) (Some 1))
           root 1 rule1).
  - reflexivity.
  - reflexivity.
  - reflexivity.
  - reflexivity.
  - reflexivity.
Defined.

(** Rule 2 has no alert and is deleted. *)
Example delete_rule_without_alerts :
  snd (run (delete_rule (Some root) (Some 2)) sample_world) =
    Some {| status := 200; body := JMessage "Detection rule deleted successfully" |}
  /\ map r_id (detection_rules (db (fst (run (delete_rule (Some root) (Some 2))
                                            sample_world)))) = [1; 3].
Proof. split; reflexivity. Qed.

(** ** Creating a rule *)

Lemma first_error_none cs : first_error cs = None -> Forall (fun c => c = None) cs.
Proof.
  induction cs as [|[e|] cs IH]; simpl; intros H.
  - constructor.
  - discriminate.
  - constructor; [reflexivity | apply IH; exact H].
Qed.

Lemma check_none path type ok : check path type ok = None -> ok = true.
Proof. unfold check. destruct ok; [reflexivity | discriminate]. Qed.

Lemma ruleType_valid t :
  In t rule_types -> required "ruleType" (Some t) (joi_valid "ruleType" rule_types) = None.
Proof.
  unfold rule_types. simpl.
  intros [<- | [<- | [<- | [<- | [<- | []]]]]]; reflexivity.
Qed.

Lemma ruleSchema_errors_whatever_the_type b t1 t2 :
  In t1 rule_types -> In t2 rule_types ->
  ruleSchema_errors (with_ruleType b t1) = ruleSchema_errors (with_ruleType b t2).
Proof.
  intros H1 H2. unfold ruleSchema_errors, with_ruleType.
  cbn [b_name b_description b_ruleType b_conditions b_severity].
  rewrite (ruleType_valid t1 H1), (ruleType_valid t2 H2). reflexivity.
Qed.

Lemma ruleSchema_validate_inr b v :
  ruleSchema_validate b = inr v ->
  b_name b = Some (v_name v) /\ b_ruleType b = Some (v_ruleType v)
  /\ b_conditions b = Some (v_conditions v)
  /\ conditions_schema (v_conditions v) = None
  /\ includes rule_types (v_ruleType v) = true
  /\ includes severities (v_severity v) = true.
Proof.
  unfold ruleSchema_validate.
  destruct (ruleSchema_errors b) eqn:Herr; [discriminate |].
  destruct (b_name b) as [n|] eqn:Hn; [| discriminate].
  destruct (b_ruleType b) as [t|] eqn:Ht; [| discriminate].
  destruct (b_conditions b) as [c|] eqn:Hc; [| discriminate].
  intros H. inversion H; subst v; clear H. cbn.
  unfold ruleSchema_errors in Herr. rewrite Hn, Ht, Hc in Herr.
  apply first_error_none in Herr.
  inversion Herr as [|? ? _ H1]; subst. inversion H1 as [|? ? _ H2]; subst.
  inversion H2 as [|? ? Hty H3]; subst. inversion H3 as [|? ? Hcond H4]; subst.
  inversion H4 as [|? ? Hsev _]; subst.
  repeat split; try reflexivity.
  - exact Hcond.
  - apply (check_none _ _ _ Hty).
  - destruct (b_severity b) as [s|]; [apply (check_none _ _ _ Hsev) | reflexivity].
Qed.

Lemma create_rule_rejects w e usr b err :
  includes ["supervisor"; "admin"] (u_role usr) = true ->
  ruleSchema_validate b = inl err ->
  run (create_rule e (Some usr) b) w =
    (w, Some {| status := 400; body := JInvalid "Invalid rule data" err |}).
Proof.
  intros Hrole Herr. unfold create_rule, authorize. unfold_monad.
  rewrite Hrole, Herr. reflexivity.
Qed.

Lemma create_rule_accepts w e usr b v :
  includes ["supervisor"; "admin"] (u_role usr) = true ->
  ruleSchema_validate b = inr v ->
  filter (fun r => String.eqb (r_name r) (v_name v)) (detection_rules (db w)) = [] ->
  existsb (fun r => r_id r =? detection_rules_id_seq (db w)) (detection_rules (db w)) = false ->
  user_exists (db w) (u_id usr) = true ->
  run (create_rule e (Some usr) b) w =
    (logged {| db := with_rules (db w)
                       (detection_rules (db w) ++ [new_rule e (db w) v usr])%list
                       (detection_rules_id_seq (db w) + 1);
               audit_log := audit_log w; emitted := emitted w |}
            "RULE_CREATED" (u_id usr) "rule" (detection_rules_id_seq (db w)),
     Some {| status := 201;
             body := JRule "Detection rule created successfully"
                           (new_rule e (db w) v usr) |}).
Proof.
  intros Hrole Hv Hname Hid Huser.
  destruct (ruleSchema_validate_inr _ _ Hv) as [_ [_ [_ [_ [Hty Hsev]]]]].
  unfold create_rule, authorize, select_rules_by_name, insert_detection_rule.
  unfold_monad. rewrite Hrole, Hv. reduce. rewrite Hname. reduce.
  cbn [List.length Nat.ltb Nat.leb]. reduce.
  rewrite Hty, Hsev, Hid, Huser. reflexivity.
Qed.

(** C5, as the code has it.  Rule creation checks the condition set against
    one schema, the same for the five rule types, whose keys are all
    optional: the verdict does not depend on the declared type; a request
    the schema refuses is answered 400 and stores nothing; a request it
    accepts, under a new name, is stored with its conditions as given,
    whatever its type. *)
Theorem rule_conditions_checked_whatever_the_type (w : world) (e : env)
    (usr : user) (b : rule_body) :
  includes ["supervisor"; "admin"] (u_role usr) = true ->
  (forall t1 t2, In t1 rule_types -> In t2 rule_types ->
     ruleSchema_errors (with_ruleType b t1) = ruleSchema_errors (with_ruleType b t2))
  /\ (forall err, ruleSchema_validate b = inl err ->
        run (create_rule e (Some usr) b) w =
          (w, Some {| status := 400; body := JInvalid "Invalid rule data" err |}))
  /\ (forall v, ruleSchema_validate b = inr v ->
        filter (fun r => String.eqb (r_name r) (v_name v)) (detection_rules (db w)) = [] ->
        existsb (fun r => r_id r =? detection_rules_id_seq (db w))
                (detection_rules (db w)) = false ->
        user_exists (db w) (u_id usr) = true ->
        exists w' r,
          run (create_rule e (Some usr) b) w =
            (w', Some {| status := 201;
                         body := JRule "Detection rule created successfully" r |})
          /\ In r (detection_rules (db w'))
          /\ rule_type r = v_ruleType v /\ conditions r = v_conditions v
          /\ is_active r = v_isActive v).
Proof.
  intros Hrole. split; [| split].
  - intros t1 t2. apply ruleSchema_errors_whatever_the_type.
  - intros err. apply create_rule_rejects. exact Hrole.
  - intros v Hv Hname Hid Huser.
    rewrite (create_rule_accepts _ e _ _ _ Hrole Hv Hname Hid Huser).
    eexists; eexists. split; [reflexivity |].
    split; [| repeat split].
    cbn [db logged detection_rules with_rules].
    apply in_or_app. right. left. reflexivity.
Qed.

Lemma rule_conditions_checked_whatever_the_type_witness :
  exists w' r,
    run (create_rule at_noon (Some sam) location_without_countries) sample_world =
      (w', Some {| status := 201;
                   body := JRule "Detection rule created successfully" r |})
    /\ In r (detection_rules (db w'))
    /\ rule_type r = "location" /\ conditions r = no_conditions
    /\ is_active r = true.
Proof.
  apply (proj2 (proj2 (rule_conditions_checked_whatever_the_type
                         sample_world at_noon sam location_without_countries
                         eq_refl))
           {| v_name := "High Risk Country Transfer"; v_description := None;
              v_ruleType := "location"; v_conditions := no_conditions;
              v_severity := "high"; v_isActive := true |}).
  - reflexivity.
  - reflexivity.
  - reflexivity.
  - reflexivity.
Defined.

(** C5 as stated fails: a Location rule without blocked countries does not
    fit the Location schema of the specification, yet it is created, stored
    and active. *)
Lemma location_rule_without_countries_accepted :
  spec_conditions_fit "location" no_conditions = false
  /\ exists w' r,
       run (create_rule at_noon (Some sam) location_without_countries) sample_world =
         (w', Some {| status := 201;
                      body := JRule "Detection rule created successfully" r |})
       /\ In r (detection_rules (db w'))
       /\ rule_type r = "location" /\ blockedCountries (conditions r) = None
       /\ is_active r = true.
Proof.
  split; [reflexivity |].
  eexists; eexists. split; [vm_compute; reflexivity |].
  split; [| repeat split].
  simpl. auto 10.
Qed.

(** ** Creating and updating alerts *)

Ltac bail Hrun :=
  solve [inversion Hrun; subst; discriminate].

Lemma create_alert_success w e u b w' r :
  run (create_alert e u b) w = (w', Some r) -> status r = 201 ->
  exists a tid,
    ab_transactionId b = Some tid
    /\ body r = JAlert "Alert created successfully" a
    /\ alerts (db w') = (alerts (db w) ++ [a])%list
    /\ a_status a = "new"
    /\ a_rule_id a = ab_ruleId b
    /\ a_transaction_id a = Some tid.
Proof.
  unfold create_alert, authorize, select_transaction, select_account, insert_alert.
  unfold_monad. intros Hrun Hst.
  destruct u as [usr|]; [| bail Hrun].
  destruct (includes all_roles (u_role usr)); [| bail Hrun].
  destruct (createAlertSchema_errors b); [bail Hrun |].
  destruct (ab_transactionId b) as [tid|]; [| bail Hrun].
  destruct (ab_alertType b) as [ty|]; [| bail Hrun].
  destruct (ab_severity b) as [sev|]; [| bail Hrun].
  destruct (ab_description b) as [descr|]; [| bail Hrun].
  reduce in Hrun.
  destruct (filter (fun t => t_id t =? tid) (transactions (db w))) as [|txn rest];
    [bail Hrun |].
  reduce in Hrun.
  destruct (negb (includes alert_types ty && includes severities sev));
    [bail Hrun |].
  destruct (existsb _ (alerts (db w))); [bail Hrun |].
  destruct (negb _); [bail Hrun |].
  reduce in Hrun. destruct (socketio e); inversion Hrun; subst; clear Hrun;
    (eexists; exists tid; repeat split; reflexivity).
Qed.

Lemma alerts_of_pair_app d d' a ruleId tid :
  alerts d' = (alerts d ++ [a])%list ->
  a_rule_id a = ruleId -> a_transaction_id a = Some tid ->
  alerts_of_pair d' ruleId tid = (alerts_of_pair d ruleId tid ++ [a])%list.
Proof.
  intros Hal Hr Ht. unfold alerts_of_pair. rewrite Hal, filter_app. simpl.
  rewrite Hr, Ht. simpl. rewrite Z.eqb_refl, andb_true_r.
  replace (same_group ruleId ruleId) with true; [reflexivity |].
  symmetry. apply same_group_eq. reflexivity.
Qed.

(** C1, as the code has it.  Creating an alert looks for no earlier alert:
    every call answered 201 appends one new alert, in status 'new', for the
    (rule, transaction) pair of the request and returns that new alert, so
    the alerts of the pair become one more than before. *)
Theorem create_alert_always_adds (w : world) (e : env) (u : option user)
    (b : alert_body) (w' : world) (r : response) :
  run (create_alert e u b) w = (w', Some r) -> status r = 201 ->
  exists a tid,
    ab_transactionId b = Some tid
    /\ body r = JAlert "Alert created successfully" a
    /\ a_status a = "new"
    /\ alerts (db w') = (alerts (db w) ++ [a])%list
    /\ alerts_of_pair (db w') (ab_ruleId b) tid
       = (alerts_of_pair (db w) (ab_ruleId b) tid ++ [a])%list.
Proof.
  intros Hrun Hst.
  destruct (create_alert_success _ _ _ _ _ _ Hrun Hst)
    as [a [tid [Htid [Hbody [Hal [Hnew [Hrule Htxn]]]]]]].
  exists a, tid. repeat split; try assumption.
  apply alerts_of_pair_app; assumption.
Qed.

Lemma create_alert_always_adds_witness :
  exists a,
    alerts (db after_second_alert) = (alerts (db after_first_alert) ++ [a])%list
    /\ a_status a = "new" /\ a_rule_id a = Some 1 /\ a_transaction_id a = Some 3.
Proof.
  edestruct (create_alert_always_adds after_first_alert a_bit_later (Some root)
               amount_alert) as [a [tid [_ [_ [Hnew [Hal _]]]]]].
  - vm_compute. reflexivity.
  - reflexivity.
  - exists a. split; [exact Hal |]. split; [exact Hnew |].
    vm_compute in Hal. inversion Hal. split; reflexivity.
Defined.

(** C1 as stated fails: the same request sent twice for rule 1 and
    transaction 3 is answered 201 both times and leaves two alerts for the
    pair, both in status 'new'. *)
Lemma create_alert_twice_makes_two_alerts :
  alerts_of_pair sample_db (Some 1) 3 = []
  /\ option_map status
       (snd (run (create_alert at_noon (Some root) amount_alert) sample_world))
     = Some 201
  /\ option_map status
       (snd (run (create_alert a_bit_later (Some root) amount_alert) after_first_alert))
     = Some 201
  /\ map (fun a => (a_id a, a_status a))
         (alerts_of_pair (db after_second_alert) (Some 1) 3)
     = [(3, "new"); (4, "new")].
Proof. repeat split; vm_compute; reflexivity. Qed.

Lemma find_map_same_id (f : alert -> alert) k l :
  (forall a, a_id (f a) = a_id a) ->
  find (fun a => a_id a =? k) (map (fun a => if a_id a =? k then f a else a) l)
  = option_map f (find (fun a => a_id a =? k) l).
Proof.
  intros Hid. induction l as [|x l IH]; simpl; [reflexivity |].
  destruct (a_id x =? k) eqn:Hx.
  - rewrite Hid, Hx. reflexivity.
  - rewrite Hx. exact IH.
Qed.

Lemma find_alert_id k l a : find (fun a => a_id a =? k) l = Some a -> a_id a = k.
Proof.
  intros H. apply find_some in H. destruct H as [_ H]. apply Z.eqb_eq. exact H.
Qed.

Lemma update_alert_success w e u id b w' r :
  run (update_alert e u id b) w = (w', Some r) -> status r = 200 ->
  exists alertId a,
    id = Some alertId
    /\ find (fun x => a_id x =? alertId) (alerts (db w)) = Some a
    /\ alerts (db w') =
       map (fun x => if a_id x =? alertId then apply_update e b x else x)
           (alerts (db w))
    /\ body r = JAlert "Alert updated successfully" (apply_update e b a).
Proof.
  unfold update_alert, authorize, select_alert, update_alert_row.
  unfold_monad. intros Hrun Hst.
  destruct u as [usr|]; [| bail Hrun].
  destruct (includes all_roles (u_role usr)); [| bail Hrun].
  destruct id as [alertId|]; [| bail Hrun].
  destruct (updateAlertSchema_errors b); [bail Hrun |].
  reduce in Hrun.
  destruct (find (fun a => a_id a =? alertId) (alerts (db w))) as [a|] eqn:Hfind;
    [| bail Hrun].
  pose proof (find_alert_id _ _ _ Hfind) as Hid.
  destruct (String.eqb (u_role usr) "analyst" && _); [bail Hrun |].
  reduce in Hrun.
  destruct (match au_status b with Some _ => _ | None => _ end); [bail Hrun |].
  reduce in Hrun.
  destruct (match au_notes b with Some _ => _ | None => _ end); [bail Hrun |].
  destruct (negb (includes alert_statuses _)); [bail Hrun |].
  destruct (negb (fk_ok _ _)); [bail Hrun |].
  reduce in Hrun. rewrite Hid in Hrun.
  destruct (socketio e); inversion Hrun; subst; clear Hrun;
    (exists (a_id a), a; repeat split; try reflexivity; assumption).
Qed.

(** C2, as the code has it.  No status is terminal for an update: an update
    answered 200 leaves the alert with the status the request carries,
    whatever status it had before ('closed' included), and with its former
    status when the request carries none. *)
Theorem update_alert_sets_any_status (w : world) (e : env) (u : option user)
    (id : option Z) (b : alert_update) (w' : world) (r : response) :
  run (update_alert e u id b) w = (w', Some r) -> status r = 200 ->
  exists alertId before,
    id = Some alertId
    /\ alert_status (db w) alertId = Some before
    /\ alert_status (db w') alertId
       = Some (match au_status b with Some s => s | None => before end).
Proof.
  intros Hrun Hst.
  destruct (update_alert_success _ _ _ _ _ _ _ Hrun Hst)
    as [alertId [a [Hid [Hfind [Hal _]]]]].
  exists alertId, (a_status a). split; [exact Hid |].
  unfold alert_status. rewrite Hal, find_map_same_id by reflexivity.
  rewrite Hfind. split; reflexivity.
Qed.

Lemma update_alert_sets_any_status_witness :
  exists alertId before,
    Some 1 = Some alertId
    /\ alert_status sample_db alertId = Some before
    /\ alert_status (db after_reopen) alertId = Some "new".
Proof.
  edestruct (update_alert_sets_any_status sample_world at_noon (Some root) (Some 1)
               reopen) as [alertId [before [Hid [Hbefore Hafter]]]].
  - vm_compute. reflexivity.
  - reflexivity.
  - exists alertId, before. split; [exact Hid |]. split; [exact Hbefore | exact Hafter].
Defined.

(** C2 as stated fails: alert 1 is closed, and an update that asks for
    status 'new' is answered 200 and leaves it in status 'new'. *)
Lemma closed_alert_reopened :
  alert_status sample_db 1 = Some "closed"
  /\ option_map status
       (snd (run (update_alert at_noon (Some root) (Some 1) reopen) sample_world))
     = Some 200
  /\ alert_status (db after_reopen) 1 = Some "new".
Proof. repeat split; vm_compute; reflexivity. Qed.

(** ** Linking alerts to cases *)

Lemma find_none_resolves d i :
  find (fun a => a_id a =? i) (alerts d) = None -> resolves d i = false.
Proof.
  unfold resolves. intros H.
  destruct (existsb (fun a => a_id a =? i) (alerts d)) eqn:Hex; [| reflexivity].
  apply existsb_exists in Hex. destruct Hex as [a [Hin Ha]].
  pose proof (find_none _ _ H a Hin) as Hno. cbv beta in Hno. congruence.
Qed.

Lemma resolves_find d i :
  resolves d i = true -> exists a, find (fun a => a_id a =? i) (alerts d) = Some a.
Proof.
  intros H. destruct (find (fun a => a_id a =? i) (alerts d)) as [a|] eqn:Hfind.
  - eauto.
  - apply find_none_resolves in Hfind. congruence.
Qed.

Lemma existsb_map_same_id (f : alert -> alert) i l :
  (forall a, a_id (f a) = a_id a) ->
  existsb (fun a => a_id a =? i) (map f l) = existsb (fun a => a_id a =? i) l.
Proof.
  intros Hid. induction l as [|x l IH]; simpl; [reflexivity |].
  rewrite Hid, IH. reflexivity.
Qed.

Section LinkingLoop.

Variable e : env.
Variable cid : Z.

Lemma insert_case_alert_out aid w :
  (exists w1 err, insert_case_alert e cid aid w = (w1, Throw err))
  \/ (resolves (db w) aid = true
      /\ exists w1, insert_case_alert e cid aid w = (w1, Value tt)
                    /\ alerts (db w1) = alerts (db w)
                    /\ cases (db w1) = cases (db w)).
Proof.
  unfold insert_case_alert, resolves. unfold_monad. reduce.
  destruct (existsb _ (case_alerts (db w))); [left; eauto |].
  destruct (existsb (fun c => c_id c =? cid) (cases (db w))); simpl;
    [| left; eauto].
  destruct (existsb (fun a => a_id a =? aid) (alerts (db w))); simpl;
    [| left; eauto].
  right. split; [reflexivity |]. eexists. split; [reflexivity |]. split; reflexivity.
Qed.

Lemma update_alert_status_investigating aid w :
  update_alert_status e "investigating" aid w =
    ({| db := with_alerts (db w)
                (map (fun a => if a_id a =? aid
                               then set_status e "investigating" a else a)
                     (alerts (db w)))
                (alerts_id_seq (db w));
        audit_log := audit_log w; emitted := emitted w |}, Value tt).
Proof. reflexivity. Qed.

Lemma link_alerts_unresolved ids :
  forall w i, In i ids -> resolves (db w) i = false ->
              exists w1 err, link_alerts e cid ids w = (w1, Throw err).
Proof.
  induction ids as [|aid rest IH]; intros w i Hin Hno; [contradiction |].
  cbn [link_alerts]. unfold bind at 1.
  destruct (insert_case_alert_out aid w)
    as [[w1 [err Hthrow]] | [Hres [w1 [Hval [Hal _]]]]].
  - rewrite Hthrow. eauto.
  - rewrite Hval. unfold bind at 1. rewrite update_alert_status_investigating.
    destruct Hin as [-> | Hin]; [congruence |].
    apply (IH _ i Hin). unfold resolves in *. cbn [db alerts with_alerts].
    rewrite existsb_map_same_id.
    + rewrite Hal. exact Hno.
    + intros a. destruct (a_id a =? aid); reflexivity.
Qed.

Lemma investigate_step aid rest a :
  investigate e rest (if a_id a =? aid then set_status e "investigating" a else a)
  = investigate e (aid :: rest) a.
Proof.
  unfold investigate. cbn [existsb].
  destruct (a_id a =? aid) eqn:Hhead; cbn [orb].
  - cbn [set_status apply_update a_id].
    destruct (existsb (Z.eqb (a_id a)) rest); reflexivity.
  - reflexivity.
Qed.

Lemma link_alerts_value ids :
  forall w w1, link_alerts e cid ids w = (w1, Value tt) ->
    alerts (db w1) = map (investigate e ids) (alerts (db w))
    /\ cases (db w1) = cases (db w)
    /\ forall i, In i ids -> resolves (db w) i = true.
Proof.
  induction ids as [|aid rest IH]; intros w w1 Hrun.
  - cbn in Hrun. inversion Hrun; subst. split; [| split; [reflexivity | contradiction]].
    unfold investigate. cbn [existsb]. symmetry. apply map_id.
  - cbn [link_alerts] in Hrun. unfold bind at 1 in Hrun.
    destruct (insert_case_alert_out aid w)
      as [[w2 [err Hthrow]] | [Hres [w2 [Hval [Hal Hcases]]]]].
    + rewrite Hthrow in Hrun. discriminate.
    + rewrite Hval in Hrun. unfold bind at 1 in Hrun.
      rewrite update_alert_status_investigating in Hrun.
      apply IH in Hrun. cbn [db alerts cases with_alerts] in Hrun.
      destruct Hrun as [Hal1 [Hcases1 Hrest]].
      split; [| split].
      * rewrite Hal1, Hal, map_map. apply map_ext. intros a. apply investigate_step.
      * congruence.
      * intros i [<- | Hin]; [exact Hres |].
        specialize (Hrest i Hin). unfold resolves in *.
        cbn [db alerts with_alerts] in Hrest.
        rewrite existsb_map_same_id in Hrest; [rewrite <- Hal; exact Hrest |].
        intros a. destruct (a_id a =? aid); reflexivity.
Qed.

Lemma link_alerts_no_reply ids :
  forall w w1 r, link_alerts e cid ids w <> (w1, Reply r).
Proof.
  induction ids as [|aid rest IH]; intros w w1 r Hrun.
  - cbn in Hrun. discriminate.
  - cbn [link_alerts] in Hrun. unfold bind at 1 in Hrun.
    destruct (insert_case_alert_out aid w)
      as [[w2 [err Hthrow]] | [_ [w2 [Hval _]]]].
    + rewrite Hthrow in Hrun. discriminate.
    + rewrite Hval in Hrun. unfold bind at 1 in Hrun.
      rewrite update_alert_status_investigating in Hrun.
      exact (IH _ _ _ Hrun).
Qed.

Lemma investigate_status ids d i :
  In i ids -> resolves d i = true ->
  option_map a_status
    (find (fun a => a_id a =? i) (map (investigate e ids) (alerts d)))
  = Some "investigating".
Proof.
  intros Hin Hres. unfold resolves in Hres.
  induction (alerts d) as [|x l IH]; simpl in *; [discriminate |].
  assert (Hid : a_id (investigate e ids x) = a_id x).
  { unfold investigate. destruct (existsb (Z.eqb (a_id x)) ids); reflexivity. }
  rewrite Hid. destruct (a_id x =? i) eqn:Hx; simpl in *.
  - apply Z.eqb_eq in Hx. unfold investigate.
    replace (existsb (Z.eqb (a_id x)) ids) with true; [reflexivity |].
    symmetry. apply existsb_exists. exists i. split; [exact Hin |].
    apply Z.eqb_eq. exact Hx.
  - apply IH. exact Hres.
Qed.

End LinkingLoop.

Lemma errorHandler_status err : status (errorHandler err) <> 200 /\ status (errorHandler err) <> 201.
Proof. destruct err; cbn; split; discriminate. Qed.

Lemma link_alert_success w e u id alertId w' r :
  run (link_alert e u id alertId) w = (w', Some r) -> status r = 200 ->
  exists cid aid,
    id = Some cid /\ alertId = Some aid
    /\ resolves (db w) aid = true
    /\ alerts (db w') =
       map (fun a => if a_id a =? aid then set_status e "investigating" a else a)
           (alerts (db w)).
Proof.
  unfold link_alert, authorize, select_case, select_alert.
  unfold_monad. intros Hrun Hst.
  destruct u as [usr|]; [| bail Hrun].
  destruct (includes all_roles (u_role usr)); [| bail Hrun].
  destruct id as [cid|]; [| bail Hrun].
  destruct alertId as [aid|]; [| bail Hrun].
  destruct (negb (truthyZ aid)); [bail Hrun |].
  reduce in Hrun.
  destruct (find (fun c => c_id c =? cid) (cases (db w))) as [caseData|]; [| bail Hrun].
  destruct (String.eqb (u_role usr) "analyst" && _ && _); [bail Hrun |].
  reduce in Hrun.
  destruct (find (fun a => a_id a =? aid) (alerts (db w))) as [a|]; [| bail Hrun].
  destruct (insert_case_alert_out e cid aid w)
    as [[w1 [err Hthrow]] | [Hres [w1 [Hval [Hal _]]]]].
  - rewrite Hthrow in Hrun. destruct err; inversion Hrun; subst; discriminate.
  - rewrite Hval in Hrun. rewrite update_alert_status_investigating in Hrun.
    reduce in Hrun. inversion Hrun; subst; clear Hrun.
    exists cid, aid. repeat split; try assumption.
    cbn [db alerts with_alerts]. rewrite Hal. reflexivity.
Qed.

Lemma insert_case_out e caseNumber title description caseType priority
      assignedTo createdBy estimatedLoss w :
  (exists w1 err,
      insert_case e caseNumber title description caseType priority
                  assignedTo createdBy estimatedLoss w = (w1, Throw err))
  \/ (exists w1 row,
        insert_case e caseNumber title description caseType priority
                    assignedTo createdBy estimatedLoss w = (w1, Value row)
        /\ alerts (db w1) = alerts (db w)
        /\ cases (db w1) = (cases (db w) ++ [row])%list).
Proof.
  unfold insert_case. unfold_monad. reduce.
  destruct (negb (includes case_types caseType && includes case_priorities priority));
    [left; eauto |].
  destruct (existsb _ (cases (db w))); [left; eauto |].
  destruct (negb _); [left; eauto |].
  right. eexists; eexists. split; [reflexivity |]. split; reflexivity.
Qed.

Lemma same_tables_refl d : same_tables d d.
Proof. repeat split. Qed.

Lemma same_tables_rollback snapshot current : same_tables snapshot (rollback_to snapshot current).
Proof. repeat split. Qed.

Lemma create_case_cases w e u b :
  exists w' r,
    run (create_case e u b) w = (w', Some r)
    /\ ((status r <> 201 /\ same_tables (db w) (db w'))
        \/ (exists newCase,
              r = {| status := 201; body := JCase "Case created successfully" newCase |}
              /\ alerts (db w') = map (investigate e (alert_ids_of b)) (alerts (db w))
              /\ cases (db w') = (cases (db w) ++ [newCase])%list
              /\ forall i, In i (alert_ids_of b) -> resolves (db w) i = true)).
Proof.
  unfold create_case, authorize, alert_ids_of.
  unfold run, try_catch, respond, bind at 1.
  destruct u as [usr|];
    [| eexists; eexists; split; [reflexivity | left; split; [discriminate | apply same_tables_refl]]].
  unfold ret at 1.
  destruct (includes all_roles (u_role usr));
    [| eexists; eexists; split; [reflexivity | left; split; [discriminate | apply same_tables_refl]]].
  destruct (createCaseSchema_errors b);
    [eexists; eexists; split; [reflexivity | left; split; [discriminate | apply same_tables_refl]] |].
  destruct (cb_title b) as [title|];
    [| eexists; eexists; split; [reflexivity | left; split; [discriminate | apply same_tables_refl]]].
  destruct (cb_description b) as [descr|];
    [| eexists; eexists; split; [reflexivity | left; split; [discriminate | apply same_tables_refl]]].
  destruct (cb_caseType b) as [ctype|];
    [| eexists; eexists; split; [reflexivity | left; split; [discriminate | apply same_tables_refl]]].
  unfold bind at 1. unfold get_db at 1. unfold bind at 1.
  match goal with
  | |- context [insert_case ?a ?b ?c ?d ?f ?g ?h ?i ?j w] =>
      destruct (insert_case_out a b c d f g h i j w)
        as [[w1 [err Hthrow]] | [w1 [row [Hval [Hal Hcases]]]]]
  end.
  - rewrite Hthrow. unfold_monad. reduce. eexists; eexists.
    split; [reflexivity |]. left. split; [apply errorHandler_status |].
    apply same_tables_rollback.
  - rewrite Hval. unfold bind at 1.
    destruct (link_alerts e (c_id row) match cb_alertIds b with Some l => l | None => [] end w1)
      as [w2 [[]|r|err]] eqn:Hlink.
    + apply link_alerts_value in Hlink. destruct Hlink as [Hal2 [Hcases2 Hres]].
      unfold_monad. reduce.
      destruct (socketio e); reduce; eexists; eexists;
        (split; [reflexivity |]; right; exists row;
         split; [reflexivity |]; split; [reduce; congruence |];
         split; [reduce; congruence |];
         intros i Hi; specialize (Hres i Hi); unfold resolves in *; congruence).
    + exfalso. exact (link_alerts_no_reply _ _ _ _ _ _ Hlink).
    + unfold_monad. reduce. eexists; eexists.
      split; [reflexivity |]. left. split; [apply errorHandler_status |].
      apply same_tables_rollback.
Qed.

(** C3, as the code has it.  Linking sets the alert's status to
    'investigating' whatever it was: after POST /api/cases/:id/alerts is
    answered 200 the linked alert is in status 'investigating', and after
    POST /api/cases is answered 201 so is every alert of [alertIds]; the
    former status ('new', 'escalated', 'closed', ..) is not looked at. *)
Theorem link_sets_investigating_whatever_the_status (w : world) (e : env)
    (u : option user) :
  (forall id alertId w' r,
      run (link_alert e u id alertId) w = (w', Some r) -> status r = 200 ->
      exists aid before,
        alertId = Some aid
        /\ alert_status (db w) aid = Some before
        /\ alert_status (db w') aid = Some "investigating")
  /\ (forall b w' r,
        run (create_case e u b) w = (w', Some r) -> status r = 201 ->
        forall i, In i (alert_ids_of b) ->
          exists before,
            alert_status (db w) i = Some before
            /\ alert_status (db w') i = Some "investigating").
Proof.
  split.
  - intros id alertId w' r Hrun Hst.
    destruct (link_alert_success _ _ _ _ _ _ _ Hrun Hst)
      as [cid [aid [_ [Haid [Hres Hal]]]]].
    destruct (resolves_find _ _ Hres) as [a Hfind].
    exists aid, (a_status a). split; [exact Haid |].
    unfold alert_status. rewrite Hal, find_map_same_id by reflexivity.
    rewrite Hfind. split; reflexivity.
  - intros b w' r Hrun Hst i Hi.
    destruct (create_case_cases w e u b) as [w2 [r2 [Hrun2 Hcases]]].
    rewrite Hrun in Hrun2. inversion Hrun2; subst w2 r2; clear Hrun2.
    destruct Hcases as [[Hno _] | [newCase [_ [Hal [_ Hres]]]]]; [contradiction |].
    specialize (Hres i Hi).
    destruct (resolves_find _ _ Hres) as [a Hfind].
    exists (a_status a). unfold alert_status. rewrite Hfind. split; [reflexivity |].
    rewrite Hal. apply investigate_status; assumption.
Qed.

Lemma link_sets_investigating_whatever_the_status_witness :
  exists aid before,
    Some 1 = Some aid
    /\ alert_status sample_db aid = Some before
    /\ alert_status (db after_link) aid = Some "investigating".
Proof.
  edestruct (proj1 (link_sets_investigating_whatever_the_status
                      sample_world at_noon (Some root))
                   (Some 1) (Some 1)) as [aid [before [Haid [Hbefore Hafter]]]].
  - vm_compute. reflexivity.
  - reflexivity.
  - exists aid, before. split; [exact Haid |]. split; [exact Hbefore | exact Hafter].
Defined.

(** C3 as stated fails: alert 1 is closed; linking it to case 1, or naming it
    in a new case, is accepted and leaves it in status 'investigating'. *)
Lemma closed_alert_relinked :
  alert_status sample_db 1 = Some "closed"
  /\ option_map status
       (snd (run (link_alert at_noon (Some root) (Some 1) (Some 1)) sample_world))
     = Some 200
  /\ alert_status (db after_link) 1 = Some "investigating"
  /\ option_map status
       (snd (run (create_case at_noon (Some root) (case_on [1])) sample_world))
     = Some 201
  /\ alert_status
       (db (fst (run (create_case at_noon (Some root) (case_on [1])) sample_world))) 1
     = Some "investigating".
Proof. repeat split; vm_compute; reflexivity. Qed.

(** C4, as the code has it.  Case creation is all or nothing: when some id of
    [alertIds] names no alert, the request fails and the transaction is
    rolled back, so that no case is stored, no alert is linked and no alert
    changes. *)
Theorem create_case_all_or_nothing (w : world) (e : env) (u : option user)
    (b : case_body) (i : Z) :
  In i (alert_ids_of b) ->
  find (fun a => a_id a =? i) (alerts (db w)) = None ->
  exists w' r,
    run (create_case e u b) w = (w', Some r)
    /\ status r <> 201
    /\ same_tables (db w) (db w').
Proof.
  intros Hi Hnone.
  destruct (create_case_cases w e u b) as [w' [r [Hrun Hcases]]].
  exists w', r. split; [exact Hrun |].
  destruct Hcases as [[Hst Hsame] | [newCase [_ [_ [_ Hres]]]]].
  - split; assumption.
  - specialize (Hres i Hi). apply find_none_resolves in Hnone. congruence.
Qed.

Lemma create_case_all_or_nothing_witness :
  exists w' r,
    run (create_case at_noon (Some ana) (case_on [2; 99])) sample_world = (w', Some r)
    /\ status r <> 201
    /\ same_tables sample_db (db w').
Proof.
  apply (create_case_all_or_nothing sample_world at_noon (Some ana) (case_on [2; 99]) 99).
  - simpl. auto.
  - reflexivity.
Defined.

(** C4 as stated fails: a case over alerts 2 and 99, of which 99 does not
    exist, is refused as a whole: no case is stored, alert 2 is not linked
    and keeps its status. *)
Lemma create_case_with_unknown_alert_stores_nothing :
  alert_status sample_db 2 = Some "new" /\ alert_status sample_db 99 = None
  /\ snd (run (create_case at_noon (Some ana) (case_on [2; 99])) sample_world)
     = Some {| status := 400;
               body := JUnhandled "Referenced resource does not exist" 400 |}
  /\ cases (db after_failed_case) = cases sample_db
  /\ case_alerts (db after_failed_case) = []
  /\ alert_status (db after_failed_case) 2 = Some "new".
Proof. repeat split; vm_compute; reflexivity. Qed.

(** * Further properties *)

(** ** The rule tester, other branches and edges *)

Lemma includes_In l x : includes l x = true <-> In x l.
Proof.
  unfold includes. rewrite existsb_exists. split.
  - intros [y [Hin Heq]]. apply String.eqb_eq in Heq. subst y. exact Hin.
  - intros Hin. exists x. split; [exact Hin | apply String.eqb_refl].
Qed.

Lemma nonempty_spec o : nonempty o = true <-> exists l, o = Some l /\ l <> [].
Proof.
  unfold nonempty. destruct o as [[|x l]|]; simpl; split; intros H;
    try discriminate.
  - destruct H as [l [Hl Hne]]. inversion Hl; subst. contradiction Hne; reflexivity.
  - exists (x :: l). split; [reflexivity | discriminate].
  - reflexivity.
  - destruct H as [l [Hl _]]. discriminate.
Qed.

(** [amount % 1000 = 0] holds exactly of the whole multiples of 1000. *)
Lemma round_amount_spec t :
  holds t AmountMod1000 = true <-> exists k : Z, amount t == inject_Z (1000 * k).
Proof.
  unfold holds. destruct (amount t) as [n d]. cbn [Qnum Qden].
  rewrite Z.eqb_eq. rewrite Z.mod_divide by lia. unfold Z.divide, Qeq, inject_Z.
  cbn [Qnum Qden]. split.
  - intros [k Hk]. exists k. lia.
  - intros [k Hk]. exists k. lia.
Qed.

Lemma forallb_and_if f c x conds :
  forallb f (and_if c x conds) = forallb f conds && (negb c || f x).
Proof.
  unfold and_if. destruct c; simpl.
  - rewrite forallb_app. simpl. rewrite andb_true_r. reflexivity.
  - rewrite andb_true_r. reflexivity.
Qed.

(** X1. What the tester selects for a Pattern rule: the transactions of the
    tested period whose type is in [transactionTypes] when that list is set
    and not empty, whose channel is in [channels] when that list is set and
    not empty, and whose amount is a whole multiple of 1000 when
    [roundAmounts] is true. *)
Theorem pattern_rule_selects (r : rule) (s e : option Z) (d : database)
    (t : transaction) :
  rule_type r = "pattern" ->
  exists q,
    build_test_query r s e = Some q
    /\ reason_of q = "Pattern match detected"
    /\ (selects q d t <->
        In t (transactions d) /\ in_period s e t = true
        /\ (forall l, transactionTypes (conditions r) = Some l -> l <> [] ->
                      In (transaction_type t) l)
        /\ (forall l, channels (conditions r) = Some l -> l <> [] ->
                      In (channel t) l)
        /\ (roundAmounts (conditions r) = Some true ->
            exists k : Z, amount t == inject_Z (1000 * k))).
Proof.
  intros Hty. unfold build_test_query. rewrite Hty. cbn [String.eqb Ascii.eqb Bool.eqb].
  eexists. split; [reflexivity |]. split; [reflexivity |].
  rewrite selects_where, !forallb_and_if. cbn [forallb].
  rewrite !andb_true_iff, !orb_true_iff, !negb_true_iff.
  unfold in_period. rewrite andb_true_iff.
  split.
  - intros [Hin [[[[H1 [H2 _]] Hty'] Hch] Hround]].
    split; [exact Hin |]. split; [split; assumption |]. split; [| split].
    + intros l Hl Hne. destruct Hty' as [Hno | Hyes].
      * assert (Hn : nonempty (transactionTypes (conditions r)) = true)
          by (apply nonempty_spec; eauto). congruence.
      * rewrite Hl in Hyes. apply includes_In. exact Hyes.
    + intros l Hl Hne. destruct Hch as [Hno | Hyes].
      * assert (Hn : nonempty (channels (conditions r)) = true)
          by (apply nonempty_spec; eauto). congruence.
      * rewrite Hl in Hyes. apply includes_In. exact Hyes.
    + intros Hr. rewrite Hr in Hround. destruct Hround as [Hno | Hyes];
        [discriminate | apply round_amount_spec; exact Hyes].
  - intros [Hin [[H1 H2] [Hty' [Hch Hround]]]].
    split; [exact Hin |]. repeat split; try assumption.
    + destruct (nonempty (transactionTypes (conditions r))) eqn:Hn; [right | left; reflexivity].
      apply nonempty_spec in Hn. destruct Hn as [l [Hl Hne]].
      rewrite Hl. apply includes_In. apply Hty'; assumption.
    + destruct (nonempty (channels (conditions r))) eqn:Hn; [right | left; reflexivity].
      apply nonempty_spec in Hn. destruct Hn as [l [Hl Hne]].
      rewrite Hl. apply includes_In. apply Hch; assumption.
    + destruct (roundAmounts (conditions r)) as [[|]|] eqn:Hr;
        [right | left; reflexivity | left; reflexivity].
      apply round_amount_spec. apply Hround. reflexivity.
Qed.

Lemma pattern_rule_selects_witness :
  exists q,
    build_test_query rule4 (Some 0) whole_period = Some q
    /\ reason_of q = "Pattern match detected"
    /\ (selects q sample_db txn1 <->
        In txn1 (transactions sample_db) /\ in_period (Some 0) whole_period txn1 = true
        /\ (forall l, transactionTypes (conditions rule4) = Some l -> l <> [] ->
                      In (transaction_type txn1) l)
        /\ (forall l, channels (conditions rule4) = Some l -> l <> [] ->
                      In (channel txn1) l)
        /\ (roundAmounts (conditions rule4) = Some true ->
            exists k : Z, amount txn1 == inject_Z (1000 * k))).
Proof.
  apply (pattern_rule_selects rule4 (Some 0) whole_period sample_db txn1).
  reflexivity.
Defined.

(** X2. What the tester selects for a Location rule: the transactions of
    the tested period whose country is in [blockedCountries] when that list
    is set and not empty, and every transaction of the period when it is
    absent or empty; the rule's [minAmount] is not consulted. *)
Theorem location_rule_selects (r : rule) (s e : option Z) (d : database)
    (t : transaction) :
  rule_type r = "location" ->
  exists q,
    build_test_query r s e = Some q
    /\ reason_of q = "Suspicious location detected"
    /\ (selects q d t <->
        In t (transactions d) /\ in_period s e t = true
        /\ (forall l, blockedCountries (conditions r) = Some l -> l <> [] ->
                      exists c, location_country t = Some c /\ In c l)).
Proof.
  intros Hty. unfold build_test_query. rewrite Hty. cbn [String.eqb Ascii.eqb Bool.eqb].
  eexists. split; [reflexivity |]. split; [reflexivity |].
  rewrite selects_where, !forallb_and_if. cbn [forallb].
  rewrite !andb_true_iff, !orb_true_iff, !negb_true_iff.
  unfold in_period. rewrite andb_true_iff.
  split.
  - intros [Hin [[H1 [H2 _]] Hc]].
    split; [exact Hin |]. split; [split; assumption |].
    intros l Hl Hne. destruct Hc as [Hno | Hyes].
    + assert (Hn : nonempty (blockedCountries (conditions r)) = true)
        by (apply nonempty_spec; eauto). congruence.
    + rewrite Hl in Hyes. cbn [holds list_or_nil] in Hyes.
      destruct (location_country t) as [c|]; [| discriminate].
      exists c. split; [reflexivity | apply includes_In; exact Hyes].
  - intros [Hin [[H1 H2] Hc]].
    split; [exact Hin |]. repeat split; try assumption.
    destruct (nonempty (blockedCountries (conditions r))) eqn:Hn; [right | left; reflexivity].
    apply nonempty_spec in Hn. destruct Hn as [l [Hl Hne]].
    destruct (Hc l Hl Hne) as [c [Hcountry Hincl]].
    rewrite Hl. cbn [holds list_or_nil]. rewrite Hcountry. apply includes_In. exact Hincl.
Qed.

Lemma location_rule_selects_witness :
  exists q,
    build_test_query rule5 (Some 0) whole_period = Some q
    /\ reason_of q = "Suspicious location detected"
    /\ (selects q sample_db txn1 <->
        In txn1 (transactions sample_db) /\ in_period (Some 0) whole_period txn1 = true
        /\ (forall l, blockedCountries (conditions rule5) = Some l -> l <> [] ->
                      exists c, location_country txn1 = Some c /\ In c l)).
Proof.
  apply (location_rule_selects rule5 (Some 0) whole_period sample_db txn1).
  reflexivity.
Defined.

Lemma build_test_query_unsupported r s e :
  ~ In (rule_type r) supported_types -> build_test_query r s e = None.
Proof.
  intros Hno. unfold build_test_query, supported_types in *.
  destruct (String.eqb (rule_type r) "amount") eqn:H1;
    [apply String.eqb_eq in H1; contradiction Hno; rewrite H1; simpl; auto |].
  destruct (String.eqb (rule_type r) "frequency") eqn:H2;
    [apply String.eqb_eq in H2; contradiction Hno; rewrite H2; simpl; auto |].
  destruct (String.eqb (rule_type r) "pattern") eqn:H3;
    [apply String.eqb_eq in H3; contradiction Hno; rewrite H3; simpl; auto |].
  destruct (String.eqb (rule_type r) "location") eqn:H4;
    [apply String.eqb_eq in H4; contradiction Hno; rewrite H4; simpl; auto |].
  reflexivity.
Qed.

(** X3. A rule whose type has no branch in the tester (a Velocity rule) is
    not tested: the request is answered 400 'Rule type not supported for
    testing' and nothing is changed or logged. *)
Theorem test_rule_unsupported_type (w : world) (usr : user) (ruleId : Z)
    (rule : rule) (b : test_body) :
  includes ["supervisor"; "admin"] (u_role usr) = true ->
  find (fun r => r_id r =? ruleId) (detection_rules (db w)) = Some rule ->
  ~ In (rule_type rule) supported_types ->
  run (test_rule (Some usr) (Some ruleId) b) w =
    (w, Some {| status := 400;
                body := JError "Rule type not supported for testing" |}).
Proof.
  intros Hrole Hfind Hty.
  unfold test_rule, authorize, select_rule. unfold_monad.
  rewrite Hrole. reduce. rewrite Hfind.
  rewrite (build_test_query_unsupported _ _ _ Hty). reflexivity.
Qed.

Lemma test_rule_unsupported_type_witness :
  run (test_rule (Some sam) (Some 3) ten_matches) sample_world =
    (sample_world,
     Some {| status := 400; body := JError "Rule type not supported for testing" |}).
Proof.
  apply (test_rule_unsupported_type sample_world sam 3 rule3 ten_matches).
  - reflexivity.
  - reflexivity.
  - unfold supported_types. simpl. intros [H | [H | [H | [H | []]]]]; discriminate.
Defined.

(** X4. A negative limit makes the query fail: the tester answers 500 'Rule
    test failed' with the database's error, and nothing is changed or
    logged. *)
Theorem test_rule_negative_limit (w : world) (usr : user) (ruleId : Z)
    (rule : rule) (b : test_body) :
  includes ["supervisor"; "admin"] (u_role usr) = true ->
  find (fun r => r_id r =? ruleId) (detection_rules (db w)) = Some rule ->
  In (rule_type rule) supported_types ->
  limit_of b < 0 ->
  run (test_rule (Some usr) (Some ruleId) b) w =
    (w, Some {| status := 500;
                body := JFailed "Rule test failed" invalid_row_count |}).
Proof.
  intros Hrole Hfind Hty Hneg.
  destruct (build_test_query_supported rule (tb_startDate b) (tb_endDate b) Hty)
    as [q Hq].
  unfold test_rule, authorize, select_rule, run_test_query, limit_of in *.
  unfold_monad. rewrite Hrole. reduce. rewrite Hfind, Hq. reduce.
  apply Z.ltb_lt in Hneg. rewrite Hneg. reflexivity.
Qed.

Lemma test_rule_negative_limit_witness :
  run (test_rule (Some sam) (Some 1) negative_limit) sample_world =
    (sample_world,
     Some {| status := 500; body := JFailed "Rule test failed" invalid_row_count |}).
Proof.
  apply (test_rule_negative_limit sample_world sam 1 rule1 negative_limit).
  - reflexivity.
  - reflexivity.
  - unfold supported_types. simpl. auto.
  - reflexivity.
Defined.

(** X5. The tester skips a bound that is zero: an Amount rule whose
    [maxAmount] (or [minAmount]) is 0 is tested exactly like the same rule
    without that bound, so that [maxAmount = 0] bounds nothing. *)
Theorem amount_rule_zero_bound_ignored (r : rule) (s e : option Z) (m : Q) :
  rule_type r = "amount" -> m == 0 ->
  (maxAmount (conditions r) = Some m ->
   build_test_query r s e =
   build_test_query
     (with_conditions r (with_bounds (conditions r) (minAmount (conditions r)) None))
     s e)
  /\ (minAmount (conditions r) = Some m ->
      build_test_query r s e =
      build_test_query
        (with_conditions r (with_bounds (conditions r) None (maxAmount (conditions r))))
        s e).
Proof.
  intros Hty Hzero.
  assert (Hfalsy : truthyQ m = false).
  { unfold truthyQ. apply negb_false_iff. apply Qeq_bool_iff. exact Hzero. }
  unfold build_test_query, with_conditions, with_bounds.
  cbn [rule_type conditions minAmount maxAmount cond_currency].
  rewrite Hty. cbn [String.eqb Ascii.eqb Bool.eqb].
  split; intros Hm; rewrite Hm, Hfalsy; reflexivity.
Qed.

Lemma amount_rule_zero_bound_ignored_witness :
  build_test_query rule6 (Some 0) whole_period =
  build_test_query
    (with_conditions rule6 (with_bounds (conditions rule6) (minAmount (conditions rule6)) None))
    (Some 0) whole_period.
Proof.
  apply (proj1 (amount_rule_zero_bound_ignored rule6 (Some 0) whole_period 0%Q
                  eq_refl (Qeq_refl 0))).
  reflexivity.
Defined.

(** With [maxAmount = 0] and nothing else, every transaction of the period
    is selected, the 15000 NZD transfer included. *)
Example zero_max_selects_everything :
  forall q, build_test_query rule6 (Some 0) whole_period = Some q ->
            forall t, In t (transactions sample_db) -> selects q sample_db t.
Proof.
  intros q Hq. vm_compute in Hq. inversion Hq; subst q; clear Hq.
  intros t Ht. apply selects_where. split; [exact Ht |].
  simpl in Ht. destruct Ht as [<- | [<- | [<- | [<- | []]]]]; reflexivity.
Qed.

Lemma insert_desc_perm m l : Permutation (m :: l) (insert_desc m l).
Proof.
  induction l as [|x l IH]; simpl.
  - apply Permutation_refl.
  - destruct (processed_at (m_txn x) <=? processed_at (m_txn m)).
    + apply Permutation_refl.
    + eapply Permutation_trans; [apply perm_swap |].
      apply perm_skip. exact IH.
Qed.

Lemma order_by_perm l : Permutation l (order_by_processed_at_desc l).
Proof.
  induction l as [|m l IH]; simpl.
  - apply perm_nil.
  - eapply Permutation_trans; [apply perm_skip; exact IH | apply insert_desc_perm].
Qed.

Lemma sorted_app_order (l1 l2 : list match_row) :
  most_recent_first (l1 ++ l2)%list ->
  forall x y, In x l1 -> In y l2 ->
              processed_at (m_txn y) <= processed_at (m_txn x).
Proof.
  unfold most_recent_first.
  induction l1 as [|a l1 IH]; simpl; intros Hs x y Hx Hy; [contradiction |].
  inversion Hs as [|? ? Hs' Hall]; subst.
  destruct Hx as [<- | Hx].
  - rewrite Forall_forall in Hall. apply Hall. apply in_or_app. right. exact Hy.
  - apply (IH Hs' x y Hx Hy).
Qed.

(** X6. What the limit keeps.  A completed test returns
    min(limit, number of selected rows) matches; what it leaves out is never
    more recent than what it returns; and when the selected rows number at
    most [limit], the matches are all of them. *)
Theorem backtest_keeps_most_recent (w : world) (usr : user) (ruleId : Z)
    (rule : rule) (b : test_body) (q : test_query) :
  includes ["supervisor"; "admin"] (u_role usr) = true ->
  find (fun r => r_id r =? ruleId) (detection_rules (db w)) = Some rule ->
  build_test_query rule (tb_startDate b) (tb_endDate b) = Some q ->
  0 <= limit_of b ->
  exists w' matches,
    run (test_rule (Some usr) (Some ruleId) b) w =
      (w', Some {| status := 200;
                   body := JTest "Rule test completed" (r_id rule) (r_name rule)
                                 (rule_type rule) (tb_startDate b) (tb_endDate b)
                                 matches (Z.of_nat (List.length matches)) |})
    /\ Z.of_nat (List.length matches)
       = Z.min (limit_of b) (Z.of_nat (List.length (select_rows q (db w))))
    /\ (forall m m', In m matches -> In m' (select_rows q (db w)) ->
                     ~ In m' matches ->
                     processed_at (m_txn m') <= processed_at (m_txn m))
    /\ (Z.of_nat (List.length (select_rows q (db w))) <= limit_of b ->
        Permutation (select_rows q (db w)) matches).
Proof.
  intros Hrole Hfind Hq Hlim.
  rewrite (test_rule_completes _ _ _ _ _ _ Hrole Hfind Hq Hlim).
  eexists; eexists. split; [reflexivity |].
  unfold test_matches.
  set (sorted := order_by_processed_at_desc (select_rows q (db w))).
  assert (Hlen : List.length sorted = List.length (select_rows q (db w))).
  { symmetry. apply Permutation_length, order_by_perm. }
  split; [| split].
  - rewrite length_firstn, Hlen. lia.
  - intros m m' Hm Hm' Hout.
    apply (sorted_app_order (firstn (Z.to_nat (limit_of b)) sorted)
                            (skipn (Z.to_nat (limit_of b)) sorted)).
    + rewrite firstn_skipn. apply order_by_sorted.
    + exact Hm.
    + assert (Hin : In m' sorted) by (apply order_by_In; exact Hm').
      rewrite <- (firstn_skipn (Z.to_nat (limit_of b)) sorted) in Hin.
      apply in_app_or in Hin. destruct Hin as [Hin | Hin]; [contradiction | exact Hin].
  - intros Hfit. rewrite firstn_all2 by lia. apply order_by_perm.
Qed.

Lemma backtest_keeps_most_recent_witness :
  exists w' matches,
    run (test_rule (Some sam) (Some 1) ten_matches) sample_world =
      (w', Some {| status := 200;
                   body := JTest "Rule test completed" 1 "Large Cash Transaction"
                                 "amount" (Some 0) whole_period
                                 matches (Z.of_nat (List.length matches)) |})
    /\ Z.of_nat (List.length matches) = 2.
Proof.
  edestruct (backtest_keeps_most_recent sample_world sam 1 rule1 ten_matches)
    as [w' [matches [Hrun [Hlen _]]]].
  - reflexivity.
  - reflexivity.
  - reflexivity.
  - unfold limit_of. simpl. lia.
  - exists w', matches. split; [exact Hrun | exact Hlen].
Defined.

(** X7. A Frequency rule flags whole accounts: when the tester selects one
    transaction, it selects every transaction of the tested period that has
    the same source account. *)
Theorem frequency_rule_selects_whole_account (r : rule) (s e : option Z)
    (d : database) (t t' : transaction) :
  rule_type r = "frequency" ->
  exists q,
    build_test_query r s e = Some q
    /\ (selects q d t ->
        In t' (transactions d) -> in_period s e t' = true ->
        from_account_id t' = from_account_id t ->
        selects q d t').
Proof.
  intros Hty.
  exists (SelectFrequent "High frequency transactions" s e
                         (frequency_threshold (conditions r))).
  split; [unfold build_test_query; rewrite Hty; reflexivity |].
  rewrite !selects_frequent.
  intros [_ [_ [acct [Hacct Hcount]]]] Hin Hper Hsame.
  split; [exact Hin |]. split; [exact Hper |].
  exists acct. split; [congruence | exact Hcount].
Qed.

Lemma frequency_rule_selects_whole_account_witness :
  exists q,
    build_test_query rule2 (Some 0) whole_period = Some q
    /\ (selects q sample_db txn2 ->
        In txn1 (transactions sample_db) -> in_period (Some 0) whole_period txn1 = true ->
        from_account_id txn1 = from_account_id txn2 ->
        selects q sample_db txn1).
Proof.
  apply (frequency_rule_selects_whole_account rule2 (Some 0) whole_period
           sample_db txn2 txn1).
  reflexivity.
Defined.

(** ** The rule catalog *)

(** X8. A rule name already in the catalog is refused: the creation is
    answered 409 and nothing is stored or logged. *)
Theorem create_rule_duplicate_name (w : world) (e : env) (usr : user)
    (b : rule_body) (v : rule_value) (r : rule) :
  includes ["supervisor"; "admin"] (u_role usr) = true ->
  ruleSchema_validate b = inr v ->
  In r (detection_rules (db w)) -> r_name r = v_name v ->
  run (create_rule e (Some usr) b) w =
    (w, Some {| status := 409; body := JError "Rule with this name already exists" |}).
Proof.
  intros Hrole Hv Hin Hname.
  unfold create_rule, authorize, select_rules_by_name. unfold_monad.
  rewrite Hrole, Hv. reduce.
  destruct (filter (fun r0 => String.eqb (r_name r0) (v_name v)) (detection_rules (db w)))
    as [|x rest] eqn:Hfilter.
  - exfalso.
    assert (Hr : In r (filter (fun r0 => String.eqb (r_name r0) (v_name v))
                              (detection_rules (db w)))).
    { apply filter_In. split; [exact Hin |]. rewrite Hname. apply String.eqb_refl. }
    rewrite Hfilter in Hr. contradiction.
  - reflexivity.
Qed.

Lemma create_rule_duplicate_name_witness :
  run (create_rule at_noon (Some sam) same_name_again) sample_world =
    (sample_world,
     Some {| status := 409; body := JError "Rule with this name already exists" |}).
Proof.
  apply (create_rule_duplicate_name sample_world at_noon sam same_name_again
           {| v_name := "Twice a day"; v_description := None; v_ruleType := "amount";
              v_conditions := no_conditions; v_severity := "medium";
              v_isActive := true |} rule2).
  - reflexivity.
  - reflexivity.
  - simpl. auto.
  - reflexivity.
Defined.

Lemma filter_nil_none {A} (f : A -> bool) l :
  filter f l = [] -> forall x, In x l -> f x = false.
Proof.
  intros H x Hin. destruct (f x) eqn:Hx; [| reflexivity].
  assert (Hf : In x (filter f l)) by (apply filter_In; split; assumption).
  rewrite H in Hf. contradiction.
Qed.

Lemma create_rule_cases w e u b :
  exists w' r,
    run (create_rule e u b) w = (w', Some r)
    /\ ((status r <> 201 /\ same_tables (db w) (db w'))
        \/ (exists usr v,
              u = Some usr /\ ruleSchema_validate b = inr v
              /\ r = {| status := 201;
                        body := JRule "Detection rule created successfully"
                                      (new_rule e (db w) v usr) |}
              /\ detection_rules (db w')
                 = (detection_rules (db w) ++ [new_rule e (db w) v usr])%list
              /\ alerts (db w') = alerts (db w)
              /\ ~ In (v_name v) (rule_names (db w))
              /\ ~ In (detection_rules_id_seq (db w)) (rule_ids (db w)))).
Proof.
  unfold create_rule, authorize, select_rules_by_name, insert_detection_rule.
  unfold_monad.
  destruct u as [usr|];
    [| eexists; eexists; split; [reflexivity | left; split; [discriminate | repeat split]]].
  destruct (includes ["supervisor"; "admin"] (u_role usr));
    [| eexists; eexists; split; [reflexivity | left; split; [discriminate | repeat split]]].
  destruct (ruleSchema_validate b) as [err|v] eqn:Hv;
    [eexists; eexists; split; [reflexivity | left; split; [discriminate | repeat split]] |].
  reduce.
  destruct (filter (fun r => String.eqb (r_name r) (v_name v)) (detection_rules (db w)))
    as [|x rest] eqn:Hname;
    [| eexists; eexists; split; [reflexivity | left; split; [discriminate | repeat split]]].
  cbn [List.length Nat.ltb Nat.leb]. reduce.
  destruct (negb (includes rule_types (v_ruleType v) && includes severities (v_severity v)));
    [eexists; eexists; split; [reflexivity | left; split; [discriminate | repeat split]] |].
  destruct (existsb (fun r => r_id r =? detection_rules_id_seq (db w))
                    (detection_rules (db w))) eqn:Hid;
    [eexists; eexists; split; [reflexivity | left; split; [discriminate | repeat split]] |].
  destruct (negb (user_exists (db w) (u_id usr)));
    [eexists; eexists; split; [reflexivity | left; split; [discriminate | repeat split]] |].
  reduce. eexists; eexists. split; [reflexivity |]. right.
  exists usr, v. repeat split.
  - unfold rule_names. intros Hin. apply in_map_iff in Hin.
    destruct Hin as [r [Hr Hin]].
    pose proof (filter_nil_none _ _ Hname r Hin) as Hno. cbv beta in Hno.
    rewrite Hr, String.eqb_refl in Hno. discriminate.
  - unfold rule_ids. intros Hin. apply in_map_iff in Hin.
    destruct Hin as [r [Hr Hin]].
    assert (Hex : existsb (fun r0 => r_id r0 =? detection_rules_id_seq (db w))
                          (detection_rules (db w)) = true).
    { apply existsb_exists. exists r. split; [exact Hin | apply Z.eqb_eq; exact Hr]. }
    congruence.
Qed.

Lemma NoDup_snoc {A} (l : list A) x : NoDup l -> ~ In x l -> NoDup (l ++ [x])%list.
Proof.
  intros Hl Hx. apply NoDup_app; [exact Hl | constructor; [tauto | constructor] |].
  intros a Ha [<- | []]. contradiction.
Qed.

(** X9. Rule creation keeps the catalog's names and ids distinct: when no
    two rules share a name (or an id) before a creation request, none do
    after it, whatever the request and its outcome. *)
Theorem create_rule_keeps_names_distinct (w : world) (e : env) (u : option user)
    (b : rule_body) :
  (NoDup (rule_names (db w)) ->
   NoDup (rule_names (db (fst (run (create_rule e u b) w)))))
  /\ (NoDup (rule_ids (db w)) ->
      NoDup (rule_ids (db (fst (run (create_rule e u b) w))))).
Proof.
  destruct (create_rule_cases w e u b) as [w' [r [Hrun Hcases]]].
  rewrite Hrun. cbn [fst]. unfold rule_names, rule_ids in *.
  destruct Hcases as [[_ Hsame] | [usr [v [_ [_ [_ [Hrules [_ [Hname Hid]]]]]]]]].
  - destruct Hsame as [_ [_ [_ [_ [Hrules _]]]]]. rewrite Hrules. tauto.
  - rewrite Hrules, !map_app. cbn [map new_rule r_name r_id].
    split; intros Hnd; apply NoDup_snoc; assumption.
Qed.

Lemma create_rule_keeps_names_distinct_witness :
  NoDup (rule_names (db after_new_rule)).
Proof.
  apply (proj1 (create_rule_keeps_names_distinct sample_world at_noon (Some sam)
                  location_without_countries)).
  repeat constructor; simpl; intuition discriminate.
Defined.

Lemma find_filter_other (k ruleId : Z) l :
  k <> ruleId ->
  find (fun r => r_id r =? k) (filter (fun r => negb (r_id r =? ruleId)) l)
  = find (fun r => r_id r =? k) l.
Proof.
  intros Hne. induction l as [|x l IH]; simpl; [reflexivity |].
  destruct (r_id x =? ruleId) eqn:Hx; simpl.
  - apply Z.eqb_eq in Hx. destruct (r_id x =? k) eqn:Hk; [| exact IH].
    apply Z.eqb_eq in Hk. congruence.
  - destruct (r_id x =? k); [reflexivity | exact IH].
Qed.

Lemma find_filter_self (ruleId : Z) l :
  find (fun r => r_id r =? ruleId) (filter (fun r => negb (r_id r =? ruleId)) l) = None.
Proof.
  induction l as [|x l IH]; simpl; [reflexivity |].
  destruct (r_id x =? ruleId) eqn:Hx; simpl; [exact IH |].
  rewrite Hx. exact IH.
Qed.

(** X10. Deleting removes the rule and only it: after a deletion answered
    200 the rule's id is no longer found, every other id is found as
    before, and the alerts are untouched. *)
Theorem delete_rule_removes_only_that_rule (w : world) (u : option user)
    (id : option Z) (w' : world) (r : response) :
  run (delete_rule u id) w = (w', Some r) -> status r = 200 ->
  exists ruleId,
    id = Some ruleId
    /\ find (fun x => r_id x =? ruleId) (detection_rules (db w')) = None
    /\ (forall k, k <> ruleId ->
          find (fun x => r_id x =? k) (detection_rules (db w'))
          = find (fun x => r_id x =? k) (detection_rules (db w)))
    /\ alerts (db w') = alerts (db w).
Proof.
  intros Hrun Hst.
  destruct (delete_rule_cases w u id)
    as [[_ [r2 [Hr2 Hno]]] | [usr [ruleId [_ [Hid [_ Hrun2]]]]]].
  - rewrite Hrun in Hr2. cbn [snd] in Hr2. inversion Hr2; subst r2. contradiction.
  - rewrite Hrun in Hrun2. inversion Hrun2; subst w'. exists ruleId.
    split; [exact Hid |]. cbn [db logged without_rule with_rules detection_rules alerts].
    split; [apply find_filter_self |]. split; [| reflexivity].
    intros k Hk. apply find_filter_other. exact Hk.
Qed.

Lemma delete_rule_removes_only_that_rule_witness :
  exists ruleId,
    Some 2 = Some ruleId
    /\ find (fun x => r_id x =? ruleId)
            (detection_rules (db (fst (run (delete_rule (Some root) (Some 2)) sample_world))))
       = None.
Proof.
  edestruct (delete_rule_removes_only_that_rule sample_world (Some root) (Some 2))
    as [ruleId [Hid [Hgone _]]].
  - vm_compute. reflexivity.
  - reflexivity.
  - exists ruleId. split; [exact Hid | exact Hgone].
Defined.

Lemma filter_snoc_fresh (ruleId : Z) l x :
  ~ In ruleId (map r_id l) -> r_id x = ruleId ->
  filter (fun r => negb (r_id r =? ruleId)) (l ++ [x])%list = l.
Proof.
  intros Hfresh Hx. rewrite filter_app. simpl. rewrite Hx, Z.eqb_refl. simpl.
  rewrite app_nil_r. induction l as [|y l IH]; simpl; [reflexivity |].
  simpl in Hfresh. destruct (r_id y =? ruleId) eqn:Hy.
  - apply Z.eqb_eq in Hy. tauto.
  - simpl. rewrite IH by tauto. reflexivity.
Qed.

Lemma existsb_false_snoc (ruleId : Z) (al : list alert) :
  Z.of_nat (List.length (filter (fun a => opt_eqb (a_rule_id a) ruleId) al)) = 0 ->
  existsb (fun a => opt_eqb (a_rule_id a) ruleId) al = false.
Proof.
  intros Hlen.
  destruct (existsb (fun a => opt_eqb (a_rule_id a) ruleId) al) eqn:Hex; [| reflexivity].
  apply existsb_exists in Hex. destruct Hex as [a [Hin Ha]].
  assert (Hzero : List.length (filter (fun a => opt_eqb (a_rule_id a) ruleId) al) = 0%nat)
    by lia.
  pose proof (filter_length_zero _ _ Hzero a Hin) as Hno. cbv beta in Hno. congruence.
Qed.

(** X11. Creating a rule and deleting it again gives back the catalog: when
    a creation is answered 201 and no alert names the new rule's id, an
    admin's deletion of that id is answered 200 and leaves the rules exactly
    as they were before the creation. *)
Theorem create_then_delete_rule (w : world) (e : env) (u : option user)
    (b : rule_body) (admin : user) (w1 : world) (new : rule) :
  run (create_rule e u b) w =
    (w1, Some {| status := 201;
                 body := JRule "Detection rule created successfully" new |}) ->
  rule_alert_count (db w) (r_id new) = 0 ->
  u_role admin = "admin" ->
  exists w2,
    run (delete_rule (Some admin) (Some (r_id new))) w1 =
      (w2, Some {| status := 200;
                   body := JMessage "Detection rule deleted successfully" |})
    /\ detection_rules (db w2) = detection_rules (db w).
Proof.
  intros Hrun Hcount Hadmin.
  destruct (create_rule_cases w e u b) as [w' [r [Hrun2 Hcases]]].
  rewrite Hrun in Hrun2. inversion Hrun2; subst w' r; clear Hrun2.
  destruct Hcases as [[Hno _] | [usr [v [_ [_ [Hr [Hrules [Hal [_ Hid]]]]]]]]];
    [contradiction Hno; reflexivity |].
  inversion Hr as [Hnew]. clear Hr. subst new.
  set (new := new_rule e (db w) v usr) in *.
  assert (Hrid : r_id new = detection_rules_id_seq (db w)) by reflexivity.
  unfold delete_rule, authorize, select_rule, count_alerts_of_rule,
         delete_detection_rule, rule_alert_count in *.
  unfold_monad. rewrite Hadmin.
  change (includes ["admin"] "admin") with true. reduce. rewrite Hrules.
  assert (Hfind : exists x, find (fun r0 => r_id r0 =? r_id new)
                                 (detection_rules (db w) ++ [new])%list = Some x).
  { destruct (find (fun r0 => r_id r0 =? r_id new)
                   (detection_rules (db w) ++ [new])%list) eqn:Hf; [eauto |].
    pose proof (find_none _ _ Hf new) as Hn. cbv beta in Hn.
    rewrite Z.eqb_refl in Hn. discriminate Hn. apply in_or_app. right. left. reflexivity. }
  destruct Hfind as [x Hfind]. rewrite Hfind. reduce.
  rewrite Hal, Hcount. cbn [Z.ltb Z.compare]. reduce.
  rewrite ?Hrules, ?Hal, (existsb_false_snoc _ _ Hcount), andb_false_r.
  eexists. split; [reflexivity |].
  cbn [db detection_rules with_rules]. rewrite ?Hrules.
  apply filter_snoc_fresh; [| reflexivity].
  rewrite Hrid. exact Hid.
Qed.

Lemma create_then_delete_rule_witness :
  exists w2,
    run (delete_rule (Some root) (Some 4)) after_new_rule =
      (w2, Some {| status := 200;
                   body := JMessage "Detection rule deleted successfully" |})
    /\ detection_rules (db w2) = detection_rules sample_db.
Proof.
  apply (create_then_delete_rule sample_world at_noon (Some sam)
           location_without_countries root after_new_rule
           (new_rule at_noon sample_db
              {| v_name := "High Risk Country Transfer"; v_description := None;
                 v_ruleType := "location"; v_conditions := no_conditions;
                 v_severity := "high"; v_isActive := true |} sam)).
  - vm_compute. reflexivity.
  - reflexivity.
  - reflexivity.
Defined.

Lemma find_rule_map_same_id (f : rule -> rule) k l :
  (forall r, r_id (f r) = r_id r) ->
  find (fun r => r_id r =? k) (map (fun r => if r_id r =? k then f r else r) l)
  = option_map f (find (fun r => r_id r =? k) l).
Proof.
  intros Hid. induction l as [|x l IH]; simpl; [reflexivity |].
  destruct (r_id x =? k) eqn:Hx.
  - rewrite Hid, Hx. reflexivity.
  - rewrite Hx. exact IH.
Qed.

Lemma find_rule_map_other (f : rule -> rule) k ruleId l :
  (forall r, r_id (f r) = r_id r) -> k <> ruleId ->
  find (fun r => r_id r =? k) (map (fun r => if r_id r =? ruleId then f r else r) l)
  = find (fun r => r_id r =? k) l.
Proof.
  intros Hid Hne. induction l as [|x l IH]; simpl; [reflexivity |].
  destruct (r_id x =? ruleId) eqn:Hx.
  - rewrite Hid. apply Z.eqb_eq in Hx.
    destruct (r_id x =? k) eqn:Hk; [apply Z.eqb_eq in Hk; congruence | exact IH].
  - destruct (r_id x =? k); [reflexivity | exact IH].
Qed.

Lemma find_rule_id k l r : find (fun r => r_id r =? k) l = Some r -> r_id r = k.
Proof.
  intros H. apply find_some in H. destruct H as [_ H]. apply Z.eqb_eq. exact H.
Qed.

Lemma update_rule_completes w e usr ruleId current b :
  includes ["supervisor"; "admin"] (u_role usr) = true ->
  updateRuleSchema_errors b = None ->
  find (fun r => r_id r =? ruleId) (detection_rules (db w)) = Some current ->
  rule_update_empty b = false ->
  includes rule_types (rule_type current) = true ->
  includes severities (r_severity current) = true ->
  run (update_rule e (Some usr) (Some ruleId) b) w =
    (logged {| db := updated_rules e b ruleId (db w);
               audit_log := audit_log w; emitted := emitted w |}
            "RULE_UPDATED" (u_id usr) "rule" ruleId,
     Some {| status := 200;
             body := JRule "Detection rule updated successfully"
                           (apply_rule_update e b current) |}).
Proof.
  intros Hrole Hvalid Hfind Hnonempty Hty Hsev.
  pose proof (find_rule_id _ _ _ Hfind) as Hid.
  assert (Hsev' : includes severities (r_severity (apply_rule_update e b current)) = true).
  { cbn [apply_rule_update r_severity].
    destruct (ru_severity b) as [s|] eqn:Hs; [| exact Hsev].
    unfold updateRuleSchema_errors in Hvalid. rewrite Hs in Hvalid.
    apply first_error_none in Hvalid.
    inversion Hvalid as [|? ? _ H1]; subst. inversion H1 as [|? ? _ H2]; subst.
    inversion H2 as [|? ? H3 _]; subst. apply (check_none _ _ _ H3). }
  unfold update_rule, authorize, select_rule, update_rule_row, rule_update_empty,
         updated_rules in *.
  unfold_monad. rewrite Hrole, Hvalid. reduce. rewrite Hfind. reduce.
  rewrite Hnonempty. reduce. rewrite Hsev'.
  cbn [apply_rule_update rule_type]. rewrite Hty. cbn [andb negb]. reduce.
  rewrite Hid. reflexivity.
Qed.

(** X12. An update of an existing rule is accepted for every body that
    passes [updateRuleSchema] and has a key: the rule keeps its id, its type
    and its creator, takes the body's conditions as they are (they are not
    checked against the creation schema), and every other rule is found as
    before. *)
Theorem update_rule_keeps_identity (w : world) (e : env) (usr : user)
    (ruleId : Z) (current : rule) (b : rule_update) :
  includes ["supervisor"; "admin"] (u_role usr) = true ->
  updateRuleSchema_errors b = None ->
  find (fun r => r_id r =? ruleId) (detection_rules (db w)) = Some current ->
  rule_update_empty b = false ->
  includes rule_types (rule_type current) = true ->
  includes severities (r_severity current) = true ->
  exists w' updated,
    run (update_rule e (Some usr) (Some ruleId) b) w =
      (w', Some {| status := 200;
                   body := JRule "Detection rule updated successfully" updated |})
    /\ find (fun r => r_id r =? ruleId) (detection_rules (db w')) = Some updated
    /\ r_id updated = ruleId /\ rule_type updated = rule_type current
    /\ r_created_by updated = r_created_by current
    /\ (forall c, ru_conditions b = Some c -> conditions updated = c)
    /\ (forall k, k <> ruleId ->
          find (fun r => r_id r =? k) (detection_rules (db w'))
          = find (fun r => r_id r =? k) (detection_rules (db w)))
    /\ alerts (db w') = alerts (db w).
Proof.
  intros Hrole Hvalid Hfind Hnonempty Hty Hsev.
  rewrite (update_rule_completes _ e _ _ _ _ Hrole Hvalid Hfind Hnonempty Hty Hsev).
  eexists; eexists. split; [reflexivity |].
  cbn [db logged updated_rules with_rules detection_rules alerts].
  split; [rewrite find_rule_map_same_id by reflexivity; rewrite Hfind; reflexivity |].
  split; [exact (find_rule_id _ _ _ Hfind) |].
  split; [reflexivity |]. split; [reflexivity |].
  split; [intros c Hc; cbn [apply_rule_update conditions]; rewrite Hc; reflexivity |].
  split; [| reflexivity].
  intros k Hk. apply find_rule_map_other; [reflexivity | exact Hk].
Qed.

Lemma update_rule_keeps_identity_witness :
  conditions_schema (with_bounds no_conditions (Some ((-5) # 1)) None) <> None
  /\ exists w' updated,
       run (update_rule at_noon (Some sam) (Some 1) negative_minimum) sample_world =
         (w', Some {| status := 200;
                      body := JRule "Detection rule updated successfully" updated |})
       /\ rule_type updated = "amount"
       /\ minAmount (conditions updated) = Some ((-5) # 1).
Proof.
  split; [vm_compute; discriminate |].
  edestruct (update_rule_keeps_identity sample_world at_noon sam 1 rule1 negative_minimum)
    as [w' [updated [Hrun [_ [_ [Hty [_ [Hc _]]]]]]]].
  - reflexivity.
  - reflexivity.
  - reflexivity.
  - reflexivity.
  - reflexivity.
  - reflexivity.
  - exists w', updated. split; [exact Hrun |]. split; [exact Hty |].
    rewrite (Hc _ eq_refl). reflexivity.
Defined.

(** X13. Renaming does not look at the other rules: an update that gives a
    rule the name of another rule is accepted, and the catalog then holds
    two rules of that name. *)
Theorem update_rule_may_duplicate_a_name (w : world) (e : env) (usr : user)
    (ruleId : Z) (current other : rule) (b : rule_update) :
  includes ["supervisor"; "admin"] (u_role usr) = true ->
  updateRuleSchema_errors b = None ->
  find (fun r => r_id r =? ruleId) (detection_rules (db w)) = Some current ->
  includes rule_types (rule_type current) = true ->
  includes severities (r_severity current) = true ->
  In other (detection_rules (db w)) -> r_id other <> ruleId ->
  ru_name b = Some (r_name other) ->
  exists w' updated,
    run (update_rule e (Some usr) (Some ruleId) b) w =
      (w', Some {| status := 200;
                   body := JRule "Detection rule updated successfully" updated |})
    /\ In updated (detection_rules (db w')) /\ In other (detection_rules (db w'))
    /\ r_id updated <> r_id other /\ r_name updated = r_name other.
Proof.
  intros Hrole Hvalid Hfind Hty Hsev Hother Hne Hname.
  assert (Hnonempty : rule_update_empty b = false)
    by (unfold rule_update_empty; rewrite Hname; reflexivity).
  rewrite (update_rule_completes _ e _ _ _ _ Hrole Hvalid Hfind Hnonempty Hty Hsev).
  eexists; eexists. split; [reflexivity |].
  cbn [db logged updated_rules with_rules detection_rules].
  pose proof (find_rule_id _ _ _ Hfind) as Hid.
  split; [| split; [| split]].
  - apply in_map_iff. exists current. rewrite Hid, Z.eqb_refl.
    split; [reflexivity |]. apply find_some in Hfind. tauto.
  - apply in_map_iff. exists other.
    destruct (r_id other =? ruleId) eqn:Hx; [apply Z.eqb_eq in Hx; contradiction |].
    split; [reflexivity | exact Hother].
  - cbn [apply_rule_update r_id]. congruence.
  - cbn [apply_rule_update r_name]. rewrite Hname. reflexivity.
Qed.

Lemma update_rule_may_duplicate_a_name_witness :
  exists w' updated,
    run (update_rule at_noon (Some sam) (Some 1) rename_to_rule2) sample_world =
      (w', Some {| status := 200;
                   body := JRule "Detection rule updated successfully" updated |})
    /\ In updated (detection_rules (db w')) /\ In rule2 (detection_rules (db w'))
    /\ r_id updated <> r_id rule2 /\ r_name updated = r_name rule2.
Proof.
  apply (update_rule_may_duplicate_a_name sample_world at_noon sam 1 rule1 rule2
           rename_to_rule2).
  - reflexivity.
  - reflexivity.
  - reflexivity.
  - reflexivity.
  - reflexivity.
  - simpl. auto.
  - discriminate.
  - reflexivity.
Defined.

Ltac unchanged Hrun :=
  solve [inversion Hrun; subst; first [reflexivity | contradiction | congruence]].

Lemma update_rule_failure w e u id b w' r :
  run (update_rule e u id b) w = (w', Some r) -> status r <> 200 -> w' = w.
Proof.
  unfold update_rule, authorize, select_rule, update_rule_row.
  unfold_monad. intros Hrun Hst.
  destruct u as [usr|]; [| unchanged Hrun].
  destruct (includes ["supervisor"; "admin"] (u_role usr)); [| unchanged Hrun].
  destruct id as [ruleId|]; [| unchanged Hrun].
  destruct (updateRuleSchema_errors b); [unchanged Hrun |].
  reduce in Hrun.
  destruct (find (fun r0 => r_id r0 =? ruleId) (detection_rules (db w))) as [current|];
    [| unchanged Hrun].
  destruct (match ru_name b with Some _ => _ | None => _ end); [unchanged Hrun |].
  reduce in Hrun.
  destruct (negb _); [unchanged Hrun |].
  reduce in Hrun. inversion Hrun; subst. contradiction Hst. reflexivity.
Qed.

Lemma test_rule_failure w u id b w' r :
  run (test_rule u id b) w = (w', Some r) -> status r <> 200 -> w' = w.
Proof.
  unfold test_rule, authorize, select_rule, run_test_query.
  unfold_monad. intros Hrun Hst.
  destruct u as [usr|]; [| unchanged Hrun].
  destruct (includes ["supervisor"; "admin"] (u_role usr)); [| unchanged Hrun].
  destruct id as [ruleId|]; [| unchanged Hrun].
  reduce in Hrun.
  destruct (find (fun r0 => r_id r0 =? ruleId) (detection_rules (db w))) as [rule|];
    [| unchanged Hrun].
  destruct (build_test_query rule (tb_startDate b) (tb_endDate b)) as [q|];
    [| unchanged Hrun].
  reduce in Hrun.
  destruct (match tb_limit b with Some l => l | None => 100 end <? 0);
    [unchanged Hrun |].
  inversion Hrun; subst. contradiction Hst. reflexivity.
Qed.

(** X14. A rule request that is not answered with success leaves no trace:
    a failed update, deletion or test leaves the server state exactly as it
    was, and a failed creation leaves every table as it was. *)
Theorem rule_requests_fail_without_trace (w : world) (e : env) (u : option user)
    (w' : world) (r : response) :
  (forall b, run (create_rule e u b) w = (w', Some r) -> status r <> 201 ->
             same_tables (db w) (db w'))
  /\ (forall id b, run (update_rule e u id b) w = (w', Some r) -> status r <> 200 ->
                   w' = w)
  /\ (forall id, run (delete_rule u id) w = (w', Some r) -> status r <> 200 -> w' = w)
  /\ (forall id b, run (test_rule u id b) w = (w', Some r) -> status r <> 200 ->
                   w' = w).
Proof.
  split; [| split; [| split]].
  - intros b Hrun Hst.
    destruct (create_rule_cases w e u b) as [w2 [r2 [Hrun2 Hcases]]].
    rewrite Hrun in Hrun2. inversion Hrun2; subst w2 r2.
    destruct Hcases as [[_ Hsame] | [usr [v [_ [_ [Hr _]]]]]]; [exact Hsame |].
    subst r. contradiction Hst. reflexivity.
  - intros id b. apply update_rule_failure.
  - intros id Hrun Hst.
    destruct (delete_rule_cases w u id)
      as [[Hsame _] | [usr [ruleId [_ [_ [_ Hrun2]]]]]].
    + rewrite Hrun in Hsame. exact Hsame.
    + rewrite Hrun in Hrun2. inversion Hrun2; subst. contradiction Hst. reflexivity.
  - intros id b. apply test_rule_failure.
Qed.

Lemma rule_requests_fail_without_trace_witness :
  fst (run (update_rule at_noon (Some sam) (Some 1) empty_rule_update) sample_world)
  = sample_world.
Proof.
  apply (proj1 (proj2 (rule_requests_fail_without_trace sample_world at_noon (Some sam)
           (fst (run (update_rule at_noon (Some sam) (Some 1) empty_rule_update)
                     sample_world))
           {| status := 400; body := JError "No valid fields to update" |}))
         (Some 1) empty_rule_update).
  - reflexivity.
  - discriminate.
Defined.

(** ** Alerts *)

Lemma create_alert_cases w e u b :
  exists w' r,
    run (create_alert e u b) w = (w', Some r)
    /\ ((status r <> 201 /\ same_tables (db w) (db w'))
        \/ (exists usr tid ty sev descr txn,
              u = Some usr /\ ab_transactionId b = Some tid
              /\ ab_description b = Some descr
              /\ In txn (transactions (db w)) /\ t_id txn = tid
              /\ fk_ok (ab_ruleId b)
                       (fun k => existsb (fun x => r_id x =? k) (detection_rules (db w)))
                 = true
              /\ r = {| status := 201;
                        body := JAlert "Alert created successfully"
                                       (new_alert e (db w) usr b tid ty sev descr txn) |}
              /\ alerts (db w')
                 = (alerts (db w) ++ [new_alert e (db w) usr b tid ty sev descr txn])%list
              /\ detection_rules (db w') = detection_rules (db w)
              /\ transactions (db w') = transactions (db w)
              /\ ~ In (alerts_id_seq (db w)) (alert_keys (db w))
              /\ ~ In ("AL" ++ dec (now e) ++ rnd e) (alert_codes (db w)))).
Proof.
  unfold create_alert, authorize, select_transaction, select_account, insert_alert.
  unfold_monad.
  destruct u as [usr|];
    [| eexists; eexists; split; [reflexivity | left; split; [discriminate | repeat split]]].
  destruct (includes all_roles (u_role usr));
    [| eexists; eexists; split; [reflexivity | left; split; [discriminate | repeat split]]].
  destruct (createAlertSchema_errors b);
    [eexists; eexists; split; [reflexivity | left; split; [discriminate | repeat split]] |].
  destruct (ab_transactionId b) as [tid|];
    [| eexists; eexists; split; [reflexivity | left; split; [discriminate | repeat split]]].
  destruct (ab_alertType b) as [ty|];
    [| eexists; eexists; split; [reflexivity | left; split; [discriminate | repeat split]]].
  destruct (ab_severity b) as [sev|];
    [| eexists; eexists; split; [reflexivity | left; split; [discriminate | repeat split]]].
  destruct (ab_description b) as [descr|];
    [| eexists; eexists; split; [reflexivity | left; split; [discriminate | repeat split]]].
  reduce.
  destruct (filter (fun t => t_id t =? tid) (transactions (db w))) as [|txn rest] eqn:Htxn;
    [eexists; eexists; split; [reflexivity | left; split; [discriminate | repeat split]] |].
  reduce.
  destruct (negb (includes alert_types ty && includes severities sev));
    [eexists; eexists; split; [reflexivity | left; split; [discriminate | repeat split]] |].
  destruct (existsb _ (alerts (db w))) eqn:Hunique;
    [eexists; eexists; split; [reflexivity | left; split; [discriminate | repeat split]] |].
  destruct (existsb (fun t => t_id t =? tid) (transactions (db w))
            && fk_ok (ab_ruleId b) _ && fk_ok _ _ && user_exists (db w) (u_id usr))
    eqn:Hfk; cbn [negb];
    [| eexists; eexists; split; [reflexivity | left; split; [discriminate | repeat split]]].
  assert (Htxn_in : In txn (filter (fun t => t_id t =? tid) (transactions (db w))))
    by (rewrite Htxn; left; reflexivity).
  apply filter_In in Htxn_in. destruct Htxn_in as [Hin Htid]. apply Z.eqb_eq in Htid.
  apply andb_true_iff in Hfk. destruct Hfk as [Hfk _].
  apply andb_true_iff in Hfk. destruct Hfk as [Hfk _].
  apply andb_true_iff in Hfk. destruct Hfk as [_ Hrule].
  assert (Hkeys : ~ In (alerts_id_seq (db w)) (alert_keys (db w))
                  /\ ~ In ("AL" ++ dec (now e) ++ rnd e) (alert_codes (db w))).
  { unfold alert_keys, alert_codes.
    split; intros Hbad; apply in_map_iff in Hbad; destruct Hbad as [a [Ha Hain]];
      (assert (Hex : existsb (fun a0 => (a_id a0 =? alerts_id_seq (db w))
                                        || String.eqb (alert_id a0)
                                                      ("AL" ++ dec (now e) ++ rnd e))
                             (alerts (db w)) = true);
       [apply existsb_exists; exists a; split; [exact Hain |]; rewrite Ha;
        rewrite ?Z.eqb_refl, ?String.eqb_refl, ?orb_true_r; reflexivity
       | congruence]). }
  destruct Hkeys as [Hkey Hcode].
  reduce. unfold new_alert, customer_of, alert_details_of.
  destruct (from_account_id txn) eqn:Hacct; destruct (socketio e); reduce;
    eexists; eexists;
    (split; [reflexivity |]; right; exists usr, tid, ty, sev, descr, txn;
     repeat split; rewrite ?Hacct; first [assumption | reflexivity]).
Qed.

Lemma create_alert_created w e u b w' r :
  run (create_alert e u b) w = (w', Some r) -> status r = 201 ->
  exists usr tid ty sev descr txn,
    u = Some usr /\ ab_transactionId b = Some tid
    /\ ab_description b = Some descr
    /\ In txn (transactions (db w)) /\ t_id txn = tid
    /\ fk_ok (ab_ruleId b)
             (fun k => existsb (fun x => r_id x =? k) (detection_rules (db w))) = true
    /\ r = {| status := 201;
              body := JAlert "Alert created successfully"
                             (new_alert e (db w) usr b tid ty sev descr txn) |}
    /\ alerts (db w')
       = (alerts (db w) ++ [new_alert e (db w) usr b tid ty sev descr txn])%list
    /\ detection_rules (db w') = detection_rules (db w)
    /\ transactions (db w') = transactions (db w)
    /\ ~ In (alerts_id_seq (db w)) (alert_keys (db w))
    /\ ~ In ("AL" ++ dec (now e) ++ rnd e) (alert_codes (db w)).
Proof.
  intros Hrun Hst.
  destruct (create_alert_cases w e u b) as [w2 [r2 [Hrun2 Hcases]]].
  rewrite Hrun in Hrun2. inversion Hrun2; subst w2 r2.
  destruct Hcases as [[Hno _] | Hyes]; [contradiction | exact Hyes].
Qed.

(** X15. The alert a creation stores: it is assigned to the user who sent
    the request; its transaction is the request's [transactionId], which is
    the id of a row of the transactions table, and its rule the request's
    [ruleId]; its customer is the owner of that transaction's source
    account; and its public id is 'AL' followed by the time of the request
    and the random suffix. *)
Theorem create_alert_assigns_creator (w : world) (e : env) (u : option user)
    (b : alert_body) (w' : world) (r : response) :
  run (create_alert e u b) w = (w', Some r) -> status r = 201 ->
  exists usr txn a,
    u = Some usr
    /\ body r = JAlert "Alert created successfully" a
    /\ In a (alerts (db w'))
    /\ assigned_to a = Some (u_id usr)
    /\ In txn (transactions (db w))
    /\ ab_transactionId b = Some (t_id txn)
    /\ a_transaction_id a = ab_transactionId b
    /\ a_rule_id a = ab_ruleId b
    /\ a_customer_id a = customer_of (db w) txn
    /\ alert_id a = "AL" ++ dec (now e) ++ rnd e.
Proof.
  intros Hrun Hst.
  destruct (create_alert_created _ _ _ _ _ _ Hrun Hst)
    as [usr [tid [ty [sev [descr [txn [Hu [Hreq [_ [Hin [Htid [_ [Hr [Hal _]]]]]]]]]]]]]].
  exists usr, txn, (new_alert e (db w) usr b tid ty sev descr txn).
  subst r. split; [exact Hu |]. split; [reflexivity |].
  split; [rewrite Hal; apply in_or_app; right; left; reflexivity |].
  split; [reflexivity |]. split; [exact Hin |].
  split; [rewrite Htid; exact Hreq |].
  split; [cbn [new_alert a_transaction_id]; symmetry; exact Hreq |].
  split; [reflexivity |].
  split; reflexivity.
Qed.

Lemma create_alert_assigns_creator_witness :
  exists usr txn a,
    Some root = Some usr
    /\ In a (alerts (db after_first_alert))
    /\ assigned_to a = Some (u_id usr)
    /\ In txn (transactions sample_db)
    /\ ab_transactionId amount_alert = Some (t_id txn)
    /\ a_transaction_id a = ab_transactionId amount_alert
    /\ a_rule_id a = ab_ruleId amount_alert.
Proof.
  edestruct (create_alert_assigns_creator sample_world at_noon (Some root) amount_alert)
    as [usr [txn [a [Hu [_ [Hin [Hass [Htxn [Hreq [Htid [Hrule _]]]]]]]]]]].
  - vm_compute. reflexivity.
  - reflexivity.
  - exists usr, txn, a.
    split; [exact Hu |]. split; [exact Hin |]. split; [exact Hass |].
    split; [exact Htxn |]. split; [exact Hreq |]. split; [exact Htid | exact Hrule].
Defined.

Lemma obj_get_set_same obj k v : obj_get (obj_set obj k v) k = Some v.
Proof.
  induction obj as [|[k' v'] rest IH]; simpl.
  - rewrite String.eqb_refl. reflexivity.
  - destruct (String.eqb k' k) eqn:Hk; simpl; rewrite Hk; [reflexivity | exact IH].
Qed.

Lemma obj_get_set_other obj k k' v :
  k <> k' -> obj_get (obj_set obj k v) k' = obj_get obj k'.
Proof.
  intros Hne. induction obj as [|[k0 v0] rest IH]; simpl.
  - destruct (String.eqb k k') eqn:Hk; [apply String.eqb_eq in Hk; contradiction | reflexivity].
  - destruct (String.eqb k0 k) eqn:Hk0; simpl.
    + apply String.eqb_eq in Hk0. subst k0.
      destruct (String.eqb k k') eqn:Hk; [apply String.eqb_eq in Hk; contradiction | reflexivity].
    + destruct (String.eqb k0 k'); [reflexivity | exact IH].
Qed.

Lemma obj_get_set obj k k' v :
  obj_get (obj_set obj k v) k' = if String.eqb k k' then Some v else obj_get obj k'.
Proof.
  destruct (String.eqb k k') eqn:Hk.
  - apply String.eqb_eq in Hk. subst k'. apply obj_get_set_same.
  - apply obj_get_set_other. intros Heq. subst k'. rewrite String.eqb_refl in Hk. discriminate.
Qed.

Lemma obj_get_app l1 l2 k :
  obj_get (l1 ++ l2)%list k
  = match obj_get l1 k with Some v => Some v | None => obj_get l2 k end.
Proof.
  induction l1 as [|[k' v'] rest IH]; simpl; [reflexivity |].
  destruct (String.eqb k' k); [reflexivity | exact IH].
Qed.

(** A key of the spread object has the value the last occurrence gives it,
    and the value of the base object when it has none. *)
Lemma obj_get_spread extra :
  forall base k,
    obj_get (obj_spread base extra) k
    = match obj_get (rev extra) k with
      | Some v => Some v
      | None => obj_get base k
      end.
Proof.
  unfold obj_spread.
  induction extra as [|[k1 v1] rest IH]; intros base k; simpl; [reflexivity |].
  rewrite IH, obj_get_app, obj_get_set. simpl.
  destruct (obj_get (rev rest) k); [reflexivity |].
  destruct (String.eqb k1 k); reflexivity.
Qed.

(** X16. What the stored details say.  Whatever details the request
    carries, the stored object gives the creator's user name under
    'createdBy' and the time of the request under 'createdAt'; under
    'description' it gives the request's description unless the request's
    details have that key, whose (last) value then replaces it. *)
Theorem alert_details_creator_not_forgeable (w : world) (e : env) (u : option user)
    (b : alert_body) (w' : world) (r : response) :
  run (create_alert e u b) w = (w', Some r) -> status r = 201 ->
  exists usr descr a,
    u = Some usr /\ ab_description b = Some descr
    /\ body r = JAlert "Alert created successfully" a
    /\ obj_get (a_details a) "createdBy" = Some (JStr (u_username usr))
    /\ obj_get (a_details a) "createdAt" = Some (JNum (now e))
    /\ obj_get (a_details a) "description"
       = match obj_get (rev (match ab_details b with Some o => o | None => [] end))
                       "description" with
         | Some v => Some v
         | None => Some (JStr descr)
         end.
Proof.
  intros Hrun Hst.
  destruct (create_alert_created _ _ _ _ _ _ Hrun Hst)
    as [usr [tid [ty [sev [descr [txn [Hu [_ [Hdescr [_ [_ [_ [Hr _]]]]]]]]]]]]].
  exists usr, descr, (new_alert e (db w) usr b tid ty sev descr txn).
  subst r. split; [exact Hu |]. split; [exact Hdescr |]. split; [reflexivity |].
  cbn [new_alert a_details]. unfold alert_details_of.
  rewrite !obj_get_set, !obj_get_spread.
  change (String.eqb "createdAt" "createdBy") with false.
  change (String.eqb "createdAt" "createdAt") with true.
  change (String.eqb "createdBy" "createdBy") with true.
  change (String.eqb "createdAt" "description") with false.
  change (String.eqb "createdBy" "description") with false.
  cbn [obj_get]. change (String.eqb "description" "description") with true.
  repeat split.
Qed.

Lemma alert_details_creator_not_forgeable_witness :
  exists usr descr a,
    Some ana = Some usr /\ ab_description forged_details = Some descr
    /\ obj_get (a_details a) "createdBy" = Some (JStr "ana")
    /\ obj_get (a_details a) "description" = Some (JStr "Replaced").
Proof.
  edestruct (alert_details_creator_not_forgeable sample_world at_noon (Some ana)
               forged_details) as [usr [descr [a [Hu [Hd [_ [Hby [_ Hdescr]]]]]]]].
  - vm_compute. reflexivity.
  - reflexivity.
  - exists usr, descr, a. split; [exact Hu |]. split; [exact Hd |].
    inversion Hu; subst usr. split; [exact Hby | exact Hdescr].
Defined.

(** X17. Alert creation keeps the alerts consistent: when the ids and
    public ids of the alerts are distinct and every alert's transaction and
    rule are in their tables before a creation request, the same holds after
    it, whatever the request and its outcome. *)
Theorem create_alert_keeps_alerts_consistent (w : world) (e : env) (u : option user)
    (b : alert_body) :
  alerts_consistent (db w) ->
  alerts_consistent (db (fst (run (create_alert e u b) w))).
Proof.
  unfold alerts_consistent.
  intros [Hkeys [Hcodes [Htxns Hrules]]].
  destruct (create_alert_cases w e u b) as [w' [r [Hrun Hcases]]].
  rewrite Hrun. cbn [fst].
  destruct Hcases as [[_ Hsame] | Hyes].
  - destruct Hsame as [_ [_ [_ [Ht [Hr [Ha _]]]]]].
    unfold alert_keys, alert_codes, transaction_refs_resolve, rule_refs_resolve in *.
    rewrite Ha, Ht, Hr. tauto.
  - destruct Hyes
      as [usr [tid [ty [sev [descr [txn [_ [_ [_ [Hin [Htid [Hfk [_ [Hal [Hr [Ht [Hkey Hcode]]]]]]]]]]]]]]]]].
    unfold alert_keys, alert_codes, transaction_refs_resolve, rule_refs_resolve in *.
    rewrite Hal, Hr, Ht, !map_app. cbn [map new_alert a_id alert_id].
    split; [apply NoDup_snoc; assumption |].
    split; [apply NoDup_snoc; assumption |].
    split.
    + intros a k Ha Hk. apply in_app_or in Ha. destruct Ha as [Ha | [<- | []]].
      * apply (Htxns a k Ha Hk).
      * cbn in Hk. inversion Hk; subst k. exists txn. split; [exact Hin | exact Htid].
    + intros a k Ha Hk. apply in_app_or in Ha. destruct Ha as [Ha | [<- | []]].
      * apply (Hrules a k Ha Hk).
      * cbn in Hk. rewrite Hk in Hfk. cbn in Hfk.
        apply existsb_exists in Hfk. destruct Hfk as [x [Hx Hxid]].
        exists x. split; [exact Hx | apply Z.eqb_eq; exact Hxid].
Qed.

Lemma sample_db_consistent : alerts_consistent sample_db.
Proof.
  unfold alerts_consistent, alert_keys, alert_codes, transaction_refs_resolve,
         rule_refs_resolve.
  split; [repeat constructor; simpl; intuition discriminate |].
  split; [repeat constructor; simpl; intuition discriminate |].
  split; intros a k Ha Hk; simpl in Ha; destruct Ha as [<- | [<- | []]];
    cbn in Hk; inversion Hk; subst.
  - exists txn1. simpl. auto.
  - exists txn2. simpl. auto.
  - exists rule1. simpl. auto.
Qed.

Lemma create_alert_keeps_alerts_consistent_witness :
  alerts_consistent (db after_first_alert).
Proof.
  apply (create_alert_keeps_alerts_consistent sample_world at_noon (Some root)
           amount_alert).
  exact sample_db_consistent.
Defined.

(** X18. References the handler and the database check, for ids that fit
    PostgreSQL's INTEGER.  An alert for such a transaction id that is in no
    row is answered 404 'Transaction not found' and changes nothing; an
    alert for an existing transaction naming such a rule id that is in no
    row passes the handler and is refused by the database: the reply is 400
    'Referenced resource does not exist' and no table changes. *)
Theorem create_alert_missing_references (w : world) (e : env) (usr : user)
    (b : alert_body) (tid : Z) (ty sev descr : string) :
  includes all_roles (u_role usr) = true ->
  createAlertSchema_errors b = None ->
  ab_transactionId b = Some tid -> ab_alertType b = Some ty ->
  ab_severity b = Some sev -> ab_description b = Some descr ->
  fits_integer tid ->
  (filter (fun t => t_id t =? tid) (transactions (db w)) = [] ->
   run (create_alert e (Some usr) b) w =
     (w, Some {| status := 404; body := JError "Transaction not found" |}))
  /\ (forall k,
        filter (fun t => t_id t =? tid) (transactions (db w)) <> [] ->
        ab_ruleId b = Some k -> fits_integer k ->
        find (fun r => r_id r =? k) (detection_rules (db w)) = None ->
        ~ In (alerts_id_seq (db w)) (alert_keys (db w)) ->
        ~ In ("AL" ++ dec (now e) ++ rnd e) (alert_codes (db w)) ->
        exists w',
          run (create_alert e (Some usr) b) w =
            (w', Some {| status := 400;
                         body := JUnhandled "Referenced resource does not exist" 400 |})
          /\ same_tables (db w) (db w')).
Proof.
  intros Hrole Hvalid Htid Hty Hsev Hdescr _.
  assert (Hchecks : includes alert_types ty && includes severities sev = true).
  { unfold createAlertSchema_errors in Hvalid. rewrite Htid, Hty, Hsev, Hdescr in Hvalid.
    apply first_error_none in Hvalid.
    inversion Hvalid as [|? ? _ H1]; subst. inversion H1 as [|? ? H2 H3]; subst.
    inversion H3 as [|? ? H4 _]; subst.
    rewrite (check_none _ _ _ H2), (check_none _ _ _ H4). reflexivity. }
  unfold create_alert, authorize, select_transaction, select_account, insert_alert.
  unfold_monad. rewrite Hrole, Hvalid, Htid, Hty, Hsev, Hdescr. reduce.
  split.
  - intros Hnone. rewrite Hnone. reflexivity.
  - intros k Hsome Hrule _ Hnorule Hkey Hcode.
    destruct (filter (fun t => t_id t =? tid) (transactions (db w))) as [|txn rest];
      [contradiction Hsome; reflexivity |].
    reduce. rewrite Hchecks. cbn [negb].
    assert (Hunique : existsb (fun a => (a_id a =? alerts_id_seq (db w))
                                        || String.eqb (alert_id a)
                                                      ("AL" ++ dec (now e) ++ rnd e))
                              (alerts (db w)) = false).
    { destruct (existsb _ (alerts (db w))) eqn:Hex; [| reflexivity].
      apply existsb_exists in Hex. destruct Hex as [a [Ha Hor]].
      apply orb_true_iff in Hor. destruct Hor as [Hid | Hcd].
      - apply Z.eqb_eq in Hid. contradiction Hkey. unfold alert_keys.
        rewrite <- Hid. apply in_map. exact Ha.
      - apply String.eqb_eq in Hcd. contradiction Hcode. unfold alert_codes.
        rewrite <- Hcd. apply in_map. exact Ha. }
    rewrite Hunique, Hrule.
    assert (Hfk : fk_ok (Some k)
                    (fun k0 => existsb (fun r => r_id r =? k0) (detection_rules (db w)))
                  = false).
    { cbn [fk_ok]. destruct (existsb _ (detection_rules (db w))) eqn:Hex; [| reflexivity].
      apply existsb_exists in Hex. destruct Hex as [x [Hx Hxid]].
      pose proof (find_none _ _ Hnorule x Hx) as Hno. cbv beta in Hno. congruence. }
    rewrite Hfk, andb_false_r. cbn [andb negb]. reduce.
    eexists. split; [reflexivity | repeat split].
Qed.

Lemma create_alert_missing_references_witness :
  run (create_alert at_noon (Some root) (with_transaction_id amount_alert 77)) sample_world
  = (sample_world, Some {| status := 404; body := JError "Transaction not found" |})
  /\ exists w',
       run (create_alert at_noon (Some root) (with_rule_id amount_alert (Some 9)))
           sample_world
       = (w', Some {| status := 400;
                      body := JUnhandled "Referenced resource does not exist" 400 |})
       /\ same_tables sample_db (db w').
Proof.
  assert (H77 : fits_integer 77) by (unfold fits_integer; lia).
  assert (H3 : fits_integer 3) by (unfold fits_integer; lia).
  split.
  - apply (proj1 (create_alert_missing_references sample_world at_noon root
                    (with_transaction_id amount_alert 77) 77 "rule_based" "high"
                    "Amount threshold exceeded" eq_refl eq_refl eq_refl eq_refl
                    eq_refl eq_refl H77)).
    reflexivity.
  - apply (proj2 (create_alert_missing_references sample_world at_noon root
                    (with_rule_id amount_alert (Some 9)) 3 "rule_based" "high"
                    "Amount threshold exceeded" eq_refl eq_refl eq_refl eq_refl
                    eq_refl eq_refl H3) 9).
    + discriminate.
    + reflexivity.
    + unfold fits_integer. lia.
    + reflexivity.
    + simpl. intuition discriminate.
    + simpl. intuition discriminate.
Defined.

Lemma analyst_guard usr a :
  String.eqb (u_role usr) "analyst"
  && match assigned_to a with
     | Some who => truthyZ who && negb (who =? u_id usr)
     | None => false
     end
  = denied_to usr a.
Proof.
  unfold denied_to, analyst_may_touch.
  destruct (assigned_to a) as [who|]; [| reflexivity].
  rewrite negb_orb, negb_involutive. reflexivity.
Qed.

Lemma update_alert_reaches_update w e usr alertId a b :
  includes all_roles (u_role usr) = true ->
  updateAlertSchema_errors b = None ->
  find (fun x => a_id x =? alertId) (alerts (db w)) = Some a ->
  run (update_alert e (Some usr) (Some alertId) b) w =
    run (reject_if (denied_to usr a) 403 (JError "Access denied to this alert") ;;;
         reject_if
           (match au_status b, au_assignedTo b, au_notes b, au_resolution b with
            | None, None, None, None => true
            | _, _, _, _ => false
            end)
           400 (JError "No valid fields to update") ;;;
         updatedAlert <- update_alert_row e b a ;;
         audit "ALERT_UPDATED" (u_id usr) "alert" alertId ;;;
         emit e "alert_updated" alertId ;;;
         respond 200 (JAlert "Alert updated successfully" updatedAlert)) w.
Proof.
  intros Hrole Hvalid Hfind.
  unfold update_alert, authorize, select_alert.
  unfold run, bind at 1. rewrite Hrole. unfold ret at 1. rewrite Hvalid.
  unfold bind at 1. unfold bind at 1. unfold get_db at 1. unfold ret at 1.
  rewrite Hfind, analyst_guard. reflexivity.
Qed.

(** X19. Notes and resolutions cannot be saved: the alerts table has no
    such column, so an update that carries [notes] or [resolution], even
    with a valid status beside it, is answered 500 and changes nothing. *)
Theorem update_alert_notes_never_saved (w : world) (e : env) (usr : user)
    (alertId : Z) (a : alert) (b : alert_update) :
  includes all_roles (u_role usr) = true ->
  updateAlertSchema_errors b = None ->
  find (fun x => a_id x =? alertId) (alerts (db w)) = Some a ->
  denied_to usr a = false ->
  au_notes b <> None \/ au_resolution b <> None ->
  run (update_alert e (Some usr) (Some alertId) b) w =
    (w, Some {| status := 500; body := JUnhandled "Internal Server Error" 500 |}).
Proof.
  intros Hrole Hvalid Hfind Hallowed Hnotes.
  rewrite (update_alert_reaches_update _ e _ _ _ _ Hrole Hvalid Hfind).
  unfold update_alert_row. unfold_monad. rewrite Hallowed. reduce.
  destruct (au_status b), (au_assignedTo b), (au_notes b), (au_resolution b);
    try reflexivity; destruct Hnotes as [H | H]; contradiction H; reflexivity.
Qed.

Lemma update_alert_notes_never_saved_witness :
  run (update_alert at_noon (Some root) (Some 2) with_notes) sample_world =
    (sample_world,
     Some {| status := 500; body := JUnhandled "Internal Server Error" 500 |}).
Proof.
  apply (update_alert_notes_never_saved sample_world at_noon root 2
           (sample_alert 2 2 None "new") with_notes).
  - reflexivity.
  - reflexivity.
  - reflexivity.
  - reflexivity.
  - left. discriminate.
Defined.



Lemma find_alert_map_other (f : alert -> alert) k alertId l :
  (forall a, a_id (f a) = a_id a) -> k <> alertId ->
  find (fun a => a_id a =? k) (map (fun a => if a_id a =? alertId then f a else a) l)
  = find (fun a => a_id a =? k) l.
Proof.
  intros Hid Hne. induction l as [|x l IH]; simpl; [reflexivity |].
  destruct (a_id x =? alertId) eqn:Hx.
  - rewrite Hid. apply Z.eqb_eq in Hx.
    destruct (a_id x =? k) eqn:Hk; [apply Z.eqb_eq in Hk; congruence | exact IH].
  - destruct (a_id x =? k); [reflexivity | exact IH].
Qed.

(** X21. An update touches one alert and three of its columns: after an
    update answered 200 there are as many alerts as before, every other
    alert is found unchanged, and the updated alert differs from its former
    row in status, assignee and update time at most. *)
Theorem update_alert_touches_one_alert (w : world) (e : env) (u : option user)
    (id : option Z) (b : alert_update) (w' : world) (r : response) :
  run (update_alert e u id b) w = (w', Some r) -> status r = 200 ->
  exists alertId before after,
    id = Some alertId
    /\ find (fun a => a_id a =? alertId) (alerts (db w)) = Some before
    /\ find (fun a => a_id a =? alertId) (alerts (db w')) = Some after
    /\ List.length (alerts (db w')) = List.length (alerts (db w))
    /\ (forall k, k <> alertId ->
          find (fun a => a_id a =? k) (alerts (db w'))
          = find (fun a => a_id a =? k) (alerts (db w)))
    /\ a_id after = a_id before /\ alert_id after = alert_id before
    /\ a_transaction_id after = a_transaction_id before
    /\ a_rule_id after = a_rule_id before
    /\ a_customer_id after = a_customer_id before
    /\ alert_type after = alert_type before /\ a_severity after = a_severity before
    /\ a_details after = a_details before
    /\ a_created_at after = a_created_at before
    /\ a_updated_at after = now e.
Proof.
  intros Hrun Hst.
  destruct (update_alert_success _ _ _ _ _ _ _ Hrun Hst)
    as [alertId [a [Hid [Hfind [Hal _]]]]].
  exists alertId, a, (apply_update e b a).
  split; [exact Hid |]. split; [exact Hfind |].
  split; [rewrite Hal, find_map_same_id by reflexivity; rewrite Hfind; reflexivity |].
  split; [rewrite Hal; apply length_map |].
  split; [intros k Hk; rewrite Hal; apply find_alert_map_other;
          [reflexivity | exact Hk] |].
  repeat split.
Qed.

Lemma update_alert_touches_one_alert_witness :
  exists alertId before after,
    Some 1 = Some alertId
    /\ find (fun a => a_id a =? alertId) (alerts sample_db) = Some before
    /\ find (fun a => a_id a =? alertId) (alerts (db after_reopen)) = Some after
    /\ List.length (alerts (db after_reopen)) = List.length (alerts sample_db)
    /\ a_details after = a_details before.
Proof.
  edestruct (update_alert_touches_one_alert sample_world at_noon (Some root) (Some 1)
               reopen)
    as (alertId & before & after & Hid & Hb & Ha & Hlen
        & _ & _ & _ & _ & _ & _ & _ & _ & Hd & _).
  - vm_compute. reflexivity.
  - reflexivity.
  - exists alertId, before, after. repeat split; assumption.
Defined.

(** X22. An alert cannot be assigned to a user that does not exist: for an
    [assignedTo] that fits PostgreSQL's INTEGER and is the id of no user, the
    update is refused by the database, the reply is 400 'Referenced resource
    does not exist', and nothing changes. *)
Theorem update_alert_unknown_assignee (w : world) (e : env) (usr : user)
    (alertId : Z) (a : alert) (b : alert_update) (who : Z) :
  includes all_roles (u_role usr) = true ->
  updateAlertSchema_errors b = None ->
  find (fun x => a_id x =? alertId) (alerts (db w)) = Some a ->
  denied_to usr a = false ->
  includes alert_statuses (a_status a) = true ->
  au_notes b = None -> au_resolution b = None ->
  au_assignedTo b = Some (Some who) ->
  fits_integer who ->
  user_exists (db w) who = false ->
  run (update_alert e (Some usr) (Some alertId) b) w =
    (w, Some {| status := 400;
                body := JUnhandled "Referenced resource does not exist" 400 |}).
Proof.
  intros Hrole Hvalid Hfind Hallowed Hstatus Hnotes Hres Hass _ Hnobody.
  assert (Hst : includes alert_statuses (a_status (apply_update e b a)) = true).
  { cbn [apply_update a_status].
    destruct (au_status b) as [s|] eqn:Hs; [| exact Hstatus].
    unfold updateAlertSchema_errors in Hvalid. rewrite Hs in Hvalid.
    apply first_error_none in Hvalid. inversion Hvalid as [|? ? H1 _]; subst.
    apply (check_none _ _ _ H1). }
  rewrite (update_alert_reaches_update _ e _ _ _ _ Hrole Hvalid Hfind).
  unfold update_alert_row. unfold_monad. rewrite Hallowed. reduce.
  rewrite Hnotes, Hres, Hass, Hst. cbn [negb].
  destruct (au_status b); reduce;
    cbn [apply_update assigned_to]; rewrite ?Hass; cbn [fk_ok];
    rewrite Hnobody; reflexivity.
Qed.

Lemma update_alert_unknown_assignee_witness :
  run (update_alert at_noon (Some root) (Some 2) (assign_to 42)) sample_world =
    (sample_world,
     Some {| status := 400;
             body := JUnhandled "Referenced resource does not exist" 400 |}).
Proof.
  apply (update_alert_unknown_assignee sample_world at_noon root 2
           (sample_alert 2 2 None "new") (assign_to 42) 42);
    first [reflexivity | unfold fits_integer; lia].
Defined.

Lemma update_alert_failure w e u id b w' r :
  run (update_alert e u id b) w = (w', Some r) -> status r <> 200 -> w' = w.
Proof.
  unfold update_alert, authorize, select_alert, update_alert_row.
  unfold_monad. intros Hrun Hst.
  destruct u as [usr|]; [| unchanged Hrun].
  destruct (includes all_roles (u_role usr)); [| unchanged Hrun].
  destruct id as [alertId|]; [| unchanged Hrun].
  destruct (updateAlertSchema_errors b); [unchanged Hrun |].
  reduce in Hrun.
  destruct (find (fun a => a_id a =? alertId) (alerts (db w))) as [a|]; [| unchanged Hrun].
  destruct (String.eqb (u_role usr) "analyst" && _); [unchanged Hrun |].
  reduce in Hrun.
  destruct (match au_status b with Some _ => _ | None => _ end); [unchanged Hrun |].
  reduce in Hrun.
  destruct (match au_notes b with Some _ => _ | None => _ end); [unchanged Hrun |].
  destruct (negb (includes alert_statuses _)); [unchanged Hrun |].
  destruct (negb (fk_ok _ _)); [unchanged Hrun |].
  reduce in Hrun.
  destruct (socketio e); inversion Hrun; subst; contradiction Hst; reflexivity.
Qed.

(** X23. An alert request that is not answered with success leaves no
    trace: a failed update leaves the server state exactly as it was, and a
    failed creation leaves every table as it was. *)
Theorem alert_requests_fail_without_trace (w : world) (e : env) (u : option user)
    (w' : world) (r : response) :
  (forall b, run (create_alert e u b) w = (w', Some r) -> status r <> 201 ->
             same_tables (db w) (db w'))
  /\ (forall id b, run (update_alert e u id b) w = (w', Some r) -> status r <> 200 ->
                   w' = w).
Proof.
  split.
  - intros b Hrun Hst.
    destruct (create_alert_cases w e u b) as [w2 [r2 [Hrun2 Hcases]]].
    rewrite Hrun in Hrun2. inversion Hrun2; subst w2 r2.
    destruct Hcases
      as [[_ Hsame] | [usr [tid [ty [sev [descr [txn [_ [_ [_ [_ [_ [_ [Hr _]]]]]]]]]]]]]];
      [exact Hsame |].
    subst r. contradiction Hst. reflexivity.
  - intros id b. apply update_alert_failure.
Qed.

Lemma alert_requests_fail_without_trace_witness :
  same_tables sample_db (db after_refused_alert).
Proof.
  apply (proj1 (alert_requests_fail_without_trace sample_world at_noon (Some root)
                  after_refused_alert
                  {| status := 400;
                     body := JUnhandled "Referenced resource does not exist" 400 |})
               (with_rule_id amount_alert (Some 9))).
  - vm_compute. reflexivity.
  - discriminate.
Defined.

(** ** Cases *)

Lemma link_alert_reaches_insert w e usr cid aid c a :
  includes all_roles (u_role usr) = true ->
  truthyZ aid = true ->
  find (fun x => c_id x =? cid) (cases (db w)) = Some c ->
  find (fun x => a_id x =? aid) (alerts (db w)) = Some a ->
  run (link_alert e (Some usr) (Some cid) (Some aid)) w =
    run (reject_if (case_denied_to usr c) 403 (JError "Access denied to this case") ;;;
         try_catch
           (insert_case_alert e cid aid ;;;
            update_alert_status e "investigating" aid ;;;
            audit "ALERT_ADDED_TO_CASE" (u_id usr) "case" cid ;;;
            respond 200 (JMessage "Alert added to case successfully"))
           (fun error =>
              match error with
              | unique_violation =>
                  respond 409 (JError "Alert is already associated with this case")
              | _ => throw error
              end)) w.
Proof.
  intros Hrole Htruthy Hcase Halert.
  unfold link_alert, authorize, select_case, select_alert, case_denied_to.
  unfold_monad. rewrite Hrole, Htruthy. cbn [negb]. reduce. rewrite Hcase.
  destruct (String.eqb (u_role usr) "analyst" && _ && _); [reflexivity |].
  reduce. rewrite Halert. reflexivity.
Qed.

Lemma linked_exists d cid aid :
  In (cid, aid) (links d) ->
  forall id,
    existsb (fun x => (ca_id x =? id)
                      || ((ca_case_id x =? cid) && (ca_alert_id x =? aid)))
            (case_alerts d) = true.
Proof.
  unfold links. intros Hin id. apply in_map_iff in Hin.
  destruct Hin as [x [Hx Hin]]. inversion Hx; subst.
  apply existsb_exists. exists x. split; [exact Hin |].
  rewrite !Z.eqb_refl, orb_true_r. reflexivity.
Qed.

(** X24. Linking an alert to a case it is already linked to is a
    conflict: the request is answered 409 'Alert is already associated with
    this case', no table changes, and the alert keeps its status. *)
Theorem link_alert_twice_conflicts (w : world) (e : env) (usr : user)
    (cid aid : Z) (c : case) (a : alert) :
  includes all_roles (u_role usr) = true ->
  truthyZ aid = true ->
  find (fun x => c_id x =? cid) (cases (db w)) = Some c ->
  find (fun x => a_id x =? aid) (alerts (db w)) = Some a ->
  case_denied_to usr c = false ->
  In (cid, aid) (links (db w)) ->
  exists w',
    run (link_alert e (Some usr) (Some cid) (Some aid)) w =
      (w', Some {| status := 409;
                   body := JError "Alert is already associated with this case" |})
    /\ same_tables (db w) (db w')
    /\ alert_status (db w') aid = Some (a_status a).
Proof.
  intros Hrole Htruthy Hcase Halert Hallowed Hlinked.
  rewrite (link_alert_reaches_insert _ e _ _ _ _ _ Hrole Htruthy Hcase Halert).
  unfold insert_case_alert. unfold_monad. rewrite Hallowed. reduce.
  rewrite (linked_exists _ _ _ Hlinked). reduce.
  eexists. split; [reflexivity |]. split; [repeat split |].
  unfold alert_status. cbn [db alerts with_case_alerts]. rewrite Halert. reflexivity.
Qed.

Lemma link_alert_twice_conflicts_witness :
  exists w',
    run (link_alert a_bit_later (Some root) (Some 1) (Some 1)) after_link =
      (w', Some {| status := 409;
                   body := JError "Alert is already associated with this case" |})
    /\ same_tables (db after_link) (db w')
    /\ alert_status (db w') 1 = Some "investigating".
Proof.
  edestruct (link_alert_twice_conflicts after_link a_bit_later root 1 1)
    as [w' [Hrun [Hsame Hstatus]]].
  - reflexivity.
  - reflexivity.
  - vm_compute. reflexivity.
  - vm_compute. reflexivity.
  - reflexivity.
  - vm_compute. auto.
  - exists w'. split; [exact Hrun |]. split; [exact Hsame | exact Hstatus].
Defined.



Section LinkRecords.

Variable e : env.
Variable cid : Z.

Lemma insert_case_alert_value aid w w1 :
  insert_case_alert e cid aid w = (w1, Value tt) ->
  links (db w1) = (links (db w) ++ [(cid, aid)])%list
  /\ ~ In (cid, aid) (links (db w))
  /\ alerts (db w1) = alerts (db w) /\ cases (db w1) = cases (db w).
Proof.
  unfold insert_case_alert. unfold_monad. reduce.
  destruct (existsb _ (case_alerts (db w))) eqn:Hunique; [discriminate |].
  destruct (negb _); [discriminate |].
  intros H. inversion H; subst w1; clear H.
  unfold links. cbn [db with_case_alerts case_alerts alerts cases].
  rewrite map_app. split; [reflexivity |]. split; [| repeat split].
  intros Hin. pose proof (linked_exists (db w) cid aid Hin (case_alerts_id_seq (db w))).
  congruence.
Qed.

Lemma link_alerts_links ids :
  forall w w1, link_alerts e cid ids w = (w1, Value tt) ->
    links (db w1) = (links (db w) ++ map (fun i => (cid, i)) ids)%list
    /\ NoDup ids
    /\ (forall i, In i ids -> ~ In (cid, i) (links (db w))).
Proof.
  induction ids as [|aid rest IH]; intros w w1 Hrun.
  - cbn in Hrun. inversion Hrun; subst. cbn [map]. rewrite app_nil_r.
    split; [reflexivity |]. split; [constructor | contradiction].
  - cbn [link_alerts] in Hrun. unfold bind at 1 in Hrun.
    destruct (insert_case_alert e cid aid w) as [w2 [[]|r|err]] eqn:Hins;
      try discriminate.
    apply insert_case_alert_value in Hins. destruct Hins as [Hlinks [Hnew _]].
    unfold bind at 1 in Hrun. rewrite update_alert_status_investigating in Hrun.
    apply IH in Hrun. unfold links in *. cbn [db case_alerts with_alerts] in Hrun.
    destruct Hrun as [Hlinks1 [Hnodup Hfresh]].
    rewrite Hlinks in Hlinks1, Hfresh.
    split; [rewrite Hlinks1, <- app_assoc; reflexivity |]. split.
    + constructor; [| exact Hnodup].
      intros Hin. apply (Hfresh aid Hin). apply in_or_app. right. left. reflexivity.
    + intros i [<- | Hin]; [exact Hnew |].
      intros Hbad. apply (Hfresh i Hin). apply in_or_app. left. exact Hbad.
Qed.

End LinkRecords.

Lemma link_alert_linked w e u id alertId w' r :
  run (link_alert e u id alertId) w = (w', Some r) -> status r = 200 ->
  exists usr cid aid c a,
    u = Some usr /\ id = Some cid /\ alertId = Some aid
    /\ includes all_roles (u_role usr) = true /\ truthyZ aid = true
    /\ find (fun x => c_id x =? cid) (cases (db w)) = Some c
    /\ find (fun x => a_id x =? aid) (alerts (db w)) = Some a
    /\ case_denied_to usr c = false
    /\ links (db w') = (links (db w) ++ [(cid, aid)])%list
    /\ ~ In (cid, aid) (links (db w))
    /\ cases (db w') = cases (db w)
    /\ alerts (db w') =
       map (fun x => if a_id x =? aid then set_status e "investigating" x else x)
           (alerts (db w)).
Proof.
  unfold link_alert, authorize, select_case, select_alert, case_denied_to.
  unfold_monad. intros Hrun Hst.
  destruct u as [usr|]; [| bail Hrun].
  destruct (includes all_roles (u_role usr)) eqn:Hrole; [| bail Hrun].
  destruct id as [cid|]; [| bail Hrun].
  destruct alertId as [aid|]; [| bail Hrun].
  destruct (truthyZ aid) eqn:Htruthy; cbn [negb] in Hrun; [| bail Hrun].
  reduce in Hrun.
  destruct (find (fun c => c_id c =? cid) (cases (db w))) as [c|] eqn:Hcase; [| bail Hrun].
  destruct (String.eqb (u_role usr) "analyst" && _ && _) eqn:Hguard; [bail Hrun |].
  reduce in Hrun.
  destruct (find (fun a => a_id a =? aid) (alerts (db w))) as [a|] eqn:Halert; [| bail Hrun].
  destruct (insert_case_alert e cid aid w) as [w1 [[]|r1|err]] eqn:Hins.
  - apply insert_case_alert_value in Hins.
    destruct Hins as [Hlinks [Hnew [Hal Hcases]]].
    rewrite update_alert_status_investigating in Hrun. reduce in Hrun.
    inversion Hrun; subst; clear Hrun.
    exists usr, cid, aid, c, a. unfold links in *.
    cbn [db alerts cases case_alerts with_alerts].
    repeat split; try assumption; try reflexivity. rewrite Hal. reflexivity.
  - destruct (insert_case_alert_out e cid aid w)
      as [[w2 [err Hthrow]] | [_ [w2 [Hval _]]]]; congruence.
  - destruct err; inversion Hrun; subst; discriminate.
Qed.

Lemma link_alert_conflict w e usr cid aid c a :
  includes all_roles (u_role usr) = true ->
  truthyZ aid = true ->
  find (fun x => c_id x =? cid) (cases (db w)) = Some c ->
  find (fun x => a_id x =? aid) (alerts (db w)) = Some a ->
  case_denied_to usr c = false ->
  In (cid, aid) (links (db w)) ->
  exists w',
    run (link_alert e (Some usr) (Some cid) (Some aid)) w =
      (w', Some {| status := 409;
                   body := JError "Alert is already associated with this case" |})
    /\ same_tables (db w) (db w').
Proof.
  intros Hrole Htruthy Hcase Halert Hallowed Hlinked.
  rewrite (link_alert_reaches_insert _ e _ _ _ _ _ Hrole Htruthy Hcase Halert).
  unfold insert_case_alert. unfold_monad. rewrite Hallowed. reduce.
  rewrite (linked_exists _ _ _ Hlinked). reduce.
  eexists. split; [reflexivity | repeat split].
Qed.

(** X26. A link is recorded once.  A link request answered 200 adds the
    pair (case, alert) to the links, a pair that was not there; the same
    request sent again, at any later time, is then answered 409 and changes
    no table. *)
Theorem link_alert_records_link_once (w : world) (e e2 : env) (u : option user)
    (id alertId : option Z) (w1 : world) (r : response) :
  run (link_alert e u id alertId) w = (w1, Some r) -> status r = 200 ->
  exists cid aid w2,
    id = Some cid /\ alertId = Some aid
    /\ ~ In (cid, aid) (links (db w))
    /\ links (db w1) = (links (db w) ++ [(cid, aid)])%list
    /\ run (link_alert e2 u id alertId) w1 =
         (w2, Some {| status := 409;
                      body := JError "Alert is already associated with this case" |})
    /\ same_tables (db w1) (db w2).
Proof.
  intros Hrun Hst.
  destruct (link_alert_linked _ _ _ _ _ _ _ Hrun Hst)
    as (usr & cid & aid & c & a & Hu & Hid & Haid & Hrole & Htruthy & Hcase & Halert
        & Hallowed & Hlinks & Hnew & Hcases & Hal).
  subst u id alertId.
  assert (Halert1 : find (fun x => a_id x =? aid) (alerts (db w1))
                    = Some (set_status e "investigating" a)).
  { rewrite Hal, find_map_same_id by reflexivity. rewrite Halert. reflexivity. }
  assert (Hcase1 : find (fun x => c_id x =? cid) (cases (db w1)) = Some c)
    by (rewrite Hcases; exact Hcase).
  assert (Hlinked : In (cid, aid) (links (db w1)))
    by (rewrite Hlinks; apply in_or_app; right; left; reflexivity).
  destruct (link_alert_conflict w1 e2 usr cid aid c _ Hrole Htruthy Hcase1 Halert1
              Hallowed Hlinked) as [w2 [Hrun2 Hsame]].
  exists cid, aid, w2.
  split; [reflexivity |]. split; [reflexivity |]. split; [exact Hnew |].
  split; [exact Hlinks |]. split; [exact Hrun2 | exact Hsame].
Qed.

Lemma link_alert_records_link_once_witness :
  exists cid aid w2,
    Some 1 = Some cid /\ Some 1 = Some aid
    /\ links (db after_link) = (links sample_db ++ [(cid, aid)])%list
    /\ run (link_alert a_bit_later (Some root) (Some 1) (Some 1)) after_link =
         (w2, Some {| status := 409;
                      body := JError "Alert is already associated with this case" |}).
Proof.
  edestruct (link_alert_records_link_once sample_world at_noon a_bit_later (Some root)
               (Some 1) (Some 1))
    as (cid & aid & w2 & Hid & Haid & _ & Hlinks & Hrun & _).
  - vm_compute. reflexivity.
  - reflexivity.
  - exists cid, aid, w2. repeat split; assumption.
Defined.

Lemma insert_case_value e cn title descr ctype prio assignedTo createdBy el w w1 row :
  insert_case e cn title descr ctype prio assignedTo createdBy el w = (w1, Value row) ->
  row = {| c_id := cases_id_seq (db w); case_number := cn; c_title := title;
           c_description := descr; case_type := ctype; c_priority := prio;
           c_status := "open"; c_assigned_to := assignedTo;
           c_created_by := Some createdBy; estimated_loss := el;
           c_created_at := now e |}
  /\ cases (db w1) = (cases (db w) ++ [row])%list
  /\ case_alerts (db w1) = case_alerts (db w)
  /\ (forall c, In c (cases (db w)) ->
        c_id c <> cases_id_seq (db w) /\ case_number c <> cn).
Proof.
  unfold insert_case. unfold_monad. reduce.
  destruct (negb (includes case_types ctype && includes case_priorities prio));
    [discriminate |].
  destruct (existsb _ (cases (db w))) eqn:Hunique; [discriminate |].
  destruct (negb _); [discriminate |].
  intros H. inversion H; subst w1 row; clear H.
  cbn [db with_cases cases case_alerts].
  split; [reflexivity |]. split; [reflexivity |]. split; [reflexivity |].
  intros c Hc. apply not_true_iff_false in Hunique.
  split; intros Heq; apply Hunique; apply existsb_exists; exists c;
    (split; [exact Hc |]).
  - rewrite Heq, Z.eqb_refl. reflexivity.
  - rewrite Heq, String.eqb_refl, orb_true_r. reflexivity.
Qed.

Lemma create_case_created w e u b w' r :
  run (create_case e u b) w = (w', Some r) -> status r = 201 ->
  exists usr title descr ctype,
    u = Some usr /\ includes all_roles (u_role usr) = true
    /\ cb_title b = Some title /\ cb_description b = Some descr
    /\ cb_caseType b = Some ctype
    /\ r = {| status := 201;
              body := JCase "Case created successfully"
                            (new_case e (db w) usr b title descr ctype) |}
    /\ cases (db w') =
       (cases (db w) ++ [new_case e (db w) usr b title descr ctype])%list
    /\ links (db w') =
       (links (db w) ++ map (fun i => (cases_id_seq (db w), i)) (alert_ids_of b))%list
    /\ NoDup (alert_ids_of b)
    /\ (forall c, In c (cases (db w)) ->
          c_id c <> cases_id_seq (db w)
          /\ case_number c <> case_number (new_case e (db w) usr b title descr ctype)).
Proof.
  unfold create_case, authorize, alert_ids_of.
  unfold run, try_catch, respond, bind at 1.
  intros Hrun Hst.
  destruct u as [usr|]; [| bail Hrun].
  unfold ret at 1 in Hrun.
  destruct (includes all_roles (u_role usr)) eqn:Hrole; [| bail Hrun].
  destruct (createCaseSchema_errors b); [bail Hrun |].
  destruct (cb_title b) as [title|] eqn:Htitle; [| bail Hrun].
  destruct (cb_description b) as [descr|] eqn:Hdescr; [| bail Hrun].
  destruct (cb_caseType b) as [ctype|] eqn:Htype; [| bail Hrun].
  unfold bind at 1 in Hrun. unfold get_db at 1 in Hrun. unfold bind at 1 in Hrun.
  match type of Hrun with
  | context [insert_case ?a ?b ?c ?d ?f ?g ?h ?i ?j w] =>
      destruct (insert_case_out a b c d f g h i j w)
        as [[w1 [err Hthrow]] | [w1 [row [Hval _]]]]
  end.
  - rewrite Hthrow in Hrun. unfold_monad. reduce in Hrun.
    inversion Hrun; subst. destruct (errorHandler_status err); contradiction.
  - rewrite Hval in Hrun. unfold bind at 1 in Hrun.
    apply insert_case_value in Hval.
    destruct Hval as [Hrow [Hcases [Hca Hfresh]]].
    destruct (link_alerts e (c_id row)
                match cb_alertIds b with Some l => l | None => [] end w1)
      as [w2 [[]|r1|err]] eqn:Hlink.
    + pose proof (link_alerts_value _ _ _ _ _ Hlink) as [_ [Hcases2 _]].
      apply link_alerts_links in Hlink. destruct Hlink as [Hlinks [Hnodup _]].
      assert (Hl1 : links (db w1) = links (db w))
        by (unfold links; rewrite Hca; reflexivity).
      rewrite Hl1 in Hlinks. rewrite Hcases in Hcases2. subst row.
      cbn [c_id] in Hlinks.
      exists usr, title, descr, ctype. unfold new_case.
      unfold_monad. reduce in Hrun.
      assert (Hw : db w' = db w2
                   /\ r = {| status := 201;
                             body := JCase "Case created successfully"
                                       {| c_id := cases_id_seq (db w);
                                          case_number :=
                                            "CASE" ++ dec (year e)
                                            ++ slice_last 6 (dec (now e));
                                          c_title := title; c_description := descr;
                                          case_type := ctype;
                                          c_priority :=
                                            match cb_priority b with
                                            | Some p => p
                                            | None => "medium"
                                            end;
                                          c_status := "open";
                                          c_assigned_to := cb_assignedTo b;
                                          c_created_by := Some (u_id usr);
                                          estimated_loss := cb_estimatedLoss b;
                                          c_created_at := now e |} |})
        by (destruct (socketio e); reduce in Hrun; inversion Hrun; subst;
            split; reflexivity).
      destruct Hw as [Hdb Hr]. rewrite Hdb.
      split; [reflexivity |]. split; [exact Hrole |].
      split; [reflexivity |]. split; [reflexivity |].
      split; [reflexivity |]. split; [exact Hr |].
      split; [exact Hcases2 |]. split; [exact Hlinks |].
      split; [exact Hnodup | exact Hfresh].
    + exfalso. exact (link_alerts_no_reply _ _ _ _ _ _ Hlink).
    + unfold_monad. reduce in Hrun.
      inversion Hrun; subst. destruct (errorHandler_status err); contradiction.
Qed.

(** X27. What a case creation stores.  A creation answered 201 appends
    exactly one case, the one it returns: open, created by the requester,
    with priority 'medium' when the request names none, and with an id and a
    case number no stored case has.  It links each alert of [alertIds] to
    that case once, in the order the request lists them. *)
Theorem create_case_stores_case_and_links (w : world) (e : env) (u : option user)
    (b : case_body) (w' : world) (r : response) :
  run (create_case e u b) w = (w', Some r) -> status r = 201 ->
  exists usr newCase,
    u = Some usr
    /\ r = {| status := 201; body := JCase "Case created successfully" newCase |}
    /\ cases (db w') = (cases (db w) ++ [newCase])%list
    /\ c_status newCase = "open"
    /\ c_created_by newCase = Some (u_id usr)
    /\ c_assigned_to newCase = cb_assignedTo b
    /\ c_priority newCase = match cb_priority b with Some p => p | None => "medium" end
    /\ (forall c, In c (cases (db w)) ->
          c_id c <> c_id newCase /\ case_number c <> case_number newCase)
    /\ links (db w') =
       (links (db w) ++ map (fun i => (c_id newCase, i)) (alert_ids_of b))%list.
Proof.
  intros Hrun Hst.
  destruct (create_case_created _ _ _ _ _ _ Hrun Hst)
    as (usr & title & descr & ctype & Hu & _ & _ & _ & _ & Hr & Hcases & Hlinks
        & _ & Hfresh).
  exists usr, (new_case e (db w) usr b title descr ctype).
  split; [exact Hu |]. split; [exact Hr |]. split; [exact Hcases |].
  split; [reflexivity |]. split; [reflexivity |]. split; [reflexivity |].
  split; [reflexivity |]. split; [exact Hfresh | exact Hlinks].
Qed.

Lemma create_case_stores_case_and_links_witness :
  exists usr newCase,
    Some ana = Some usr
    /\ cases (db after_case) = (cases sample_db ++ [newCase])%list
    /\ c_status newCase = "open"
    /\ c_created_by newCase = Some (u_id usr)
    /\ c_priority newCase = "medium"
    /\ links (db after_case) = [(c_id newCase, 2); (c_id newCase, 1)].
Proof.
  edestruct (create_case_stores_case_and_links sample_world at_noon (Some ana)
               (case_on [2; 1]))
    as (usr & newCase & Hu & _ & Hcases & Hopen & Hby & _ & Hprio & _ & Hlinks).
  - vm_compute. reflexivity.
  - reflexivity.
  - exists usr, newCase.
    split; [exact Hu |]. split; [exact Hcases |]. split; [exact Hopen |].
    split; [exact Hby |]. split; [exact Hprio | exact Hlinks].
Defined.

(** X28. An alert id listed twice in [alertIds] makes the creation fail as
    a whole: the request is not answered 201 (the second link of the same
    alert violates the uniqueness of (case, alert) when nothing fails before
    it), the transaction is rolled back, and no case, link or status change
    is stored. *)
Theorem create_case_duplicate_alert_ids (w : world) (e : env) (u : option user)
    (b : case_body) :
  ~ NoDup (alert_ids_of b) ->
  exists w' r,
    run (create_case e u b) w = (w', Some r)
    /\ status r <> 201
    /\ same_tables (db w) (db w').
Proof.
  intros Hdup.
  destruct (create_case_cases w e u b) as [w' [r [Hrun Hcases]]].
  exists w', r. split; [exact Hrun |].
  destruct Hcases as [[Hst Hsame] | [newCase [Hr _]]]; [split; assumption |].
  exfalso. apply Hdup.
  assert (Hst : status r = 201) by (rewrite Hr; reflexivity).
  destruct (create_case_created _ _ _ _ _ _ Hrun Hst)
    as (_ & _ & _ & _ & _ & _ & _ & _ & _ & _ & _ & _ & Hnodup & _).
  exact Hnodup.
Qed.

Lemma create_case_duplicate_alert_ids_witness :
  exists w' r,
    run (create_case at_noon (Some ana) (case_on [2; 2])) sample_world = (w', Some r)
    /\ status r <> 201
    /\ same_tables sample_db (db w').
Proof.
  apply (create_case_duplicate_alert_ids sample_world at_noon (Some ana) (case_on [2; 2])).
  intros Hnodup. inversion Hnodup as [| ? ? Hnotin _]. apply Hnotin. left. reflexivity.
Defined.

(** What the duplicate is answered. *)
Example create_case_duplicate_answer :
  snd (run (create_case at_noon (Some ana) (case_on [2; 2])) sample_world)
  = Some {| status := 409; body := JUnhandled "Resource already exists" 409 |}.
Proof. vm_compute. reflexivity. Qed.

Lemma link_alert_failure w e u id alertId w' r :
  run (link_alert e u id alertId) w = (w', Some r) -> status r <> 200 ->
  same_tables (db w) (db w')
  /\ audit_log w' = audit_log w /\ emitted w' = emitted w.
Proof.
  unfold link_alert, authorize, select_case, select_alert, insert_case_alert.
  unfold_monad. intros Hrun Hst.
  assert (Hsame : same_tables (db w) (db w) /\ audit_log w = audit_log w
                  /\ emitted w = emitted w)
    by (split; [apply same_tables_refl | split; reflexivity]).
  destruct u as [usr|]; [| inversion Hrun; subst; exact Hsame].
  destruct (includes all_roles (u_role usr)); [| inversion Hrun; subst; exact Hsame].
  destruct id as [cid|]; [| inversion Hrun; subst; exact Hsame].
  destruct alertId as [aid|]; [| inversion Hrun; subst; exact Hsame].
  destruct (truthyZ aid); cbn [negb] in Hrun; [| inversion Hrun; subst; exact Hsame].
  reduce in Hrun.
  destruct (find (fun c => c_id c =? cid) (cases (db w)));
    [| inversion Hrun; subst; exact Hsame].
  destruct (String.eqb (u_role usr) "analyst" && _ && _);
    [inversion Hrun; subst; exact Hsame |].
  reduce in Hrun.
  destruct (find (fun a => a_id a =? aid) (alerts (db w)));
    [| inversion Hrun; subst; exact Hsame].
  destruct (existsb _ (case_alerts (db w)));
    [reduce in Hrun; inversion Hrun; subst; repeat split |].
  destruct (negb _);
    [reduce in Hrun; inversion Hrun; subst; repeat split |].
  reduce in Hrun. unfold update_alert_status in Hrun. unfold_monad. reduce in Hrun.
  inversion Hrun; subst. contradiction Hst. reflexivity.
Qed.

Lemma insert_case_quiet e cn title descr ctype prio assignedTo createdBy el w w1 o :
  insert_case e cn title descr ctype prio assignedTo createdBy el w = (w1, o) ->
  audit_log w1 = audit_log w /\ emitted w1 = emitted w.
Proof.
  unfold insert_case. unfold_monad. reduce.
  destruct (negb (includes case_types ctype && includes case_priorities prio));
    [intros H; inversion H; split; reflexivity |].
  destruct (existsb _ (cases (db w))); [intros H; inversion H; split; reflexivity |].
  destruct (negb _); intros H; inversion H; split; reflexivity.
Qed.

Lemma insert_case_alert_quiet e cid aid w w1 o :
  insert_case_alert e cid aid w = (w1, o) ->
  audit_log w1 = audit_log w /\ emitted w1 = emitted w.
Proof.
  unfold insert_case_alert. unfold_monad. reduce.
  destruct (existsb _ (case_alerts (db w))); [intros H; inversion H; split; reflexivity |].
  destruct (negb _); intros H; inversion H; split; reflexivity.
Qed.

Lemma link_alerts_quiet e cid ids :
  forall w w1 o, link_alerts e cid ids w = (w1, o) ->
    audit_log w1 = audit_log w /\ emitted w1 = emitted w.
Proof.
  induction ids as [|aid rest IH]; intros w w1 o Hrun.
  - cbn in Hrun. inversion Hrun; split; reflexivity.
  - cbn [link_alerts] in Hrun. unfold bind at 1 in Hrun.
    destruct (insert_case_alert e cid aid w) as [w2 [[]|r|err]] eqn:Hins;
      apply insert_case_alert_quiet in Hins; destruct Hins as [Ha He].
    + unfold bind at 1 in Hrun. rewrite update_alert_status_investigating in Hrun.
      apply IH in Hrun. cbn [audit_log emitted] in Hrun.
      destruct Hrun as [Ha2 He2]. split; congruence.
    + inversion Hrun; subst. split; assumption.
    + inversion Hrun; subst. split; assumption.
Qed.

Lemma create_case_failure w e u b w' r :
  run (create_case e u b) w = (w', Some r) -> status r <> 201 ->
  same_tables (db w) (db w')
  /\ audit_log w' = audit_log w /\ emitted w' = emitted w.
Proof.
  unfold create_case, authorize.
  unfold run, try_catch, respond, bind at 1.
  intros Hrun Hst.
  assert (Hsame : same_tables (db w) (db w) /\ audit_log w = audit_log w
                  /\ emitted w = emitted w)
    by (split; [apply same_tables_refl | split; reflexivity]).
  destruct u as [usr|]; [| inversion Hrun; subst; exact Hsame].
  unfold ret at 1 in Hrun.
  destruct (includes all_roles (u_role usr)); [| inversion Hrun; subst; exact Hsame].
  destruct (createCaseSchema_errors b); [inversion Hrun; subst; exact Hsame |].
  destruct (cb_title b) as [title|]; [| inversion Hrun; subst; exact Hsame].
  destruct (cb_description b) as [descr|]; [| inversion Hrun; subst; exact Hsame].
  destruct (cb_caseType b) as [ctype|]; [| inversion Hrun; subst; exact Hsame].
  unfold bind at 1 in Hrun. unfold get_db at 1 in Hrun. unfold bind at 1 in Hrun.
  match type of Hrun with
  | context [insert_case ?a ?b ?c ?d ?f ?g ?h ?i ?j w] =>
      destruct (insert_case a b c d f g h i j w) as [w1 o1] eqn:Hins;
      pose proof (insert_case_quiet _ _ _ _ _ _ _ _ _ _ _ _ Hins) as [Ha1 He1];
      destruct (insert_case_out a b c d f g h i j w)
        as [[w1' [err Hthrow]] | [w1' [row [Hval _]]]]
  end.
  - rewrite Hins in Hthrow. inversion Hthrow; subst w1' o1.
    unfold_monad. reduce in Hrun. inversion Hrun; subst.
    split; [apply same_tables_rollback | split; assumption].
  - rewrite Hins in Hval. inversion Hval; subst w1' o1.
    unfold bind at 1 in Hrun.
    destruct (link_alerts e (c_id row)
                match cb_alertIds b with Some l => l | None => [] end w1)
      as [w2 [[]|r1|err]] eqn:Hlink.
    + unfold_monad. reduce in Hrun.
      destruct (socketio e); reduce in Hrun; inversion Hrun; subst;
        contradiction Hst; reflexivity.
    + exfalso. exact (link_alerts_no_reply _ _ _ _ _ _ Hlink).
    + apply link_alerts_quiet in Hlink. destruct Hlink as [Ha2 He2].
      unfold_monad. reduce in Hrun. inversion Hrun; subst.
      split; [apply same_tables_rollback | split; cbn [audit_log emitted]; congruence].
Qed.

(** X29. A case request that is not answered with success leaves no
    trace: when a creation is not answered 201, or a link request is not
    answered 200, every table holds the rows it held before, no audit entry
    is written and no event is sent. *)
Theorem case_requests_fail_without_trace (w : world) (e : env) (u : option user)
    (w' : world) (r : response) :
  (forall b, run (create_case e u b) w = (w', Some r) -> status r <> 201 ->
             same_tables (db w) (db w')
             /\ audit_log w' = audit_log w /\ emitted w' = emitted w)
  /\ (forall id alertId,
        run (link_alert e u id alertId) w = (w', Some r) -> status r <> 200 ->
        same_tables (db w) (db w')
        /\ audit_log w' = audit_log w /\ emitted w' = emitted w).
Proof.
  split.
  - intros b. apply create_case_failure.
  - intros id alertId. apply link_alert_failure.
Qed.

Lemma case_requests_fail_without_trace_witness :
  same_tables sample_db (db after_failed_case)
  /\ audit_log after_failed_case = audit_log sample_world
  /\ emitted after_failed_case = emitted sample_world.
Proof.
  apply (proj1 (case_requests_fail_without_trace sample_world at_noon (Some ana)
                  after_failed_case
                  {| status := 400;
                     body := JUnhandled "Referenced resource does not exist" 400 |})
               (case_on [2; 99])).
  - vm_compute. reflexivity.
  - discriminate.
Defined.

(** ** Roles *)

Lemma authorize_refuses roles usr A (k : user -> M A) w :
  includes roles (u_role usr) = false ->
  (usr' <- authorize roles (Some usr) ;; k usr') w =
    (w, Reply {| status := 403;
                 body := JDenied "Access denied. Insufficient permissions."
                                 roles (u_role usr) |}).
Proof.
  intros Hrole. unfold authorize, bind, respond. rewrite Hrole. reflexivity.
Qed.

(** X30. The role check comes first and is final.  A user whose role is
    not among a route's allowed roles is answered 403 with the allowed roles
    and the user's own, whatever the request carries, and nothing changes:
    analysts cannot create, update or test a rule, only an admin can delete
    one, and a role outside analyst, supervisor and admin can touch neither
    alerts nor cases. *)
Theorem routes_refuse_other_roles (w : world) (e : env) (usr : user) :
  let refused roles :=
    (w, Some {| status := 403;
                body := JDenied "Access denied. Insufficient permissions."
                                roles (u_role usr) |}) in
  (includes ["supervisor"; "admin"] (u_role usr) = false ->
     (forall b, run (create_rule e (Some usr) b) w = refused ["supervisor"; "admin"])
     /\ (forall id b, run (update_rule e (Some usr) id b) w
                      = refused ["supervisor"; "admin"])
     /\ (forall id b, run (test_rule (Some usr) id b) w
                      = refused ["supervisor"; "admin"]))
  /\ (includes ["admin"] (u_role usr) = false ->
        forall id, run (delete_rule (Some usr) id) w = refused ["admin"])
  /\ (includes all_roles (u_role usr) = false ->
        (forall b, run (create_alert e (Some usr) b) w = refused all_roles)
        /\ (forall id b, run (update_alert e (Some usr) id b) w = refused all_roles)
        /\ (forall b, run (create_case e (Some usr) b) w = refused all_roles)
        /\ (forall id alertId, run (link_alert e (Some usr) id alertId) w
                               = refused all_roles)).
Proof.
  cbv zeta. split; [| split].
  - intros Hrole. repeat split; intros;
      unfold run, create_rule, update_rule, test_rule;
      rewrite (authorize_refuses _ _ _ _ _ Hrole); reflexivity.
  - intros Hrole id. unfold run, delete_rule.
    rewrite (authorize_refuses _ _ _ _ _ Hrole). reflexivity.
  - intros Hrole. repeat split; intros;
      unfold run, create_alert, update_alert, create_case, link_alert;
      rewrite (authorize_refuses _ _ _ _ _ Hrole); reflexivity.
Qed.

Lemma routes_refuse_other_roles_witness :
  run (create_rule at_noon (Some ana) location_without_countries) sample_world =
    (sample_world,
     Some {| status := 403;
             body := JDenied "Access denied. Insufficient permissions."
                             ["supervisor"; "admin"] "analyst" |})
  /\ run (delete_rule (Some sam) (Some 3)) sample_world =
       (sample_world,
        Some {| status := 403;
                body := JDenied "Access denied. Insufficient permissions."
                                ["admin"] "supervisor" |})
  /\ run (create_case at_noon (Some the_clerk) (case_on [2])) sample_world =
       (sample_world,
        Some {| status := 403;
                body := JDenied "Access denied. Insufficient permissions."
                                all_roles "viewer" |}).
Proof.
  split; [| split].
  - apply (proj1 (routes_refuse_other_roles sample_world at_noon ana)). reflexivity.
  - apply (proj1 (proj2 (routes_refuse_other_roles sample_world at_noon sam))).
    reflexivity.
  - apply (proj2 (proj2 (routes_refuse_other_roles sample_world at_noon the_clerk))).
    reflexivity.
Defined.
